(** * NanoHash Invoice: the invoice session of [script.js]

    A shallow embedding of the session state of [script.js] (the line items,
    the invoice counter, the invoice history) and of the functions that read
    and change it.  JavaScript numbers are IEEE 754 doubles and are modelled
    by Rocq's primitive binary64 floats; strings are modelled by their UTF-8
    bytes; arrays of line items are objects of a heap, because the script
    shares them between the live invoice and the history.  What the script
    draws (the page, the PDF, the QR code) is left out, but for the
    exceptions the drawing code raises, the texts it derives from the
    fingerprint and the class lists of the theme. *)

From Stdlib Require Import Floats ZArith Ascii String List DecimalString.
From Stdlib.Strings Require Import Byte.
From stdpp Require Import base option list gmap strings.

Set Warnings "-inexact-float,-register-all".
Set Default Proof Using "Type".

Local Open Scope float_scope.

(** ** JavaScript values *)

Module JS.

(** A numeric property as the script can hold it: a double, or [null]
    where a value came back from JSON text in which [JSON.stringify] had
    written [null] for NaN or an infinity. *)
Inductive value := Num (x : float) | Null.

(** ToNumber on such a property: [null] converts to [+0]. *)
Definition ToNumber (v : value) : float :=
  match v with Num x => x | Null => 0 end.

(** ToBoolean on a number: NaN, [+0] and [-0] are falsy. *)
Definition ToBoolean (x : float) : bool := negb (is_nan x || is_zero x).

(** [x || y] on numbers. *)
Definition or_number (x y : float) : float := if ToBoolean x then x else y.

(** [s || d] on strings: only the empty string is falsy. *)
Definition or_string (s d : string) : string :=
  match s with EmptyString => d | String _ _ => s end.

(** [v !== w]: two numbers differ unless they compare equal (NaN differs
    from itself), [null] differs from every number and not from [null]. *)
Definition strict_neq (v w : value) : bool :=
  match v, w with
  | Num x, Num y => negb (x =? y)%float
  | Null, Null => false
  | _, _ => true
  end.

(** [x > y] is [y < x]. *)
Definition gtb (x y : float) : bool := (y <? x)%float.

(** The exceptions the modelled code can raise. *)
Inductive exn := TypeError | SyntaxError.

End JS.
Export JS.

(** ** JSON text *)

Module JSON.

Definition dquote : ascii := "034"%char.
Definition backslash : ascii := "092"%char.

Definition hex_digit (n : N) : ascii :=
  ascii_of_N (if (n <? 10)%N then 48 + n else 87 + n)%N.

Definition nibble (b0 b1 b2 b3 : bool) : N :=
  (N.b2n b0 + 2 * N.b2n b1 + 4 * N.b2n b2 + 8 * N.b2n b3)%N.

(** QuoteJSONString, one code unit: the short escapes, [\u00xx] for the
    other control characters, the character itself otherwise. *)
Definition escape_char (c : ascii) : string :=
  match c with
  | "008"%char => String backslash "b"
  | "009"%char => String backslash "t"
  | "010"%char => String backslash "n"
  | "012"%char => String backslash "f"
  | "013"%char => String backslash "r"
  | "034"%char => String backslash (String dquote "")
  | "092"%char => String backslash (String backslash "")
  | Ascii b0 b1 b2 b3 b4 false false false =>
      String backslash
        (String "u" (String "0" (String "0"
          (String (hex_digit (N.b2n b4))
            (String (hex_digit (nibble b0 b1 b2 b3)) "")))))
  | _ => String c ""
  end.

Fixpoint escape (s : string) : string :=
  match s with
  | EmptyString => ""
  | String c r => escape_char c +:+ escape r
  end.

Definition quote (s : string) : string :=
  String dquote (escape s +:+ String dquote "").

Definition member (key text : string) : string := quote key +:+ ":" +:+ text.
Definition object (members : list string) : string :=
  "{" +:+ String.concat "," members +:+ "}".
Definition array (elements : list string) : string :=
  "[" +:+ String.concat "," elements +:+ "]".

Section Numbers.
(** Number::toString (radix 10) of the engine. *)
Variable Number_toString : float -> string.

(** SerializeJSONProperty on a number: finite numbers print, the others
    are written [null]. *)
Definition number (x : float) : string :=
  if is_finite x then Number_toString x else "null".

Definition value (v : JS.value) : string :=
  match v with Num x => number x | Null => "null" end.
End Numbers.

(** What a number is after [JSON.parse(JSON.stringify(x))]: a finite
    double prints in the shortest form that reads back as itself ([-0]
    prints as [0]); NaN and the infinities come back as [null]. *)
Definition roundtrip_number (x : float) : JS.value :=
  if is_finite x then (if is_zero x then Num 0 else Num x) else Null.

Definition roundtrip (v : JS.value) : JS.value :=
  match v with Num x => roundtrip_number x | Null => Null end.

(** The value of a hexadecimal digit. *)
Definition unhex (c : ascii) : N :=
  let n := N_of_ascii c in
  (if n <? 58 then n - 48 else n - 87)%N.

(** Reads an escaped string back, up to its closing quote: the inverse
    of [escape], by which quoting is shown to lose nothing. *)
Fixpoint read_string (s : string) : string :=
  match s with
  | EmptyString => ""
  | String c r =>
      if Ascii.eqb c dquote then ""
      else if Ascii.eqb c backslash then
        match r with
        | String "u" (String _ (String _ (String h (String l r')))) =>
            String (ascii_of_N (16 * unhex h + unhex l)) (read_string r')
        | String "b" r' => String "008" (read_string r')
        | String "t" r' => String "009" (read_string r')
        | String "n" r' => String "010" (read_string r')
        | String "f" r' => String "012" (read_string r')
        | String "r" r' => String "013" (read_string r')
        | String d r' => String d (read_string r')
        | EmptyString => ""
        end
      else String c (read_string r)
  end.

End JSON.

(** ** Hexadecimal rendering of a digest *)

(** [b.toString(16)] for an element [b] of a [Uint8Array]. *)
Definition toString16 (b : byte) : string :=
  let n := Byte.to_N b in
  if (n <? 16)%N then String (JSON.hex_digit n) ""
  else String (JSON.hex_digit (n / 16)) (String (JSON.hex_digit (n mod 16)) "").

(** [s.padStart(2, '0')] for the one or two digits of a byte. *)
Definition padStart2 (s : string) : string :=
  match s with
  | String c EmptyString => String "0" (String c "")
  | _ => s
  end.

(** [hashArray.map(b => b.toString(16).padStart(2, '0')).join('')] *)
Definition hashHex (hashArray : list byte) : string :=
  String.concat "" (map (fun b => padStart2 (toString16 b)) hashArray).

(** ** The objects of the script *)

(** A line item, [{ id, name, quantity, price }]. *)
Module Item.
Record t := mk {
  id : JS.value;
  name : string;
  quantity : JS.value;
  price : JS.value }.
End Item.

(** The object [calculateTotals] returns. *)
Module Totals.
Record t := mk {
  subtotal : float;
  tax : float;
  total : float;
  convertedTotal : float;
  currency : string;
  taxRate : float }.
End Totals.

(** An entry of [invoiceHistory].  [A] is how the entry holds its items: a
    reference to an array of the heap while the script runs, the items
    themselves in JSON text.  [hash] and [timestamp] are [undefined] until a
    fingerprint was displayed. *)
Module Invoice.
Record t (A : Type) := mk {
  invoiceNumber : JS.value;
  clientName : string;
  fiscalField : string;
  total : JS.value;
  currency : string;
  convertedTotal : JS.value;
  date : string;
  hash : option string;
  timestamp : option string;
  items : A }.
Arguments mk {A}.
Arguments invoiceNumber {A}.
Arguments clientName {A}.
Arguments fiscalField {A}.
Arguments total {A}.
Arguments currency {A}.
Arguments convertedTotal {A}.
Arguments date {A}.
Arguments hash {A}.
Arguments timestamp {A}.
Arguments items {A}.

Definition with_items {A B} (r : t A) (x : B) : t B :=
  mk (invoiceNumber r) (clientName r) (fiscalField r) (total r) (currency r)
     (convertedTotal r) (date r) (hash r) (timestamp r) x.
End Invoice.

(** The data [generateBlockchainData] hashes and the block it resolves to. *)
Module Block.
Record line := mkLine {
  name : string;
  quantity : JS.value;
  price : JS.value }.

Record data := mkData {
  invoiceNumber : JS.value;
  clientName : string;
  total : float;
  timestamp : string;
  items : list line }.

Record t := mk {
  hash : string;
  block_timestamp : string;
  block_data : data }.
End Block.

(** The [value]s of the input elements the script reads and writes. *)
Module Form.
Record t := mk {
  itemName : string;
  itemQuantity : string;
  itemPrice : string;
  taxRate : string;
  currency : string;
  clientName : string;
  fiscalField : string }.

Inductive field :=
  ItemName | ItemQuantity | ItemPrice | TaxRate | Currency | ClientName | FiscalField.

Definition set (fd : field) (v : string) (f : t) : t :=
  match fd with
  | ItemName => mk v (itemQuantity f) (itemPrice f) (taxRate f) (currency f) (clientName f) (fiscalField f)
  | ItemQuantity => mk (itemName f) v (itemPrice f) (taxRate f) (currency f) (clientName f) (fiscalField f)
  | ItemPrice => mk (itemName f) (itemQuantity f) v (taxRate f) (currency f) (clientName f) (fiscalField f)
  | TaxRate => mk (itemName f) (itemQuantity f) (itemPrice f) v (currency f) (clientName f) (fiscalField f)
  | Currency => mk (itemName f) (itemQuantity f) (itemPrice f) (taxRate f) v (clientName f) (fiscalField f)
  | ClientName => mk (itemName f) (itemQuantity f) (itemPrice f) (taxRate f) (currency f) v (fiscalField f)
  | FiscalField => mk (itemName f) (itemQuantity f) (itemPrice f) (taxRate f) (currency f) (clientName f) v
  end.
End Form.

(** ** JSON values *)

(** The value a JSON text denotes, which [JSON.parse] returns as arrays
    and objects.  The members of an object are kept as the text has them,
    in its order. *)
Module Json.
Inductive t :=
| JNull
| JBool (b : bool)
| JNumber (x : float)
| JString (s : string)
| JArray (elements : list t)
| JObject (members : list (string * t)).
End Json.

(** What [JSON.parse] makes of the text kept under ['invoiceHistory']:
    [Entries] when the value is an array of entries as [saveToHistory]
    writes them (their members in the order of the object literal of
    [generatePDF], [hash] and [timestamp] present or not), [Other] with
    the value in every other case: [null], a number, a string, an object,
    an array with an element of another shape. *)
Inductive parsed :=
| Entries (records : list (Invoice.t (list Item.t)))
| Other (v : Json.t).

(** What the variable [invoiceHistory] holds when the listener of
    [DOMContentLoaded] has returned: the entries of the state, or a value
    that is no array of entries. *)
Inductive held :=
| Entries_held
| Value_held (v : Json.t).

(** ** The browser *)

(** The built-ins the script calls, as the engine provides them.
    [crypto_subtle_digest] is [crypto.subtle.digest('SHA-256', _)]; it is
    [None] where [crypto.subtle] is undefined (a page that is not served
    from a secure context).  [JSON_parse_history] is [JSON.parse] on the
    text stored under ['invoiceHistory']; [None] is a [SyntaxError]. *)
Record Platform := {
  parseFloat : string -> float;
  parseInt : string -> float;
  String_trim : string -> string;
  Number_toString : float -> string;
  Date_toISOString : float -> string;
  Date_toLocaleDateString : float -> string;
  crypto_subtle_digest : option (list byte -> list byte);
  JSON_parse_history : string -> option parsed }.

(** ** Global state *)

(** The arrays of line items live in [heap]; [items] and the [items] of a
    history entry are references into it.  [invoiceHistory] itself is
    reached through one variable only and is held by value. *)
Record State := mkState {
  heap : list (list Item.t);
  items : nat;
  invoiceNumber : JS.value;
  invoiceHistory : list (Invoice.t nat);
  currentInvoiceHash : option string;
  currentInvoiceTimestamp : option string;
  form : Form.t;
  localStorage : gmap string string }.

Definition with_heap (h : list (list Item.t)) (st : State) : State :=
  mkState h (items st) (invoiceNumber st) (invoiceHistory st)
    (currentInvoiceHash st) (currentInvoiceTimestamp st) (form st) (localStorage st).
Definition with_items (l : nat) (st : State) : State :=
  mkState (heap st) l (invoiceNumber st) (invoiceHistory st)
    (currentInvoiceHash st) (currentInvoiceTimestamp st) (form st) (localStorage st).
Definition with_invoiceNumber (n : JS.value) (st : State) : State :=
  mkState (heap st) (items st) n (invoiceHistory st)
    (currentInvoiceHash st) (currentInvoiceTimestamp st) (form st) (localStorage st).
Definition with_invoiceHistory (h : list (Invoice.t nat)) (st : State) : State :=
  mkState (heap st) (items st) (invoiceNumber st) h
    (currentInvoiceHash st) (currentInvoiceTimestamp st) (form st) (localStorage st).
Definition with_currentInvoice (h ts : option string) (st : State) : State :=
  mkState (heap st) (items st) (invoiceNumber st) (invoiceHistory st)
    h ts (form st) (localStorage st).
Definition with_form (f : Form.t) (st : State) : State :=
  mkState (heap st) (items st) (invoiceNumber st) (invoiceHistory st)
    (currentInvoiceHash st) (currentInvoiceTimestamp st) f (localStorage st).
Definition with_localStorage (ls : gmap string string) (st : State) : State :=
  mkState (heap st) (items st) (invoiceNumber st) (invoiceHistory st)
    (currentInvoiceHash st) (currentInvoiceTimestamp st) (form st) ls.

(** The array a reference points to. *)
Definition deref (h : list (list Item.t)) (l : nat) : list Item.t :=
  default [] (h !! l).

(** The items of the invoice being built. *)
Definition current_items (st : State) : list Item.t := deref (heap st) (items st).

(** The items an entry of the history holds. *)
Definition entry_items (st : State) (r : Invoice.t nat) : list Item.t :=
  deref (heap st) (Invoice.items r).

(** ** Effects: state and exceptions *)

Inductive completion (A : Type) := Normal (a : A) | Throw (e : exn).
Arguments Normal {A}.
Arguments Throw {A}.

(** A statement runs from a state to a completion and the state it leaves;
    what was assigned before a [throw] stays assigned. *)
Definition Eff (A : Type) : Type := State -> completion A * State.

Definition ret {A} (a : A) : Eff A := fun st => (Normal a, st).
Definition throw {A} (e : exn) : Eff A := fun st => (Throw e, st).
Definition bind {A B} (m : Eff A) (k : A -> Eff B) : Eff B :=
  fun st =>
    match m st with
    | (Normal a, st') => k a st'
    | (Throw e, st') => (Throw e, st')
    end.
Definition gets {A} (f : State -> A) : Eff A := fun st => (Normal (f st), st).
Definition modify (f : State -> State) : Eff unit := fun st => (Normal tt, f st).

Declare Scope eff_scope.
Delimit Scope eff_scope with eff.
Notation "x <- m ;; k" := (bind m (fun x => k))
  (at level 100, m at next level, right associativity) : eff_scope.
Notation "m ;; k" := (bind m (fun _ => k))
  (at level 100, right associativity) : eff_scope.
Local Open Scope eff_scope.

(** The state a statement leaves. *)
Definition exec {A} (m : Eff A) (st : State) : State := snd (m st).

(** [new Array]: a fresh object of the heap. *)
Definition alloc (v : list Item.t) : Eff nat :=
  fun st => (Normal (length (heap st)), with_heap (heap st ++ [v])%list st).

(** [a.push(x)] on the array behind [l]: the object itself changes. *)
Definition push (l : nat) (x : Item.t) : Eff unit :=
  modify (fun st => with_heap (alter (fun v => v ++ [x])%list l (heap st)) st).

Definition getItem (key : string) : Eff (option string) :=
  gets (fun st => localStorage st !! key).
Definition setItem (key text : string) : Eff unit :=
  modify (fun st => with_localStorage (<[key := text]> (localStorage st)) st).

(** The object [updateDisplay] hands to [generateBlockchainData]; [items]
    is the live array itself. *)
Module InvoiceData.
Record t := mk {
  invoiceNumber : JS.value;
  clientName : string;
  total : float;
  items : nat }.
End InvoiceData.

(** ** Global constants *)

(** Currency exchange rates relative to USD.  A property read with another
    key is [undefined], or a function or object inherited from
    [Object.prototype]; all of these convert to NaN in a product, which is
    how [rate_of] reads the table. *)
Definition exchangeRates : gmap string float :=
  {[ "USD" := 1; "EUR" := 0.92; "BOB" := 6.91 ]}.

Definition rate_of (currency : string) : float :=
  default nan (exchangeRates !! currency).

(** A method call ([toFixed], [toString]) on a numeric property: on [null]
    it raises a TypeError. *)
Definition has_methods (v : JS.value) : bool :=
  match v with Num _ => true | Null => false end.

(** The part of an item that is hashed: the id is left out. *)
Definition line_of (item : Item.t) : Block.line :=
  Block.mkLine (Item.name item) (Item.quantity item) (Item.price item).

(** ** The script *)

Section Script.

Variable P : Platform.

(** *** JSON.stringify on the objects of the script *)

Definition stringify_line (i : Block.line) : string :=
  JSON.object
    [ JSON.member "name" (JSON.quote (Block.name i));
      JSON.member "quantity" (JSON.value (Number_toString P) (Block.quantity i));
      JSON.member "price" (JSON.value (Number_toString P) (Block.price i)) ].

Definition stringify_blockData (d : Block.data) : string :=
  JSON.object
    [ JSON.member "invoiceNumber" (JSON.value (Number_toString P) (Block.invoiceNumber d));
      JSON.member "clientName" (JSON.quote (Block.clientName d));
      JSON.member "total" (JSON.number (Number_toString P) (Block.total d));
      JSON.member "timestamp" (JSON.quote (Block.timestamp d));
      JSON.member "items" (JSON.array (map stringify_line (Block.items d))) ].

Definition stringify_item (i : Item.t) : string :=
  JSON.object
    [ JSON.member "id" (JSON.value (Number_toString P) (Item.id i));
      JSON.member "name" (JSON.quote (Item.name i));
      JSON.member "quantity" (JSON.value (Number_toString P) (Item.quantity i));
      JSON.member "price" (JSON.value (Number_toString P) (Item.price i)) ].

(** A property whose value is [undefined] is left out. *)
Definition optional_member (key : string) (v : option string) : list string :=
  match v with Some s => [JSON.member key (JSON.quote s)] | None => [] end.

Definition stringify_invoice (r : Invoice.t (list Item.t)) : string :=
  JSON.object
    ([ JSON.member "invoiceNumber" (JSON.value (Number_toString P) (Invoice.invoiceNumber r));
       JSON.member "clientName" (JSON.quote (Invoice.clientName r));
       JSON.member "fiscalField" (JSON.quote (Invoice.fiscalField r));
       JSON.member "total" (JSON.value (Number_toString P) (Invoice.total r));
       JSON.member "currency" (JSON.quote (Invoice.currency r));
       JSON.member "convertedTotal" (JSON.value (Number_toString P) (Invoice.convertedTotal r));
       JSON.member "date" (JSON.quote (Invoice.date r)) ]
     ++ optional_member "hash" (Invoice.hash r)
     ++ optional_member "timestamp" (Invoice.timestamp r)
     ++ [ JSON.member "items" (JSON.array (map stringify_item (Invoice.items r))) ])%list.

(** [JSON.stringify(invoiceHistory)]: every entry with the items its
    reference points to. *)
Definition stringify_history (h : list (list Item.t)) (hist : list (Invoice.t nat)) : string :=
  JSON.array
    (map (fun r => stringify_invoice (Invoice.with_items r (deref h (Invoice.items r)))) hist).

(** [JSON.parse(JSON.stringify(items))]: a new array of new items. *)
Definition copy_item (i : Item.t) : Item.t :=
  Item.mk (JSON.roundtrip (Item.id i)) (Item.name i)
    (JSON.roundtrip (Item.quantity i)) (JSON.roundtrip (Item.price i)).

(** *** Blockchain functions *)

(** [generateHash(message)]: the SHA-256 digest of the UTF-8 bytes of
    [JSON.stringify(message)], in hexadecimal.  Reading [digest] off an
    undefined [crypto.subtle] raises a TypeError.  The promise is
    modelled by its value: the continuation of [then] runs with the
    digest before the next event is handled. *)
Definition generateHash (message : Block.data) : Eff string :=
  let msgBuffer := list_byte_of_string (stringify_blockData message) in
  match crypto_subtle_digest P with
  | None => throw TypeError
  | Some digest => ret (hashHex (digest msgBuffer))
  end.

(** [now] is the clock reading behind [new Date()]. *)
Definition generateBlockchainData (now : float) (invoiceData : InvoiceData.t) : Eff Block.t :=
  let timestamp := Date_toISOString P now in
  its <- gets (fun st => deref (heap st) (InvoiceData.items invoiceData));;
  let blockData :=
    Block.mkData (InvoiceData.invoiceNumber invoiceData)
      (InvoiceData.clientName invoiceData)
      (InvoiceData.total invoiceData)
      timestamp
      (map line_of its) in
  hash <- generateHash blockData;;
  ret (Block.mk hash timestamp blockData).

(** *** Item validation *)

(** The messages written next to the inputs are rendering and are left
    out; the three checks all run. *)
Definition validateItem : Eff bool :=
  f <- gets form;;
  let name := String_trim P (Form.itemName f) in
  let quantity := parseFloat P (Form.itemQuantity f) in
  let price := parseFloat P (Form.itemPrice f) in
  let isValid := true in
  let isValid := if String.eqb name "" then false else isValid in
  let isValid := if negb (ToBoolean quantity) || (quantity <=? 0)%float then false else isValid in
  let isValid := if negb (ToBoolean price) || (price <=? 0)%float then false else isValid in
  ret isValid.

(** *** Calculation functions *)

Definition getTaxRate : Eff float :=
  f <- gets form;;
  let taxRateInput := Form.taxRate f in
  let taxRate := or_number (parseFloat P taxRateInput) 13 in
  let taxRate := if (taxRate <? 0)%float then 0 else taxRate in
  let taxRate := if gtb taxRate 100 then 100 else taxRate in
  ret (taxRate / 100).

(** [items.reduce(function(sum, item) {...}, 0)] *)
Definition subtotal_of (its : list Item.t) : float :=
  fold_left
    (fun sum item => sum + ToNumber (Item.quantity item) * ToNumber (Item.price item))
    its 0.

Definition calculateTotals : Eff Totals.t :=
  its <- gets current_items;;
  let subtotal := subtotal_of its in
  taxRate <- getTaxRate;;
  let tax := subtotal * taxRate in
  let total := subtotal + tax in
  f <- gets form;;
  let currency := Form.currency f in
  let convertedTotal := total * rate_of currency in
  ret (Totals.mk subtotal tax total convertedTotal currency (taxRate * 100)).

(** *** Display *)

(** What [updateDisplay] writes into the page is rendering; the model
    keeps the TypeError of [item.price.toFixed(2)] on a [null] price,
    which ends the function before the fingerprint is made, and the two
    properties of [window] the continuation stores. *)
Definition updateDisplay (now : float) : Eff unit :=
  its <- gets current_items;;
  if (length its =? 0)%nat then ret tt
  else
    (if forallb (fun item => has_methods (Item.price item)) its
     then ret tt else throw TypeError);;
    totals <- calculateTotals;;
    f <- gets form;;
    let clientName := or_string (Form.clientName f) "General Client" in
    n <- gets invoiceNumber;;
    l <- gets items;;
    let invoiceData := InvoiceData.mk n clientName (Totals.total totals) l in
    blockData <- generateBlockchainData now invoiceData;;
    modify (with_currentInvoice (Some (Block.hash blockData))
              (Some (Block.block_timestamp blockData))).

(** *** Item management *)

(** [now] is [Date.now()], [now'] the later clock reading of the
    fingerprint. *)
Definition addItem (now now' : float) : Eff unit :=
  valid <- validateItem;;
  if negb valid then ret tt
  else
    f <- gets form;;
    let item :=
      Item.mk (Num now)
        (String_trim P (Form.itemName f))
        (Num (parseFloat P (Form.itemQuantity f)))
        (Num (parseFloat P (Form.itemPrice f))) in
    l <- gets items;;
    push l item;;
    modify (fun st =>
      with_form (Form.set Form.ItemPrice ""
                  (Form.set Form.ItemQuantity ""
                    (Form.set Form.ItemName "" (form st)))) st);;
    updateDisplay now'.

(** [filter] builds a new array, which [items] is then bound to. *)
Definition removeItem (id : JS.value) (now : float) : Eff unit :=
  its <- gets current_items;;
  l <- alloc (List.filter (fun item => strict_neq (Item.id item) id) its);;
  modify (with_items l);;
  updateDisplay now.

(** *** History *)

Definition saveToHistory (invoiceData : Invoice.t nat) : Eff unit :=
  modify (fun st => with_invoiceHistory (invoiceData :: invoiceHistory st) st);;
  hist <- gets invoiceHistory;;
  (if (50 <? length hist)%nat
   then modify (with_invoiceHistory (take 50 hist))
   else ret tt);;
  text <- gets (fun st => stringify_history (heap st) (invoiceHistory st));;
  setItem "invoiceHistory" text.

(** The list the modal shows is rendering; the model keeps the TypeError
    of [toFixed] on a [null] total. *)
Definition showHistory : Eff unit :=
  hist <- gets invoiceHistory;;
  if forallb (fun r => has_methods (Invoice.total r) && has_methods (Invoice.convertedTotal r)) hist
  then ret tt else throw TypeError.

(** [confirmed] is the answer to [confirm(...)].  [splice(index, 1)]
    removes the entry at [index] when there is one. *)
Definition deleteInvoice (index : nat) (confirmed : bool) : Eff unit :=
  if confirmed then
    modify (fun st => with_invoiceHistory (delete index (invoiceHistory st)) st);;
    text <- gets (fun st => stringify_history (heap st) (invoiceHistory st));;
    setItem "invoiceHistory" text;;
    showHistory
  else ret tt.

(** [invoiceHistory[index]] is [undefined] past the end, and reading
    [items] off it raises a TypeError. *)
Definition regenerateInvoice (index : nat) (now : float) : Eff unit :=
  hist <- gets invoiceHistory;;
  match hist !! index with
  | None => throw TypeError
  | Some invoice =>
      modify (with_items (Invoice.items invoice));;
      modify (with_invoiceNumber (Invoice.invoiceNumber invoice));;
      modify (fun st =>
        with_form (Form.set Form.FiscalField (or_string (Invoice.fiscalField invoice) "")
                    (Form.set Form.ClientName (Invoice.clientName invoice) (form st))) st);;
      updateDisplay now
  end.

(** *** PDF generation *)

(** The drawing calls of jsPDF are rendering; the model keeps the
    TypeError of [item.quantity.toString()] and [item.price.toFixed(2)]
    on [null], raised while the table is drawn, before anything is
    saved.  [now] is the clock reading of [new Date()]. *)
Definition generatePDF (now : float) : Eff unit :=
  f <- gets form;;
  let clientName := or_string (Form.clientName f) "General Client" in
  let fiscalField := or_string (Form.fiscalField f) "" in
  totals <- calculateTotals;;
  let currentDate := Date_toLocaleDateString P now in
  its <- gets current_items;;
  (if forallb (fun item => has_methods (Item.quantity item) && has_methods (Item.price item)) its
   then ret tt else throw TypeError);;
  n <- gets invoiceNumber;;
  hash <- gets currentInvoiceHash;;
  timestamp <- gets currentInvoiceTimestamp;;
  copy <- alloc (map copy_item its);;
  saveToHistory
    (Invoice.mk n clientName fiscalField (Num (Totals.total totals))
       (Totals.currency totals) (Num (Totals.convertedTotal totals))
       currentDate hash timestamp copy);;
  modify (fun st => with_invoiceNumber (Num (ToNumber (invoiceNumber st) + 1)) st);;
  n' <- gets invoiceNumber;;
  setItem "invoiceNumber" (Number_toString P (ToNumber n'));;
  empty <- alloc [];;
  modify (with_items empty);;
  updateDisplay now.

(** *** Theme and initialization *)

Definition setTheme (theme : string) : Eff unit :=
  if String.eqb theme "dark" then setItem "theme" "dark"
  else setItem "theme" "light".

(** [x || d] and [if (x)] for what [localStorage.getItem] returns:
    [null] and the empty string are falsy. *)
Definition saved (x : option string) : option string :=
  match x with Some (String _ _ as s) => Some s | _ => None end.

(** The parsed entries become objects of the script: each array of items
    is a new object of the heap. *)
Fixpoint adopt (records : list (Invoice.t (list Item.t))) : Eff (list (Invoice.t nat)) :=
  match records with
  | [] => ret []
  | r :: rest =>
      l <- alloc (Invoice.items r);;
      rest' <- adopt rest;;
      ret (Invoice.with_items r l :: rest')
  end.

(** The listener of [DOMContentLoaded].  Its last statement assigns to
    [invoiceHistory] whatever [JSON.parse] returns, with no check.  An
    array of entries becomes the history of the state.  Any other value
    is assigned all the same, and the listener returns normally: the
    model returns that value, because [State] holds a history of entries
    only; its field [invoiceHistory] is left as it was and does not stand
    for the variable from then on, so that what the handlers do with such
    a value is not described by this model. *)
Definition onDOMContentLoaded : Eff held :=
  savedTheme <- getItem "theme";;
  setTheme (default "light" (saved savedTheme));;
  savedInvoiceNumber <- getItem "invoiceNumber";;
  match saved savedInvoiceNumber with
  | Some s => modify (with_invoiceNumber (Num (parseInt P s)))
  | None => ret tt
  end;;
  savedHistory <- getItem "invoiceHistory";;
  match saved savedHistory with
  | Some s =>
      match JSON_parse_history P s with
      | None => throw SyntaxError
      | Some (Entries records) =>
          hist <- adopt records;;
          modify (with_invoiceHistory hist);;
          ret Entries_held
      | Some (Other v) => ret (Value_held v)
      end
  | None => ret Entries_held
  end.

(** *** The session *)

(** The state the script's declarations leave: an empty array behind
    [items], the counter at 1001, an empty history.  [f] is what the
    page's inputs hold and [storage] what the browser kept. *)
Definition script_loaded (f : Form.t) (storage : gmap string string) : State :=
  mkState [[]] 0 (Num 1001) [] None None f storage.

(** The state after the page has loaded.  It describes the page when the
    listener did not assign a value other than an array of entries to
    [invoiceHistory] (see [typed_history] below). *)
Definition session_start (f : Form.t) (storage : gmap string string) : State :=
  exec onDOMContentLoaded (script_loaded f storage).

(** What the user does, with the clock readings the handlers take.
    Typing in the tax rate and choosing a currency run [updateDisplay]
    through the listeners registered for them. *)
Inductive Action :=
| Input (fd : Form.field) (text : string) (now : float)
| AddItem (now now' : float)
| RemoveItem (id : JS.value) (now : float)
| GeneratePDF (now : float)
| DeleteInvoice (index : nat) (confirmed : bool)
| RegenerateInvoice (index : nat) (now : float).

Definition handler (a : Action) : Eff unit :=
  match a with
  | Input fd text now =>
      modify (fun st => with_form (Form.set fd text (form st)) st);;
      match fd with
      | Form.TaxRate | Form.Currency => updateDisplay now
      | _ => ret tt
      end
  | AddItem now now' => addItem now now'
  | RemoveItem id now => removeItem id now
  | GeneratePDF now => generatePDF now
  | DeleteInvoice index confirmed => deleteInvoice index confirmed
  | RegenerateInvoice index now => regenerateInvoice index now
  end.

(** An exception that leaves a handler is reported and the page goes on
    with the state the handler left. *)
Definition step (st : State) (a : Action) : State := exec (handler a) st.

Definition run (actions : list Action) (st : State) : State :=
  fold_left step actions st.

End Script.

(** ** What the functions compute

    The values the functions above return and the objects they build,
    written as functions of the state; the properties below are stated
    with them, and each is proved equal to what the script computes. *)

(** The two-digit byte a pair of hexadecimal digits stands for: [hashHex]
    read back. *)
Fixpoint read_hex (s : string) : list byte :=
  match s with
  | String h (String l r) =>
      default x00 (Byte.of_N (16 * JSON.unhex h + JSON.unhex l)) :: read_hex r
  | _ => []
  end.

Section Derived.

Variable P : Platform.

(** The percentage [getTaxRate] settles on, before the division by 100. *)
Definition clamped_percent (f : Form.t) : float :=
  let taxRate := or_number (parseFloat P (Form.taxRate f)) 13 in
  let taxRate := if (taxRate <? 0)%float then 0 else taxRate in
  if gtb taxRate 100 then 100 else taxRate.

(** What [calculateTotals] returns. *)
Definition totals_of (st : State) : Totals.t :=
  let subtotal := subtotal_of (current_items st) in
  let taxRate := clamped_percent (form st) / 100 in
  let tax := subtotal * taxRate in
  let total := subtotal + tax in
  Totals.mk subtotal tax total (total * rate_of (Form.currency (form st)))
    (Form.currency (form st)) (taxRate * 100).

(** What [validateItem] returns. *)
Definition valid_form (f : Form.t) : bool :=
  negb (String.eqb (String_trim P (Form.itemName f)) "")
  && negb (negb (ToBoolean (parseFloat P (Form.itemQuantity f)))
           || (parseFloat P (Form.itemQuantity f) <=? 0)%float)
  && negb (negb (ToBoolean (parseFloat P (Form.itemPrice f)))
           || (parseFloat P (Form.itemPrice f) <=? 0)%float).

(** The item [addItem] builds from the form at clock reading [now]. *)
Definition new_item (now : float) (f : Form.t) : Item.t :=
  Item.mk (Num now) (String_trim P (Form.itemName f))
    (Num (parseFloat P (Form.itemQuantity f)))
    (Num (parseFloat P (Form.itemPrice f))).

(** Every reference of the state points into the heap. *)
Definition well_formed (st : State) : bool :=
  (items st <? length (heap st))%nat
  && forallb (fun r => (Invoice.items r <? length (heap st))%nat) (invoiceHistory st).

(** The table of the PDF can be drawn: no item has a [null] quantity or
    price. *)
Definition drawable (its : list Item.t) : bool :=
  forallb (fun item => has_methods (Item.quantity item) && has_methods (Item.price item)) its.

(** The entry [generatePDF] saves; its items are the next object of the
    heap. *)
Definition entry_of (now : float) (st : State) : Invoice.t nat :=
  Invoice.mk (invoiceNumber st)
    (or_string (Form.clientName (form st)) "General Client")
    (or_string (Form.fiscalField (form st)) "")
    (Num (Totals.total (totals_of st)))
    (Form.currency (form st))
    (Num (Totals.convertedTotal (totals_of st)))
    (Date_toLocaleDateString P now)
    (currentInvoiceHash st) (currentInvoiceTimestamp st)
    (length (heap st)).

(** [saveToHistory] on one entry after the other. *)
Definition append_all (records : list (Invoice.t nat)) (st : State) : State :=
  fold_left (fun st r => exec (saveToHistory P r) st) records st.

(** The same browser with [crypto.subtle] undefined. *)
Definition without_digest : Platform :=
  Build_Platform (parseFloat P) (parseInt P) (String_trim P) (Number_toString P)
    (Date_toISOString P) (Date_toLocaleDateString P) None (JSON_parse_history P).

(** The entries [adopt] makes of parsed records, the first array at [base]. *)
Definition adopted (base : nat) (records : list (Invoice.t (list Item.t)))
  : list (Invoice.t nat) :=
  imap (fun k r => Invoice.with_items r (base + k)%nat) records.

(** The entries the listener of [DOMContentLoaded] reads from what the
    browser kept, when it reads entries. *)
Definition kept_entries (storage : gmap string string)
  : option (list (Invoice.t (list Item.t))) :=
  match saved (storage !! "invoiceHistory") with
  | Some text =>
      match JSON_parse_history P text with
      | Some (Entries records) => Some records
      | Some (Other _) | None => None
      end
  | None => None
  end.

(** The listener leaves a history of entries in [invoiceHistory]: nothing
    was kept under ['invoiceHistory'], or a text that [JSON.parse] rejects
    (the history stays empty), or the text of an array of entries. *)
Definition typed_history (storage : gmap string string) : bool :=
  match saved (storage !! "invoiceHistory") with
  | Some text =>
      match JSON_parse_history P text with
      | Some (Other _) => false
      | Some (Entries _) | None => true
      end
  | None => true
  end.

(** The theme and the counter the listener of [DOMContentLoaded] takes
    from what the browser kept. *)
Definition stored_theme (storage : gmap string string) : string :=
  if String.eqb (default "light" (saved (storage !! "theme"))) "dark"
  then "dark" else "light".

Definition stored_counter (storage : gmap string string) : JS.value :=
  match saved (storage !! "invoiceNumber") with
  | Some s => Num (parseInt P s)
  | None => Num 1001
  end.

(** The data [generateBlockchainData] builds at clock reading [now], and
    the bytes it hands to the digest. *)
Definition blockData_of (now : float) (invoiceData : InvoiceData.t) (st : State)
  : Block.data :=
  Block.mkData (InvoiceData.invoiceNumber invoiceData)
    (InvoiceData.clientName invoiceData)
    (InvoiceData.total invoiceData)
    (Date_toISOString P now)
    (map line_of (deref (heap st) (InvoiceData.items invoiceData))).

Definition message_of (now : float) (invoiceData : InvoiceData.t) (st : State)
  : list byte :=
  list_byte_of_string (stringify_blockData P (blockData_of now invoiceData st)).

End Derived.


(** ** A reference browser

    The built-ins as an engine computes them, so that the script can be
    run in the examples: [parseFloat] and [Number_toString] convert
    between decimal text and the nearest double by exact integer
    arithmetic, [parseInt] is the call with no radix, the dates are in
    UTC, and [JSON_parse_history] is a parser of JSON text.  Two things
    are simpler than in an engine: the blanks that [trim], [parseFloat]
    and [parseInt] skip are the ASCII ones, and [digest] is a 32-byte
    checksum standing in for SHA-256.  No theorem below depends on these
    choices: they are stated for every [Platform]. *)
Module Browser.

Definition is_blank (c : ascii) : bool :=
  let n := N_of_ascii c in
  ((n =? 32) || ((9 <=? n) && (n <=? 13)))%N.

Fixpoint trim_start (s : string) : string :=
  match s with
  | String c r => if is_blank c then trim_start r else s
  | EmptyString => s
  end.

Fixpoint trim_end (s : string) : string :=
  match s with
  | String c r =>
      match trim_end r with
      | EmptyString => if is_blank c then "" else String c ""
      | r' => String c r'
      end
  | EmptyString => ""
  end.

Definition trim (s : string) : string := trim_end (trim_start s).

Definition is_digit (c : ascii) : bool :=
  let n := N_of_ascii c in ((48 <=? n) && (n <=? 57))%N.

(** Reads decimal digits onto [acc]; returns the number read, how many
    digits there were, and the rest of the text. *)
Fixpoint read_digits (s : string) (acc : N) (count : nat) : N * nat * string :=
  match s with
  | String c r =>
      if is_digit c then read_digits r (10 * acc + (N_of_ascii c - 48))%N (S count)
      else (acc, count, s)
  | EmptyString => (acc, count, s)
  end.

Definition read_sign (s : string) : bool * string :=
  match s with
  | String "-" r => (true, r)
  | String "+" r => (false, r)
  | _ => (false, s)
  end.

Definition decimal (n : N) : string := NilEmpty.string_of_uint (N.to_uint n).

Fixpoint zeros (n : nat) : string :=
  match n with O => "" | S n' => String "0" (zeros n') end.

(** [n / d] and [n * 2^-e / d], as a pair of integers. *)
Definition scaled (n d e : Z) : Z * Z :=
  (if 0 <=? e then (n, d * 2 ^ e) else (n * 2 ^ (- e), d))%Z.

(** The double nearest to [n / d], ties to even, for [0 <= n] and
    [0 < d]: the quotient is taken with 53 bits, or with fewer at the
    least exponent, and rounded by the remainder. *)
Definition nearest (n d : Z) : float :=
  if (n =? 0)%Z then 0
  else
    let e0 := (Z.log2 n - Z.log2 d - 52)%Z in
    let e1 := (let '(a, b) := scaled n d e0 in if a / b <? 2 ^ 52 then e0 - 1 else e0)%Z in
    let e := Z.max e1 (-1074) in
    let '(a, b) := scaled n d e in
    let q := (a / b)%Z in
    let r := (a mod b)%Z in
    let q := (if (b <? 2 * r) || ((b =? 2 * r) && Z.odd q) then q + 1 else q)%Z in
    Z.ldexp (PrimFloat.of_uint63 (Uint63.of_Z q)) e.

(** The double of [mantissa * 10^exponent]. *)
Definition of_decimal (mantissa : N) (exponent : Z) : float :=
  (if 0 <=? exponent then nearest (Z.of_N mantissa * 10 ^ exponent) 1
   else nearest (Z.of_N mantissa) (10 ^ (- exponent)))%Z.

Definition of_N (n : N) : float := of_decimal n 0.

Definition signed (negative : bool) (x : float) : float := if negative then - x else x.

(** The exponent part [e digits], [e+digits] or [e-digits] at the head
    of a text, if there is one. *)
Definition read_exponent (s : string) : Z * string :=
  match s with
  | String c r =>
      if Ascii.eqb c "e" || Ascii.eqb c "E" then
        let '(negative, r') := read_sign r in
        let '(e, n, rest) := read_digits r' 0 0 in
        if (n =? 0)%nat then (0%Z, s)
        else ((if negative then - Z.of_N e else Z.of_N e)%Z, rest)
      else (0%Z, s)
  | EmptyString => (0%Z, s)
  end.

Definition starts_with (prefix s : string) : bool :=
  String.eqb (substring 0 (String.length prefix) s) prefix.

(** [parseFloat]: blanks, a sign, then [Infinity] or the longest decimal
    literal [digits [. digits] [exponent]] or [. digits [exponent]]; NaN
    when there is none. *)
Definition parseFloat (s : string) : float :=
  let '(negative, s) := read_sign (trim_start s) in
  if starts_with "Infinity" s then signed negative infinity
  else
    let '(whole, n_whole, s) := read_digits s 0 0 in
    let '(mantissa, n_frac, s) :=
      match s with
      | String "." r =>
          let '(m, n, rest) := read_digits r whole 0 in
          if (n_whole + n =? 0)%nat then (whole, 0%nat, s) else (m, n, rest)
      | _ => (whole, 0%nat, s)
      end in
    if (n_whole + n_frac =? 0)%nat then nan
    else
      let '(e, _) := read_exponent s in
      signed negative (of_decimal mantissa (e - Z.of_nat n_frac)).

Definition hex_value (c : ascii) : option N :=
  let n := N_of_ascii c in
  (if (48 <=? n) && (n <=? 57) then Some (n - 48)
   else if (97 <=? n) && (n <=? 102) then Some (n - 87)
   else if (65 <=? n) && (n <=? 70) then Some (n - 55)
   else None)%N.

Fixpoint read_hex_digits (s : string) (acc : N) (count : nat) : N * nat :=
  match s with
  | String c r =>
      match hex_value c with
      | Some v => read_hex_digits r (16 * acc + v)%N (S count)
      | None => (acc, count)
      end
  | EmptyString => (acc, count)
  end.

(** [s.substring(n)] *)
Definition drop_chars (n : nat) (s : string) : string :=
  substring n (String.length s - n) s.

(** [parseInt] with no radix: blanks, a sign, then hexadecimal digits
    after [0x] or [0X], decimal digits otherwise; NaN when there is no
    digit. *)
Definition parseInt (s : string) : float :=
  let '(negative, s) := read_sign (trim_start s) in
  let '(value, count) :=
    if starts_with "0x" s || starts_with "0X" s
    then read_hex_digits (drop_chars 2 s) 0 0
    else let '(v, n, _) := read_digits s 0 0 in (v, n) in
  if (count =? 0)%nat then nan else signed negative (of_N value).

(** [n / d < 10^t] *)
Definition below_power (n d t : Z) : bool :=
  (if 0 <=? t then n <? d * 10 ^ t else n * 10 ^ (- t) <? d)%Z.

(** The number [t] with [10^(t-1) <= n/d < 10^t], searched from an
    estimate by the binary logarithms. *)
Fixpoint magnitude (fuel : nat) (n d t : Z) : Z :=
  match fuel with
  | O => t
  | S fuel' =>
      if negb (below_power n d t) then magnitude fuel' n d (t + 1)
      else if below_power n d (t - 1) then magnitude fuel' n d (t - 1)
      else t
  end.

(** Number::toString on a finite double [x] above zero, [n / d] exactly:
    the integers [s] (of [k] digits) and [t] with [s * 10^(t-k)] reading
    back as [x], [k] as small as possible and then [s] as close to [x] as
    possible; tried for [k] from 1 to 17, where it always succeeds. *)
Fixpoint shortest (x : float) (n d t : Z) (k : nat) (tries : nat) : Z * Z * nat :=
  match tries with
  | O => (0%Z, t, k)
  | S tries' =>
      let shift := (Z.of_nat k - t)%Z in
      let '(a, b) := (if 0 <=? shift then (n * 10 ^ shift, d) else (n, d * 10 ^ (- shift)))%Z in
      let lo := (a / b)%Z in
      let r := (a mod b)%Z in
      let hi := (lo + 1)%Z in
      let reads s := (of_decimal (Z.to_N s) (- shift) =? x)%float in
      let lo_ok := reads lo && (0 <? lo)%Z in
      let hi_ok := reads hi in
      let pick :=
        if lo_ok && hi_ok then
          Some (if (2 * r <? b) || ((2 * r =? b) && Z.even lo) then lo else hi)%Z
        else if lo_ok then Some lo
        else if hi_ok then Some hi
        else None in
      match pick with
      | Some s =>
          if (s =? 10 ^ Z.of_nat k)%Z then ((s / 10)%Z, (t + 1)%Z, k) else (s, t, k)
      | None => shortest x n d t (S k) tries'
      end
  end.

Definition exponent_text (e : Z) : string :=
  (if (0 <=? e)%Z then "e+" else "e-") +:+ decimal (Z.to_N (Z.abs e)).

(** The digits [s] laid out for the value [s * 10^(t-k)]: plain up to
    10^21, with leading zeros down to 10^-7, in exponent form beyond. *)
Definition digits_text (s : Z) (t : Z) (k : nat) : string :=
  let digits := decimal (Z.to_N s) in
  if ((Z.of_nat k <=? t) && (t <=? 21))%Z then digits +:+ zeros (Z.to_nat t - k)
  else if ((0 <? t) && (t <=? 21))%Z then
    substring 0 (Z.to_nat t) digits +:+ "." +:+ substring (Z.to_nat t) (k - Z.to_nat t) digits
  else if ((-6 <? t) && (t <=? 0))%Z then
    "0." +:+ zeros (Z.to_nat (- t)) +:+ digits
  else if (k =? 1)%nat then digits +:+ exponent_text (t - 1)
  else substring 0 1 digits +:+ "." +:+ substring 1 (k - 1) digits +:+ exponent_text (t - 1).

Definition Number_toString (x : float) : string :=
  match Prim2SF x with
  | S754_zero _ => "0"
  | S754_infinity false => "Infinity"
  | S754_infinity true => "-Infinity"
  | S754_nan => "NaN"
  | S754_finite negative m e =>
      let '(n, d) := (if 0 <=? e then (Zpos m * 2 ^ e, 1) else (Zpos m, 2 ^ (- e)))%Z in
      let t0 := ((Z.log2 n - Z.log2 d) * 30103 / 100000)%Z in
      let t := magnitude 8 n d t0 in
      let '(s, t, k) := shortest (abs x) n d t 1 17 in
      (if negative then "-" else "") +:+ digits_text s t k
  end.

(** The integer a clock reading holds. *)
Definition to_Z (x : float) : Z :=
  match Prim2SF x with
  | S754_finite negative m e =>
      let n := match e with
               | Z0 => Zpos m
               | Zpos p => (Zpos m * 2 ^ Zpos p)%Z
               | Zneg p => (Zpos m / 2 ^ Zpos p)%Z
               end in
      if negative then (- n)%Z else n
  | _ => 0%Z
  end.

Definition pad (width : nat) (z : Z) : string :=
  let digits := decimal (Z.to_N z) in
  zeros (width - String.length digits) +:+ digits.

(** Year, month and day of a count of days since 1970-01-01 in the
    proleptic Gregorian calendar. *)
Definition civil_from_days (days : Z) : Z * Z * Z :=
  let z := (days + 719468)%Z in
  let era := (z / 146097)%Z in
  let doe := (z - era * 146097)%Z in
  let yoe := ((doe - doe / 1460 + doe / 36524 - doe / 146096) / 365)%Z in
  let doy := (doe - (365 * yoe + yoe / 4 - yoe / 100))%Z in
  let mp := ((5 * doy + 2) / 153)%Z in
  let d := (doy - (153 * mp + 2) / 5 + 1)%Z in
  let m := (if (mp <? 10)%Z then mp + 3 else mp - 9)%Z in
  let y := (yoe + era * 400 + (if (m <=? 2)%Z then 1 else 0))%Z in
  (y, m, d).

Definition Date_toISOString (now : float) : string :=
  let ms := to_Z now in
  let '(y, m, d) := civil_from_days (ms / 86400000) in
  let t := (ms mod 86400000)%Z in
  pad 4 y +:+ "-" +:+ pad 2 m +:+ "-" +:+ pad 2 d +:+ "T" +:+
  pad 2 (t / 3600000) +:+ ":" +:+ pad 2 (t / 60000 mod 60) +:+ ":" +:+
  pad 2 (t / 1000 mod 60) +:+ "." +:+ pad 3 (t mod 1000) +:+ "Z".

Definition Date_toLocaleDateString (now : float) : string :=
  let '(y, m, d) := civil_from_days (to_Z now / 86400000) in
  decimal (Z.to_N m) +:+ "/" +:+ decimal (Z.to_N d) +:+ "/" +:+ decimal (Z.to_N y).

(** Thirty-two running sums over the message, one per lane. *)
Fixpoint checksum (message : list byte) (lanes : list N) : list N :=
  match message with
  | [] => lanes
  | b :: rest =>
      match lanes with
      | lane :: others =>
          checksum rest (others ++ [(31 * lane + Byte.to_N b + 7) mod 256])%N%list
      | [] => []
      end
  end.

Definition digest (message : list byte) : list byte :=
  map (fun n => default x00 (Byte.of_N n)) (checksum message (repeat 0%N 32)).

(** *** JSON.parse *)

(** JSON white space: space, tab, line feed and carriage return. *)
Fixpoint skip_blanks (s : string) : string :=
  match s with
  | String c r =>
      let n := N_of_ascii c in
      if ((n =? 32) || (n =? 9) || (n =? 10) || (n =? 13))%N then skip_blanks r else s
  | EmptyString => s
  end.

(** The UTF-8 bytes of a code point. *)
Definition utf8 (cp : N) : string :=
  (if cp <? 128 then String (ascii_of_N cp) ""
   else if cp <? 2048 then
     String (ascii_of_N (192 + cp / 64)) (String (ascii_of_N (128 + cp mod 64)) "")
   else if cp <? 65536 then
     String (ascii_of_N (224 + cp / 4096))
       (String (ascii_of_N (128 + cp / 64 mod 64)) (String (ascii_of_N (128 + cp mod 64)) ""))
   else
     String (ascii_of_N (240 + cp / 262144))
       (String (ascii_of_N (128 + cp / 4096 mod 64))
          (String (ascii_of_N (128 + cp / 64 mod 64))
             (String (ascii_of_N (128 + cp mod 64)) ""))))%N.

(** Four hexadecimal digits. *)
Definition read_hex4 (s : string) : option (N * string) :=
  match s with
  | String a (String b (String c (String d r))) =>
      match hex_value a, hex_value b, hex_value c, hex_value d with
      | Some x, Some y, Some z, Some w => Some ((4096 * x + 256 * y + 16 * z + w)%N, r)
      | _, _, _, _ => None
      end
  | _ => None
  end.

(** The low half of a surrogate pair, [\uXXXX] at the head of [s]. *)
Definition read_low_surrogate (s : string) : option (N * string) :=
  match s with
  | String c (String "u" r) =>
      if Ascii.eqb c JSON.backslash then
        match read_hex4 r with
        | Some (lo, r') =>
            if ((56320 <=? lo) && (lo <? 57344))%N then Some (lo, r') else None
        | None => None
        end
      else None
  | _ => None
  end.

(** The code point of the escape [\uXXXX], [s] being the text after the
    [u]: a surrogate pair is taken together; half a pair is read as
    U+FFFD, the character its UTF-8 encoding has. *)
Definition read_unicode (s : string) : option (N * string) :=
  match read_hex4 s with
  | Some (hi, r) =>
      if ((55296 <=? hi) && (hi <? 56320))%N then
        match read_low_surrogate r with
        | Some (lo, r') => Some ((65536 + (hi - 55296) * 1024 + (lo - 56320))%N, r')
        | None => Some (65533%N, r)
        end
      else if ((56320 <=? hi) && (hi <? 57344))%N then Some (65533%N, r)
      else Some (hi, r)
  | None => None
  end.

(** The character a one-letter escape stands for. *)
Definition unescape (e : ascii) : option ascii :=
  if Ascii.eqb e JSON.dquote then Some JSON.dquote
  else if Ascii.eqb e JSON.backslash then Some JSON.backslash
  else if Ascii.eqb e "/" then Some "/"%char
  else if Ascii.eqb e "b" then Some "008"%char
  else if Ascii.eqb e "f" then Some "012"%char
  else if Ascii.eqb e "n" then Some "010"%char
  else if Ascii.eqb e "r" then Some "013"%char
  else if Ascii.eqb e "t" then Some "009"%char
  else None.

(** The characters of a string literal after its opening quote, and the
    text after its closing quote.  A control character and an unknown
    escape are syntax errors. *)
Fixpoint read_characters (fuel : nat) (s : string) : option (string * string) :=
  match fuel with
  | O => None
  | S fuel' =>
      match s with
      | EmptyString => None
      | String c r =>
          if Ascii.eqb c JSON.dquote then Some ("", r)
          else if Ascii.eqb c JSON.backslash then
            match r with
            | String e r' =>
                if Ascii.eqb e "u" then
                  match read_unicode r' with
                  | Some (cp, r'') =>
                      match read_characters fuel' r'' with
                      | Some (text, rest) => Some (utf8 cp +:+ text, rest)
                      | None => None
                      end
                  | None => None
                  end
                else
                  match unescape e, read_characters fuel' r' with
                  | Some x, Some (text, rest) => Some (String x text, rest)
                  | _, _ => None
                  end
            | EmptyString => None
            end
          else if (N_of_ascii c <? 32)%N then None
          else
            match read_characters fuel' r with
            | Some (text, rest) => Some (String c text, rest)
            | None => None
            end
      end
  end.

(** A number literal: [-]? then [0] or digits with no leading zero, then
    [. digits]? and an exponent part; a point or an [e] with no digit
    after it is a syntax error. *)
Definition read_number (s : string) : option (float * string) :=
  let '(negative, s) :=
    match s with String "-" r => (true, r) | _ => (false, s) end in
  let whole :=
    match s with
    | String "0" r => Some (0%N, r)
    | _ => let '(n, count, r) := read_digits s 0 0 in
           if (count =? 0)%nat then None else Some (n, r)
    end in
  match whole with
  | None => None
  | Some (n, s) =>
      let fraction :=
        match s with
        | String "." r =>
            let '(m, count, r') := read_digits r n 0 in
            if (count =? 0)%nat then None else Some (m, count, r')
        | _ => Some (n, 0%nat, s)
        end in
      match fraction with
      | None => None
      | Some (m, n_frac, s) =>
          match s with
          | String c _ =>
              if Ascii.eqb c "e" || Ascii.eqb c "E" then
                let '(e, rest) := read_exponent s in
                if String.eqb rest s then None
                else Some (signed negative (of_decimal m (e - Z.of_nat n_frac)), rest)
              else Some (signed negative (of_decimal m (- Z.of_nat n_frac)), s)
          | EmptyString => Some (signed negative (of_decimal m (- Z.of_nat n_frac)), s)
          end
      end
  end.

(** A value at the head of [s], after blanks, and the text after it. *)
Fixpoint read_value (fuel : nat) (s : string) : option (Json.t * string) :=
  match fuel with
  | O => None
  | S fuel' =>
      let s := skip_blanks s in
      match s with
      | EmptyString => None
      | String c r =>
          if Ascii.eqb c JSON.dquote then
            match read_characters (String.length r) r with
            | Some (text, rest) => Some (Json.JString text, rest)
            | None => None
            end
          else if Ascii.eqb c "[" then
            match skip_blanks r with
            | String "]" rest => Some (Json.JArray [], rest)
            | _ =>
                match read_elements fuel' r with
                | Some (elements, rest) => Some (Json.JArray elements, rest)
                | None => None
                end
            end
          else if Ascii.eqb c "{" then
            match skip_blanks r with
            | String "}" rest => Some (Json.JObject [], rest)
            | _ =>
                match read_members fuel' r with
                | Some (members, rest) => Some (Json.JObject members, rest)
                | None => None
                end
            end
          else if starts_with "null" s then Some (Json.JNull, drop_chars 4 s)
          else if starts_with "true" s then Some (Json.JBool true, drop_chars 4 s)
          else if starts_with "false" s then Some (Json.JBool false, drop_chars 5 s)
          else
            match read_number s with
            | Some (x, rest) => Some (Json.JNumber x, rest)
            | None => None
            end
      end
  end

with read_elements (fuel : nat) (s : string) : option (list Json.t * string) :=
  match fuel with
  | O => None
  | S fuel' =>
      match read_value fuel' s with
      | Some (v, rest) =>
          match skip_blanks rest with
          | String "," rest' =>
              match read_elements fuel' rest' with
              | Some (vs, rest'') => Some (v :: vs, rest'')
              | None => None
              end
          | String "]" rest' => Some ([v], rest')
          | _ => None
          end
      | None => None
      end
  end

with read_members (fuel : nat) (s : string) : option (list (string * Json.t) * string) :=
  match fuel with
  | O => None
  | S fuel' =>
      match skip_blanks s with
      | String c r =>
          if Ascii.eqb c JSON.dquote then
            match read_characters (String.length r) r with
            | Some (key, rest) =>
                match skip_blanks rest with
                | String ":" rest' =>
                    match read_value fuel' rest' with
                    | Some (v, rest'') =>
                        match skip_blanks rest'' with
                        | String "," rest3 =>
                            match read_members fuel' rest3 with
                            | Some (ms, rest4) => Some ((key, v) :: ms, rest4)
                            | None => None
                            end
                        | String "}" rest3 => Some ([(key, v)], rest3)
                        | _ => None
                        end
                    | None => None
                    end
                | _ => None
                end
            | None => None
            end
          else None
      | EmptyString => None
      end
  end.

(** [JSON.parse(text)]: one value with blanks around it; [None] is a
    SyntaxError.  Every call of the three functions above takes at least
    one character of the text, which bounds their number. *)
Definition JSON_parse (text : string) : option Json.t :=
  match read_value (2 * String.length text + 2) text with
  | Some (v, rest) =>
      match skip_blanks rest with
      | EmptyString => Some v
      | String _ _ => None
      end
  | None => None
  end.

(** *** The entries of a parsed history *)

Definition to_value (v : Json.t) : option JS.value :=
  match v with
  | Json.JNumber x => Some (Num x)
  | Json.JNull => Some Null
  | _ => None
  end.

(** An item as [addItem] builds it: [{ id, name, quantity, price }]. *)
Definition to_item (v : Json.t) : option Item.t :=
  match v with
  | Json.JObject [(k1, id); (k2, Json.JString name); (k3, quantity); (k4, price)] =>
      if String.eqb k1 "id" && String.eqb k2 "name"
         && String.eqb k3 "quantity" && String.eqb k4 "price"
      then
        match to_value id, to_value quantity, to_value price with
        | Some id, Some quantity, Some price => Some (Item.mk id name quantity price)
        | _, _, _ => None
        end
      else None
  | _ => None
  end.

Fixpoint to_list {A} (f : Json.t -> option A) (vs : list Json.t) : option (list A) :=
  match vs with
  | [] => Some []
  | v :: rest =>
      match f v, to_list f rest with
      | Some x, Some xs => Some (x :: xs)
      | _, _ => None
      end
  end.

(** The members [hash] and [timestamp], which [JSON.stringify] leaves
    out when they are [undefined], and [items] after them. *)
Definition to_tail (members : list (string * Json.t))
  : option (option string * option string * list Item.t) :=
  let '(hash, members) :=
    match members with
    | (k, Json.JString s) :: rest =>
        if String.eqb k "hash" then (Some s, rest) else (None, members)
    | _ => (None, members)
    end in
  let '(timestamp, members) :=
    match members with
    | (k, Json.JString s) :: rest =>
        if String.eqb k "timestamp" then (Some s, rest) else (None, members)
    | _ => (None, members)
    end in
  match members with
  | [(k, Json.JArray elements)] =>
      if String.eqb k "items" then
        match to_list to_item elements with
        | Some its => Some (hash, timestamp, its)
        | None => None
        end
      else None
  | _ => None
  end.

(** An entry as [generatePDF] saves it, its members in the order of the
    object literal. *)
Definition to_invoice (v : Json.t) : option (Invoice.t (list Item.t)) :=
  match v with
  | Json.JObject
      ((k1, invoiceNumber) :: (k2, Json.JString clientName)
       :: (k3, Json.JString fiscalField) :: (k4, total)
       :: (k5, Json.JString currency) :: (k6, convertedTotal)
       :: (k7, Json.JString date) :: tail) =>
      if String.eqb k1 "invoiceNumber" && String.eqb k2 "clientName"
         && String.eqb k3 "fiscalField" && String.eqb k4 "total"
         && String.eqb k5 "currency" && String.eqb k6 "convertedTotal"
         && String.eqb k7 "date"
      then
        match to_value invoiceNumber, to_value total, to_value convertedTotal,
              to_tail tail with
        | Some invoiceNumber, Some total, Some convertedTotal,
          Some (hash, timestamp, its) =>
            Some (Invoice.mk invoiceNumber clientName fiscalField total currency
                    convertedTotal date hash timestamp its)
        | _, _, _, _ => None
        end
      else None
  | _ => None
  end.

Definition to_history (v : Json.t) : option (list (Invoice.t (list Item.t))) :=
  match v with
  | Json.JArray elements => to_list to_invoice elements
  | _ => None
  end.

Definition JSON_parse_history (text : string) : option parsed :=
  match JSON_parse text with
  | Some v =>
      Some (match to_history v with
            | Some records => Entries records
            | None => Other v
            end)
  | None => None
  end.

(** A page served from a secure context. *)
Definition secure : Platform :=
  Build_Platform parseFloat parseInt trim Number_toString Date_toISOString
    Date_toLocaleDateString (Some digest) JSON_parse_history.

(** The same page served over plain HTTP: [crypto.subtle] is undefined. *)
Definition insecure : Platform :=
  Build_Platform parseFloat parseInt trim Number_toString Date_toISOString
    Date_toLocaleDateString None JSON_parse_history.

(** The inputs of a page just opened: the tax rate field shows 13 and
    the currency selector USD. *)
Definition blank_form : Form.t := Form.mk "" "" "" "13" "USD" "" "".

End Browser.

(** ** Sessions of the examples *)

Module Scenario.

(** Clock readings on 2 November 2026, in milliseconds. *)
Definition t0 : float := 1793592000000.
Definition t1 : float := 1793592000123.
Definition t2 : float := 1793592000124.
Definition t3 : float := 1793592060000.
Definition t4 : float := 1793592120000.

(** The user fills in the three inputs of an item. *)
Definition type_item (name quantity price : string) : list Action :=
  [ Input Form.ItemName name t0;
    Input Form.ItemQuantity quantity t0;
    Input Form.ItemPrice price t0 ].

(** A page just opened, nothing kept from earlier sessions. *)
Definition opened (P : Platform) : State :=
  session_start P Browser.blank_form ∅.

(** Two Widgets at 10.00 were typed and added. *)
Definition one_item (P : Platform) : State :=
  run P (type_item "Widget" "2" "10.00" ++ [AddItem t1 t2]) (opened P).

Definition widget : Item.t := Item.mk (Num t1) "Widget" (Num 2) (Num 10).

(** The invoice was finalized, and a Gadget typed but not added yet. *)
Definition one_invoice (P : Platform) : State :=
  run P ([GeneratePDF t3] ++ type_item "Gadget" "1" "5") (one_item P).

Definition gadget (now : float) : Item.t := Item.mk (Num now) "Gadget" (Num 1) (Num 5).

(** An entry of the history numbered [n], its items the first array. *)
Definition entry (n : nat) : Invoice.t nat :=
  Invoice.mk (Num (Browser.of_N (N.of_nat n))) "General Client" "" (Num 0) "USD" (Num 0)
    "11/2/2026" None None 0%nat.

End Scenario.


(** ** What the page and the PDF show of the state

    The texts the drawing code derives from the fingerprint, the class
    lists of the theme, and the values the handlers below are described
    with. *)


(** The class lists [setTheme] changes: those of [document.body] and of
    the two theme buttons. *)
Module Theme.
Record t := mk {
  body : gset string;
  btnLight : gset string;
  btnDark : gset string }.
End Theme.

(** What [setTheme] does to the class lists, with [classList.add] and
    [classList.remove]; its write to the storage is [setTheme] above. *)
Definition setTheme_classList (theme : string) (c : Theme.t) : Theme.t :=
  if String.eqb theme "dark" then
    Theme.mk ({["dark-mode"]} ∪ Theme.body c)
      (Theme.btnLight c ∖ {["active"]})
      ({["active"]} ∪ Theme.btnDark c)
  else
    Theme.mk (Theme.body c ∖ {["dark-mode"]})
      ({["active"]} ∪ Theme.btnLight c)
      (Theme.btnDark c ∖ {["active"]}).

(** The history as [JSON.stringify] sees it: every entry with its items. *)
Definition content (st : State) : list (Invoice.t (list Item.t)) :=
  map (fun r => Invoice.with_items r (entry_items st r)) (invoiceHistory st).

(** [showHistory] can draw the list: no entry has a [null] total. *)
Definition listable {A} (hist : list (Invoice.t A)) : bool :=
  forallb (fun r => has_methods (Invoice.total r) && has_methods (Invoice.convertedTotal r)) hist.

(** A numeric property that JSON text can hold: a finite number. *)
Definition finite_number (v : JS.value) : bool :=
  match v with Num x => is_finite x | Null => false end.

(** The items whose copy through JSON text can be drawn again. *)
Definition printable (its : list Item.t) : bool :=
  forallb (fun item => finite_number (Item.quantity item) && finite_number (Item.price item)) its.

(** [viewInvoiceDetails(index)].  The details it writes into the modal are
    rendering; the model keeps its TypeErrors: reading [items] off
    [undefined] past the end of the history, [toFixed] on the [null] price
    of an item, and [toFixed] on a [null] total. *)
Definition viewInvoiceDetails (index : nat) : Eff unit :=
  hist <- gets invoiceHistory;;
  match hist !! index with
  | None => throw TypeError
  | Some invoice =>
      its <- gets (fun st => deref (heap st) (Invoice.items invoice));;
      (if forallb (fun item => has_methods (Item.price item)) its
       then ret tt else throw TypeError);;
      if has_methods (Invoice.total invoice) && has_methods (Invoice.convertedTotal invoice)
      then ret tt else throw TypeError
  end.

Definition is_regenerate (a : Action) : bool :=
  match a with RegenerateInvoice _ _ => true | _ => false end.



(** Two items that differ in their ids at most. *)
Definition same_but_id (i i' : Item.t) : Prop :=
  Item.name i = Item.name i' /\
  Item.quantity i = Item.quantity i' /\
  Item.price i = Item.price i'.

Section Page.

Variable P : Platform.




(** The object [updateDisplay] hands to [generateBlockchainData]. *)
Definition displayed (st : State) : InvoiceData.t :=
  InvoiceData.mk (invoiceNumber st)
    (or_string (Form.clientName (form st)) "General Client")
    (Totals.total (totals_of P st))
    (items st).

(** The block [updateDisplay] gets back at clock reading [now]. *)
Definition block_of (digest : list byte -> list byte) (now : float) (st : State) : Block.t :=
  Block.mk (hashHex (digest (message_of P now (displayed st) st)))
    (Date_toISOString P now) (blockData_of P now (displayed st) st).


(** The records the listener of [DOMContentLoaded] reads from the storage;
    none when nothing was kept, when the text does not parse and when it
    parses to a value that is no array of entries. *)
Definition loaded (storage : gmap string string) : list (Invoice.t (list Item.t)) :=
  default [] (kept_entries P storage).

End Page.


(** * Properties *)

(** ** Doubles *)

Section Doubles.

(** Two doubles that compare different are different. *)
Lemma float_neq (x y : float) : (x =? y)%float = false -> is_nan x = false -> x <> y.
Proof.
  intros Hxy Hx ->. unfold is_nan in Hx. rewrite Hxy in Hx. discriminate.
Qed.

(** A product with NaN is NaN. *)
Lemma mul_nan_r (x : float) : x * nan = nan.
Proof.
  apply Prim2SF_inj. rewrite FloatAxioms.mul_spec.
  destruct (Prim2SF x) as [s | s | | s m e]; reflexivity.
Qed.

Lemma is_nan_SF (x : float) :
  is_nan x = match Prim2SF x with S754_nan => true | _ => false end.
Proof.
  unfold is_nan. rewrite FloatAxioms.eqb_spec.
  destruct (Prim2SF x) as [[] | [] | | [] m e]; try reflexivity;
    cbn; unfold SFeqb, SFcompare; rewrite Z.compare_refl, Pos.compare_refl;
    reflexivity.
Qed.

(** A double below zero is a number other than zero: it is truthy. *)
Lemma negative_truthy (x : float) : (x <? 0)%float = true -> ToBoolean x = true.
Proof.
  unfold ToBoolean, is_zero. rewrite is_nan_SF.
  rewrite FloatAxioms.ltb_spec, FloatAxioms.eqb_spec.
  change (Prim2SF 0) with (S754_zero false). change (Prim2SF PrimFloat.zero) with (S754_zero false).
  destruct (Prim2SF x) as [[] | [] | | [] m e]; cbn; intros; congruence.
Qed.

(** So is a double above a hundred. *)
Lemma above_100_truthy (x : float) : gtb x 100 = true -> ToBoolean x = true.
Proof.
  unfold gtb, ToBoolean, is_zero. rewrite is_nan_SF.
  rewrite FloatAxioms.ltb_spec, FloatAxioms.eqb_spec.
  change (Prim2SF PrimFloat.zero) with (S754_zero false).
  set (h := Prim2SF 100). vm_compute in h. subst h.
  destruct (Prim2SF x) as [[] | [] | | [] m e]; cbn; intros; congruence.
Qed.

(** And it is not below zero. *)
Lemma above_100_not_negative (x : float) :
  gtb x 100 = true -> (x <? 0)%float = false.
Proof.
  unfold gtb. rewrite !FloatAxioms.ltb_spec.
  change (Prim2SF 0) with (S754_zero false).
  set (h := Prim2SF 100). vm_compute in h. subst h.
  destruct (Prim2SF x) as [[] | [] | | [] m e]; cbn; intros; congruence.
Qed.

End Doubles.

(** ** Text *)

Section Text.
Local Arguments String.append !_ _ / : simpl nomatch.

Lemma append_assoc (a b c : string) : (a +:+ b) +:+ c = a +:+ (b +:+ c).
Proof.
  induction a as [| x a IH]; [reflexivity |]. cbn. rewrite IH. reflexivity.
Qed.

Lemma append_empty_r (a : string) : a +:+ "" = a.
Proof. induction a as [| x a IH]; [reflexivity |]. cbn. rewrite IH. reflexivity. Qed.

Lemma read_string_escape (s r : string) :
  JSON.read_string (JSON.escape s +:+ String JSON.dquote r) = s.
Proof.
  induction s as [| c s IH]; [reflexivity |].
  cbn [JSON.escape]. rewrite append_assoc.
  set (tail := JSON.escape s +:+ String JSON.dquote r) in *.
  destruct c as [[] [] [] [] [] [] [] []].
  all: cbn; rewrite IH; reflexivity.
Qed.

Lemma quote_inj (s s' r r' : string) :
  JSON.quote s +:+ r = JSON.quote s' +:+ r' -> s = s'.
Proof.
  unfold JSON.quote. cbn [String.append]. rewrite !append_assoc. cbn [String.append].
  intros H. injection H as H.
  apply (f_equal JSON.read_string) in H. rewrite !read_string_escape in H. exact H.
Qed.

Lemma byte_hex_decode (b : byte) (r : string) :
  read_hex (padStart2 (toString16 b) +:+ r) = b :: read_hex r.
Proof. destruct b; reflexivity. Qed.

Lemma concat_empty_cons (x : string) (xs : list string) :
  String.concat "" (x :: xs) = x +:+ String.concat "" xs.
Proof.
  destruct xs as [| y ys]; cbn [String.concat]; [| reflexivity].
  symmetry. apply append_empty_r.
Qed.

Lemma read_hex_hashHex (l : list byte) : read_hex (hashHex l) = l.
Proof.
  unfold hashHex. induction l as [| b l IH]; [reflexivity |].
  cbn [map]. rewrite concat_empty_cons, byte_hex_decode, IH. reflexivity.
Qed.

Lemma hashHex_inj (l l' : list byte) : hashHex l = hashHex l' -> l = l'.
Proof. intros H. apply (f_equal read_hex) in H. rewrite !read_hex_hashHex in H. exact H. Qed.

Lemma list_byte_of_string_inj (s s' : string) :
  list_byte_of_string s = list_byte_of_string s' -> s = s'.
Proof.
  intros H. apply (f_equal string_of_list_byte) in H.
  rewrite !string_of_list_byte_of_string in H. exact H.
Qed.
End Text.

(** ** Calculation *)

Section Calculation.

Variable P : Platform.

Lemma getTaxRate_eq (st : State) :
  getTaxRate P st = (Normal (clamped_percent P (form st) / 100), st).
Proof. reflexivity. Qed.

Lemma calculateTotals_eq (st : State) :
  calculateTotals P st = (Normal (totals_of P st), st).
Proof. reflexivity. Qed.

Lemma subtotal_of_snoc (its : list Item.t) (item : Item.t) :
  subtotal_of (its ++ [item])%list
  = subtotal_of its + ToNumber (Item.quantity item) * ToNumber (Item.price item).
Proof. unfold subtotal_of. rewrite fold_left_app. reflexivity. Qed.

(** An input that does not parse (NaN) takes the default 13. *)
Lemma getTaxRate_unparsable (st : State) :
  is_nan (parseFloat P (Form.taxRate (form st))) = true ->
  getTaxRate P st = (Normal (13 / 100), st).
Proof.
  intros H. rewrite getTaxRate_eq. unfold clamped_percent, or_number, ToBoolean.
  rewrite H. reflexivity.
Qed.

(** A negative input is raised to 0. *)
Lemma getTaxRate_negative (st : State) :
  (parseFloat P (Form.taxRate (form st)) <? 0)%float = true ->
  getTaxRate P st = (Normal (0 / 100), st).
Proof.
  intros H. rewrite getTaxRate_eq. unfold clamped_percent, or_number.
  rewrite (negative_truthy _ H), H. reflexivity.
Qed.

(** An input above 100 is lowered to 100. *)
Lemma getTaxRate_above_100 (st : State) :
  gtb (parseFloat P (Form.taxRate (form st))) 100 = true ->
  getTaxRate P st = (Normal (100 / 100), st).
Proof.
  intros H. rewrite getTaxRate_eq. unfold clamped_percent, or_number.
  rewrite (above_100_truthy _ H), (above_100_not_negative _ H), H. reflexivity.
Qed.

(** A truthy input within the bounds is used as it is. *)
Lemma getTaxRate_in_range (st : State) :
  let x := parseFloat P (Form.taxRate (form st)) in
  ToBoolean x = true -> (x <? 0)%float = false -> gtb x 100 = false ->
  getTaxRate P st = (Normal (x / 100), st).
Proof.
  intros x H0 H1 H2. rewrite getTaxRate_eq. unfold clamped_percent, or_number.
  fold x. rewrite H0, H1, H2. reflexivity.
Qed.

(** C3, where the script breaks it: a tax-rate input that parses to zero
    is falsy in [parseFloat(taxRateInput) || 13], so the default 13 is
    used and not 0: [getTaxRate] returns [13 / 100]. *)
Theorem getTaxRate_zero_takes_default (st : State) :
  is_zero (parseFloat P (Form.taxRate (form st))) = true ->
  getTaxRate P st = (Normal (13 / 100), st).
Proof.
  intros H. rewrite getTaxRate_eq. unfold clamped_percent, or_number, ToBoolean.
  rewrite H, orb_true_r. reflexivity.
Qed.

(** C2, as the script computes it: [calculateTotals] leaves the state as
    it is and returns the subtotal accumulated over the items in list
    order, from 0, one product [quantity * price] at a time; the tax
    [subtotal * (percent / 100)] for the percentage [getTaxRate] settles
    on; the total [subtotal + tax]; and the converted total
    [total * rate], the rate of the three configured currencies being
    1, 0.92 and 6.91. *)
Theorem calculateTotals_in_list_order (st : State) :
  exists T,
    calculateTotals P st = (Normal T, st) /\
    getTaxRate P st = (Normal (clamped_percent P (form st) / 100), st) /\
    Totals.subtotal T = subtotal_of (current_items st) /\
    Totals.tax T = Totals.subtotal T * (clamped_percent P (form st) / 100) /\
    Totals.total T = Totals.subtotal T + Totals.tax T /\
    Totals.convertedTotal T = Totals.total T * rate_of (Form.currency (form st)) /\
    subtotal_of [] = 0 /\
    (forall its item,
        subtotal_of (its ++ [item])%list
        = subtotal_of its + ToNumber (Item.quantity item) * ToNumber (Item.price item)) /\
    rate_of "USD" = 1 /\ rate_of "EUR" = 0.92 /\ rate_of "BOB" = 6.91.
Proof.
  exists (totals_of P st). repeat split; auto using subtotal_of_snoc.
Qed.

(** C8, as the script computes it: with a currency code outside USD, EUR
    and BOB, [calculateTotals] raises nothing; it returns its object with
    the other fields as usual and NaN as the converted total.  With a
    code of the set it returns [total * rate]. *)
Theorem calculateTotals_unknown_currency_NaN (st : State) :
  let code := Form.currency (form st) in
  (code <> "USD" -> code <> "EUR" -> code <> "BOB" ->
   exists T, calculateTotals P st = (Normal T, st) /\
             Totals.subtotal T = subtotal_of (current_items st) /\
             Totals.total T = Totals.subtotal T + Totals.tax T /\
             Totals.convertedTotal T = nan) /\
  (code = "USD" \/ code = "EUR" \/ code = "BOB" ->
   exists T r, calculateTotals P st = (Normal T, st) /\
               exchangeRates !! code = Some r /\
               Totals.convertedTotal T = Totals.total T * r).
Proof.
  intros code. split.
  - intros H1 H2 H3. exists (totals_of P st). repeat split.
    cbn. fold code. unfold rate_of, exchangeRates.
    rewrite !lookup_insert_ne by congruence.
    rewrite lookup_singleton_ne by congruence. apply mul_nan_r.
  - intros H. exists (totals_of P st), (rate_of code).
    split; [reflexivity |]. split; [| reflexivity].
    destruct H as [-> | [-> | ->]]; reflexivity.
Qed.

End Calculation.

(** C2 fails on the script: the subtotal depends on the order of the
    items.  Three items of quantity 1 priced 0.1, 0.2 and 0.3 add up to
    0.6000000000000001 in that order and to 0.6 in the reverse order, and
    [calculateTotals] returns these two subtotals for the two stores. *)
Lemma subtotal_depends_on_order :
  let item price := Item.mk (Num 0) "x" (Num 1) (Num price) in
  let its := [item 0.1; item 0.2; item 0.3] in
  let store its := with_heap [its] (script_loaded Browser.blank_form ∅) in
  let subtotal its :=
    match fst (calculateTotals Browser.secure (store its)) with
    | Normal T => Totals.subtotal T
    | Throw _ => nan
    end in
  Permutation its (rev its) /\
  subtotal its = 0.6000000000000001 /\
  subtotal (rev its) = 0.6 /\
  subtotal its <> subtotal (rev its) /\
  subtotal_of its <> subtotal_of (rev its).
Proof.
  cbv zeta. split; [apply Permutation_rev |].
  split; [reflexivity |]. split; [reflexivity |].
  split; apply float_neq; reflexivity.
Qed.

Local Close Scope float_scope.

(** ** Handlers *)

Section Session.
Variable P : Platform.

Lemma exec_bind {A B} (m : Eff A) (k : A -> Eff B) (st : State) :
  exec (bind m k) st
  = match m st with
    | (Normal a, st') => exec (k a) st'
    | (Throw _, st') => st'
    end.
Proof. unfold exec, bind. destruct (m st) as [[a | e] st']; reflexivity. Qed.

Lemma with_currentInvoice_id (st : State) :
  with_currentInvoice (currentInvoiceHash st) (currentInvoiceTimestamp st) st = st.
Proof. destruct st; reflexivity. Qed.

Lemma updateDisplay_frame (now : float) (st : State) :
  exists h ts, exec (updateDisplay P now) st = with_currentInvoice h ts st.
Proof.
  unfold updateDisplay. rewrite exec_bind. cbn.
  destruct (length (current_items st) =? 0)%nat.
  { eexists _, _. symmetry. apply with_currentInvoice_id. }
  rewrite exec_bind.
  destruct (forallb _ _); cbn.
  2: { eexists _, _. symmetry. apply with_currentInvoice_id. }
  unfold exec, generateBlockchainData, generateHash, bind, gets, ret, throw, modify; cbn.
  destruct (crypto_subtle_digest P); cbn.
  - eexists _, _. reflexivity.
  - eexists _, _. symmetry. apply with_currentInvoice_id. 
Qed.

Lemma validateItem_eq st : validateItem P st = (Normal (valid_form P (form st)), st).
Proof.
  unfold validateItem, valid_form, bind, gets, ret. cbn.
  destruct (String.eqb _ _), (negb _ || _), (negb _ || _); reflexivity.
Qed.

Lemma addItem_effect now now' st :
  exists h ts,
    exec (addItem P now now') st
    = if valid_form P (form st)
      then with_currentInvoice h ts
             (with_form (Form.set Form.ItemPrice ""
                        (Form.set Form.ItemQuantity ""
                          (Form.set Form.ItemName "" (form st))))
                (with_heap (alter (fun v => v ++ [new_item P now (form st)]) (items st) (heap st)) st))
      else st.
Proof.
  unfold addItem. rewrite exec_bind, validateItem_eq.
  destruct (valid_form P (form st)); cbn.
  2: { exists None, None. reflexivity. }
  repeat (rewrite exec_bind; cbn).
  apply updateDisplay_frame.
Qed.

Lemma removeItem_effect id now st :
  exists h ts,
    exec (removeItem P id now) st
    = with_currentInvoice h ts
        (with_items (length (heap st))
          (with_heap (heap st ++ [List.filter (fun item => strict_neq (Item.id item) id) (current_items st)]) st)).
Proof.
  unfold removeItem. repeat (rewrite exec_bind; cbn).
  apply updateDisplay_frame.
Qed.

Lemma take_le {A} (n : nat) (l : list A) : length l <= n -> take n l = l.
Proof. intros. apply take_ge. lia. Qed.

Lemma saveToHistory_eq r st :
  saveToHistory P r st
  = (Normal tt,
     let hist := take 50 (r :: invoiceHistory st) in
     with_localStorage (<["invoiceHistory" := stringify_history P (heap st) hist]> (localStorage st))
       (with_invoiceHistory hist st)).
Proof.
  unfold saveToHistory, exec, bind, modify, gets, ret, setItem.
  cbn -[Nat.ltb take].
  destruct (Nat.ltb_spec 50 (S (length (invoiceHistory st)))) as [H|H]; cbn -[take].
  - reflexivity.
  - rewrite (take_le 50) by (cbn; lia). reflexivity.
Qed.

Lemma updateDisplay_empty now st :
  current_items st = [] -> updateDisplay P now st = (Normal tt, st).
Proof. intros H. unfold updateDisplay, bind, gets. cbn. rewrite H. reflexivity. Qed.

Lemma deref_alloc (h : list (list Item.t)) (v : list Item.t) :
  deref (h ++ [v]) (length h) = v.
Proof. unfold deref. rewrite lookup_app_r, Nat.sub_diag by lia. reflexivity. Qed.

Lemma deref_alloc_old (h : list (list Item.t)) (v : list Item.t) (l : nat) :
  l < length h -> deref (h ++ [v]) l = deref h l.
Proof. intros H. unfold deref. rewrite lookup_app_l by lia. reflexivity. Qed.

Lemma generatePDF_effect now st :
  drawable (current_items st) = true ->
  exists st',
    generatePDF P now st = (Normal tt, st') /\
    heap st' = ((heap st ++ [map (copy_item) (current_items st)]) ++ [[]])%list /\
    items st' = S (length (heap st)) /\
    invoiceNumber st' = Num (ToNumber (invoiceNumber st) + 1) /\
    invoiceHistory st' = take 50 (entry_of P now st :: invoiceHistory st) /\
    form st' = form st /\
    currentInvoiceHash st' = currentInvoiceHash st /\
    currentInvoiceTimestamp st' = currentInvoiceTimestamp st /\
    localStorage st'
    = <["invoiceNumber" := Number_toString P (ToNumber (invoiceNumber st) + 1)]>
        (<["invoiceHistory" :=
             stringify_history P (heap st ++ [map copy_item (current_items st)])
               (take 50 (entry_of P now st :: invoiceHistory st))]>
           (localStorage st)).
Proof.
  intros Hd. unfold generatePDF.
  unfold bind at 1. cbn [gets].
  unfold bind at 1. rewrite calculateTotals_eq.
  unfold bind at 1. cbn [gets].
  unfold bind at 1. fold (drawable (current_items st)). rewrite Hd. cbn [ret].
  unfold bind at 1. cbn [gets].
  unfold bind at 1. cbn [gets].
  unfold bind at 1. cbn [gets].
  unfold bind at 1. cbn [alloc].
  unfold bind at 1. rewrite saveToHistory_eq. cbv zeta.
  unfold bind at 1. cbn [modify].
  unfold bind at 1. cbn [gets].
  unfold bind at 1. cbn [setItem modify].
  unfold bind at 1. cbn [alloc].
  unfold bind at 1. cbn [modify].
  rewrite updateDisplay_empty.
  2: { unfold current_items. cbn -[take]. rewrite length_app. cbn.
       replace (length (heap st) + 1) with (length (heap st ++ [map copy_item (current_items st)])) by (rewrite length_app; cbn; lia).
       apply deref_alloc. }
  eexists. split; [reflexivity |]. cbn -[take insert].
  rewrite length_app. cbn -[take insert]. repeat split; try reflexivity. f_equal. lia.
Qed.

Lemma generatePDF_throws now st :
  drawable (current_items st) = false ->
  generatePDF P now st = (Throw TypeError, st).
Proof.
  intros Hd. unfold generatePDF.
  unfold bind at 1. cbn [gets].
  unfold bind at 1. rewrite calculateTotals_eq.
  unfold bind at 1. cbn [gets].
  unfold bind at 1. fold (drawable (current_items st)). rewrite Hd. reflexivity.
Qed.

Lemma deleteInvoice_effect index confirmed st :
  let st' := exec (deleteInvoice P index confirmed) st in
  heap st' = heap st /\ items st' = items st /\
  invoiceNumber st' = invoiceNumber st /\
  invoiceHistory st'
  = (if confirmed then delete index (invoiceHistory st) else invoiceHistory st) /\
  form st' = form st.
Proof.
  unfold deleteInvoice. destruct confirmed; [| repeat split].
  unfold exec, showHistory, bind, modify, gets, setItem. cbn.
  destruct (forallb _ _); repeat split.
Qed.

Lemma regenerateInvoice_effect index now st :
  let st' := exec (regenerateInvoice P index now) st in
  heap st' = heap st /\
  invoiceHistory st' = invoiceHistory st /\
  items st' = match invoiceHistory st !! index with
              | Some invoice => Invoice.items invoice
              | None => items st
              end /\
  invoiceNumber st' = match invoiceHistory st !! index with
                      | Some invoice => Invoice.invoiceNumber invoice
                      | None => invoiceNumber st
                      end.
Proof.
  unfold regenerateInvoice. rewrite exec_bind. cbn.
  destruct (invoiceHistory st !! index) as [invoice |]; [| repeat split].
  repeat (rewrite exec_bind; cbn).
  match goal with |- context [exec (updateDisplay P now) ?s] =>
    destruct (updateDisplay_frame now s) as (h & ts & ->) end.
  repeat split.
Qed.

Lemma input_effect fd text now st :
  let st' := exec (handler P (Input fd text now)) st in
  heap st' = heap st /\ items st' = items st /\
  invoiceNumber st' = invoiceNumber st /\
  invoiceHistory st' = invoiceHistory st /\
  form st' = Form.set fd text (form st).
Proof.
  unfold handler. rewrite exec_bind. cbn.
  destruct fd; try (repeat split; fail);
    match goal with |- context [exec (updateDisplay P now) ?s] =>
      destruct (updateDisplay_frame now s) as (h & ts & ->) end;
    repeat split.
Qed.


(** The history after a handler. *)
Lemma invoiceHistory_step (a : Action) (st : State) :
  invoiceHistory (step P st a)
  = match a with
    | GeneratePDF now =>
        if drawable (current_items st)
        then take 50 (entry_of P now st :: invoiceHistory st)
        else invoiceHistory st
    | DeleteInvoice index true => delete index (invoiceHistory st)
    | _ => invoiceHistory st
    end.
Proof.
  unfold step. destruct a as [fd text now | now now' | id now | now | index confirmed | index now].
  - apply input_effect.
  - cbn [handler]. destruct (addItem_effect now now' st) as (h & ts & ->).
    destruct (valid_form P (form st)); reflexivity.
  - cbn [handler]. destruct (removeItem_effect id now st) as (h & ts & ->). reflexivity.
  - cbn [handler]. destruct (drawable (current_items st)) eqn:Hd.
    + destruct (generatePDF_effect now st Hd) as (st' & E & _ & _ & _ & Hh & _).
      unfold exec. rewrite E. exact Hh.
    + unfold exec. rewrite (generatePDF_throws now st Hd). reflexivity.
  - destruct (deleteInvoice_effect index confirmed st) as (_ & _ & _ & H & _).
    cbn [handler]. rewrite H. destruct confirmed; reflexivity.
  - apply regenerateInvoice_effect.
Qed.
End Session.

(** ** The history *)

Section Ledger.
Variable P : Platform.

Lemma take_app_take {A} (n : nat) (a b : list A) :
  take n (a ++ take n b) = take n (a ++ b).
Proof.
  rewrite !take_app, take_take. f_equal. f_equal. lia.
Qed.

Lemma append_all_capped (records : list (Invoice.t nat)) (st : State) :
  length (invoiceHistory st) <= 50 ->
  invoiceHistory (append_all P records st)
  = take 50 (rev records ++ invoiceHistory st).
Proof.
  revert st. induction records as [| r rs IH]; intros st Hst.
  - cbn -[take]. symmetry. apply take_ge. lia.
  - unfold append_all in *. cbn [fold_left]. rewrite IH.
    + unfold exec. rewrite saveToHistory_eq. cbn -[take].
      rewrite take_app_take, <- app_assoc. reflexivity.
    + unfold exec. rewrite saveToHistory_eq. cbn -[take].
      rewrite length_take. lia.
Qed.

Lemma append_all_history (r : Invoice.t nat) (rs : list (Invoice.t nat)) (st : State) :
  invoiceHistory (append_all P (r :: rs) st)
  = take 50 (rev (r :: rs) ++ invoiceHistory st).
Proof.
  change (append_all P (r :: rs) st)
    with (append_all P rs (exec (saveToHistory P r) st)).
  rewrite append_all_capped.
  - unfold exec. rewrite saveToHistory_eq. cbn -[take].
    rewrite take_app_take, <- app_assoc. reflexivity.
  - unfold exec. rewrite saveToHistory_eq. cbn -[take]. rewrite length_take. lia.
Qed.

Lemma length_delete_le {A} (i : nat) (l : list A) : length (delete i l) <= length l.
Proof.
  revert i. induction l as [| x l IH]; intros [| i]; simpl; try lia.
  specialize (IH i). lia.
Qed.

Lemma run_history_bound (actions : list Action) (st : State) :
  length (invoiceHistory (run P actions st)) <= Nat.max 50 (length (invoiceHistory st)).
Proof.
  revert st. induction actions as [| a acts IH]; intros st; [cbn; lia |].
  cbn [run fold_left]. etransitivity; [apply IH |].
  rewrite invoiceHistory_step.
  destruct a as [| | | now | index [] |]; try lia.
  - destruct (drawable _); [| lia]. rewrite length_take. lia.
  - pose proof (length_delete_le index (invoiceHistory st)). lia.
Qed.

Lemma run_history_capped (actions : list Action) (st : State) :
  length (invoiceHistory st) <= 50 ->
  length (invoiceHistory (run P actions st)) <= 50.
Proof.
  revert st. induction actions as [| a acts IH]; intros st Hst; [exact Hst |].
  cbn [run fold_left]. apply IH. rewrite invoiceHistory_step.
  destruct a as [| | | now | index [] |]; try exact Hst.
  - destruct (drawable _); [| exact Hst]. rewrite length_take. lia.
  - pose proof (length_delete_le index (invoiceHistory st)). lia.
Qed.

End Ledger.

(** ** The start of a session *)

Section Start.
Variable P : Platform.

Lemma adopt_eq (records : list (Invoice.t (list Item.t))) (st : State) :
  adopt records st
  = (Normal (adopted (length (heap st)) records),
     with_heap (heap st ++ map Invoice.items records) st).
Proof.
  revert st. induction records as [| r rs IH]; intros st.
  - cbn. rewrite app_nil_r. destruct st; reflexivity.
  - cbn [adopt]. unfold bind at 1. cbn [alloc].
    unfold bind at 1. rewrite IH. unfold ret. f_equal.
    + f_equal. unfold adopted. cbn [imap heap with_heap].
      rewrite Nat.add_0_r. f_equal.
      apply imap_ext. intros k x _. cbn. f_equal. rewrite length_app. cbn. lia.
    + unfold with_heap. cbn. rewrite <- app_assoc. reflexivity.
Qed.

Lemma onDOMContentLoaded_eq (f : Form.t) (storage : gmap string string) :
  let st1 :=
    with_invoiceNumber (stored_counter P storage)
      (with_localStorage (<["theme" := stored_theme storage]> storage)
         (script_loaded f storage)) in
  onDOMContentLoaded P (script_loaded f storage)
  = match saved (storage !! "invoiceHistory") with
    | Some text =>
        match JSON_parse_history P text with
        | None => (Throw SyntaxError, st1)
        | Some (Entries records) =>
            (Normal Entries_held,
             with_invoiceHistory (adopted 1 records)
               (with_heap ([[]] ++ map Invoice.items records) st1))
        | Some (Other v) => (Normal (Value_held v), st1)
        end
    | None => (Normal Entries_held, st1)
    end.
Proof.
  cbv zeta. unfold onDOMContentLoaded.
  assert (Ht : forall st, setTheme (default "light" (saved (storage !! "theme"))) st
               = (Normal tt, with_localStorage (<["theme" := stored_theme storage]> (localStorage st)) st)).
  { intros st. unfold setTheme, stored_theme. destruct (String.eqb _ _); reflexivity. }
  unfold bind at 1. unfold getItem at 1, gets at 1.
  change (localStorage (script_loaded f storage)) with storage.
  unfold bind at 1. rewrite Ht.
  change (localStorage (script_loaded f storage)) with storage.
  set (ls := <["theme" := stored_theme storage]> storage).
  unfold bind at 1. unfold getItem at 1, gets at 1.
  change (localStorage (with_localStorage ls (script_loaded f storage))) with ls.
  assert (Hn : ls !! "invoiceNumber" = storage !! "invoiceNumber")
    by (apply lookup_insert_ne; discriminate).
  assert (Hh : ls !! "invoiceHistory" = storage !! "invoiceHistory")
    by (apply lookup_insert_ne; discriminate).
  rewrite Hn. unfold stored_counter.
  assert (Hparse : forall st1, localStorage st1 = ls -> heap st1 = [[]] ->
    (savedHistory <- getItem "invoiceHistory";;
     match saved savedHistory with
     | Some s =>
         match JSON_parse_history P s with
         | None => throw SyntaxError
         | Some (Entries records) =>
             hist <- adopt records;;
             modify (with_invoiceHistory hist);;
             ret Entries_held
         | Some (Other v) => ret (Value_held v)
         end
     | None => ret Entries_held
     end) st1
    = match saved (storage !! "invoiceHistory") with
      | Some text =>
          match JSON_parse_history P text with
          | None => (Throw SyntaxError, st1)
          | Some (Entries records) =>
              (Normal Entries_held,
               with_invoiceHistory (adopted 1 records)
                 (with_heap ([[]] ++ map Invoice.items records) st1))
          | Some (Other v) => (Normal (Value_held v), st1)
          end
      | None => (Normal Entries_held, st1)
      end).
  { intros st1 Hls Hheap. unfold bind at 1. unfold getItem, gets. rewrite Hls, Hh.
    destruct (saved (storage !! "invoiceHistory")) as [text |]; [| reflexivity].
    destruct (JSON_parse_history P text) as [[records | v] |]; [| reflexivity ..].
    unfold bind. rewrite adopt_eq, Hheap. reflexivity. }
  unfold bind at 1.
  destruct (saved (storage !! "invoiceNumber")) as [s |]; cbn [modify ret].
  - apply Hparse; reflexivity.
  - rewrite Hparse by reflexivity.
    destruct (saved (storage !! "invoiceHistory")) as [text |]; [| reflexivity].
    destruct (JSON_parse_history P text) as [[records | v] |]; reflexivity.
Qed.

(** The state a session starts with: the entries read from the storage,
    if any, each with its items in a new array. *)
Lemma session_start_eq (f : Form.t) (storage : gmap string string) :
  let st1 :=
    with_invoiceNumber (stored_counter P storage)
      (with_localStorage (<["theme" := stored_theme storage]> storage)
         (script_loaded f storage)) in
  session_start P f storage
  = match kept_entries P storage with
    | Some records =>
        with_invoiceHistory (adopted 1 records)
          (with_heap ([[]] ++ map Invoice.items records) st1)
    | None => st1
    end.
Proof.
  unfold session_start, exec, kept_entries. rewrite onDOMContentLoaded_eq. cbv zeta.
  destruct (saved (storage !! "invoiceHistory")) as [text |]; [| reflexivity].
  destruct (JSON_parse_history P text) as [[records | v] |]; reflexivity.
Qed.


End Start.

(** ** Line items *)

Section Items.
Variable P : Platform.

Lemma well_formed_spec (st : State) :
  well_formed st = true <->
  items st < length (heap st) /\
  Forall (fun r => Invoice.items r < length (heap st)) (invoiceHistory st).
Proof.
  unfold well_formed. rewrite andb_true_iff, Nat.ltb_lt, forallb_forall, Forall_forall.
  split; intros [H1 H2]; (split; [exact H1 |]); intros r Hr.
  - apply Nat.ltb_lt, H2. apply list_elem_of_In, Hr.
  - apply Nat.ltb_lt, H2. apply list_elem_of_In, Hr.
Qed.

Lemma deref_push (h : list (list Item.t)) (l : nat) (x : Item.t) :
  l < length h ->
  deref (alter (fun v => v ++ [x]) l h) l = deref h l ++ [x].
Proof.
  intros Hl. unfold deref. rewrite list_lookup_alter_eq.
  destruct (lookup_lt_is_Some_2 h l Hl) as [v ->]. reflexivity.
Qed.

Lemma deref_push_other (h : list (list Item.t)) (l l' : nat) (x : Item.t) :
  l <> l' -> deref (alter (fun v => v ++ [x]) l h) l' = deref h l'.
Proof. intros Hl. unfold deref. rewrite list_lookup_alter_ne by exact Hl. reflexivity. Qed.

(** A valid form adds one item at the end of the array behind [items],
    its id the clock reading. *)
Lemma addItem_items (now now' : float) (st : State) :
  well_formed st = true ->
  valid_form P (form st) = true ->
  current_items (exec (addItem P now now') st)
  = current_items st ++ [new_item P now (form st)].
Proof.
  intros Hwf Hv. destruct (addItem_effect P now now' st) as (h & ts & ->).
  rewrite Hv. unfold current_items. cbn.
  apply deref_push. apply well_formed_spec in Hwf. apply Hwf.
Qed.

Lemma removeItem_items (id : JS.value) (now : float) (st : State) :
  current_items (exec (removeItem P id now) st)
  = List.filter (fun item => strict_neq (Item.id item) id) (current_items st).
Proof.
  destruct (removeItem_effect P id now st) as (h & ts & ->).
  unfold current_items at 1. cbn. apply deref_alloc.
Qed.



Lemma regenerateInvoice_form index now st :
  valid_form P (form (exec (regenerateInvoice P index now) st)) = valid_form P (form st)
  /\ forall t, new_item P t (form (exec (regenerateInvoice P index now) st)) = new_item P t (form st).
Proof.
  unfold regenerateInvoice. rewrite exec_bind. cbn.
  destruct (invoiceHistory st !! index) as [invoice |]; [| split; reflexivity].
  repeat (rewrite exec_bind; cbn).
  match goal with |- context [exec (updateDisplay P now) ?s] =>
    destruct (updateDisplay_frame P now s) as (h & ts & ->) end.
  split; reflexivity.
Qed.

(** C7, where the script breaks it: [regenerateInvoice] binds [items] to
    the array of the entry itself, not to a copy, so the next [addItem]
    pushes its item into the entry of the history: the entry, still at its
    place in the history, then holds the new item after the ones it had. *)
Theorem regenerateInvoice_shares_items (index : nat) (now t t' : float) (st : State)
    (entry : Invoice.t nat) :
  well_formed st = true ->
  invoiceHistory st !! index = Some entry ->
  valid_form P (form st) = true ->
  let st1 := exec (regenerateInvoice P index now) st in
  let st2 := exec (addItem P t t') st1 in
  items st1 = Invoice.items entry /\
  entry_items st1 entry = entry_items st entry /\
  invoiceHistory st2 !! index = Some entry /\
  entry_items st2 entry = entry_items st entry ++ [new_item P t (form st)].
Proof.
  intros Hwf Hentry Hv. cbv zeta.
  destruct (regenerateInvoice_effect P index now st) as (Hheap & Hhist & Hitems & _).
  destruct (regenerateInvoice_form index now st) as (Hv1 & Hnew).
  rewrite Hentry in Hitems.
  set (st1 := exec (regenerateInvoice P index now) st) in *.
  split; [exact Hitems |].
  split; [unfold entry_items; rewrite Hheap; reflexivity |].
  destruct (addItem_effect P t t' st1) as (h & ts & ->).
  rewrite Hv1, Hv. cbn. rewrite Hhist. split; [exact Hentry |].
  unfold entry_items. cbn. rewrite Hitems, Hheap, Hnew.
  apply deref_push. apply well_formed_spec in Hwf as [_ Hall].
  rewrite Forall_forall in Hall. apply Hall.
  apply list_elem_of_lookup. exists index. exact Hentry.
Qed.
End Items.

(** ** Fingerprints *)

Section Fingerprint.
Variable P : Platform.

Lemma stringify_blockData_timestamp (n : JS.value) (c : string) (t : float)
    (ts ts' : string) (lines : list Block.line) :
  stringify_blockData P (Block.mkData n c t ts lines)
  = stringify_blockData P (Block.mkData n c t ts' lines) ->
  ts = ts'.
Proof.
  unfold stringify_blockData, JSON.object.
  cbn [Block.invoiceNumber Block.clientName Block.total Block.timestamp Block.items String.concat].
  intros H. apply String.app_inj in H.
  rewrite !append_assoc in H.
  do 6 (apply String.app_inj in H).
  unfold JSON.member in H. rewrite !append_assoc in H.
  do 2 (apply String.app_inj in H).
  eapply quote_inj. exact H.
Qed.

Lemma generateBlockchainData_eq (now : float) (d : InvoiceData.t) (st : State) :
  generateBlockchainData P now d st
  = match crypto_subtle_digest P with
    | Some digest =>
        (Normal (Block.mk (hashHex (digest (message_of P now d st)))
                   (Date_toISOString P now) (blockData_of P now d st)), st)
    | None => (Throw TypeError, st)
    end.
Proof.
  unfold generateBlockchainData, generateHash, bind, gets, ret, throw.
  destruct (crypto_subtle_digest P); reflexivity.
Qed.

Lemma map_line_of_same_but_id (its its' : list Item.t) :
  Forall2 same_but_id its its' -> map line_of its = map line_of its'.
Proof.
  induction 1 as [| i i' its its' (Hn & Hq & Hp) _ IH]; [reflexivity |].
  cbn [map]. rewrite IH. unfold line_of. rewrite Hn, Hq, Hp. reflexivity.
Qed.

(** X24: the ids of the items do not enter the fingerprint.  Two runs at
    one clock reading over invoices that agree on number, client and
    total, and whose items agree one by one on name, quantity and price,
    whatever their ids, hash the same bytes and complete alike. *)
Theorem fingerprint_ignores_ids (now : float) (d d' : InvoiceData.t) (st st' : State) :
  InvoiceData.invoiceNumber d = InvoiceData.invoiceNumber d' ->
  InvoiceData.clientName d = InvoiceData.clientName d' ->
  InvoiceData.total d = InvoiceData.total d' ->
  Forall2 same_but_id (deref (heap st) (InvoiceData.items d))
    (deref (heap st') (InvoiceData.items d')) ->
  message_of P now d st = message_of P now d' st' /\
  fst (generateBlockchainData P now d st) = fst (generateBlockchainData P now d' st').
Proof.
  intros Hn Hc Ht Hl. apply map_line_of_same_but_id in Hl.
  assert (blockData_of P now d st = blockData_of P now d' st') as Hb.
  { unfold blockData_of. rewrite Hn, Hc, Ht, Hl. reflexivity. }
  assert (message_of P now d st = message_of P now d' st') as Hm.
  { unfold message_of. rewrite Hb. reflexivity. }
  split; [exact Hm |].
  rewrite !generateBlockchainData_eq, Hm, Hb.
  destruct (crypto_subtle_digest P); reflexivity.
Qed.

(** X25: the timestamp enters the fingerprint.  Two runs over one invoice
    at clock readings with different timestamps hash different bytes, and
    their fingerprints are equal exactly when the digest does not tell
    these two messages apart (the hexadecimal rendering loses nothing). *)
Theorem fingerprint_of_another_timestamp (digest : list byte -> list byte)
    (now now' : float) (d : InvoiceData.t) (st : State) :
  crypto_subtle_digest P = Some digest ->
  Date_toISOString P now <> Date_toISOString P now' ->
  exists b b',
    generateBlockchainData P now d st = (Normal b, st) /\
    generateBlockchainData P now' d st = (Normal b', st) /\
    message_of P now d st <> message_of P now' d st /\
    (Block.hash b = Block.hash b'
     <-> digest (message_of P now d st) = digest (message_of P now' d st)).
Proof.
  intros Hd Hts.
  rewrite !generateBlockchainData_eq, Hd. eexists _, _.
  split; [reflexivity |]. split; [reflexivity |]. cbn [Block.hash]. split.
  - intros H. apply list_byte_of_string_inj in H.
    apply stringify_blockData_timestamp in H. exact (Hts H).
  - split; [apply hashHex_inj | intros ->; reflexivity].
Qed.
End Fingerprint.

(** ** Counters that hold an integer *)

Section Integers.


















End Integers.

(** ** Finalizing *)

Section Finalize.
Variable P : Platform.

Lemma State_eq (a b : State) :
  heap a = heap b -> items a = items b -> invoiceNumber a = invoiceNumber b ->
  invoiceHistory a = invoiceHistory b ->
  currentInvoiceHash a = currentInvoiceHash b ->
  currentInvoiceTimestamp a = currentInvoiceTimestamp b ->
  form a = form b -> localStorage a = localStorage b -> a = b.
Proof. destruct a, b; cbn; intros; subst; reflexivity. Qed.

Lemma generatePDF_without_digest (now : float) (st : State) :
  generatePDF P now st = generatePDF (without_digest P) now st.
Proof.
  destruct (drawable (current_items st)) eqn:Hd.
  - destruct (generatePDF_effect P now st Hd)
      as (a & -> & Ha1 & Ha2 & Ha3 & Ha4 & Ha5 & Ha6 & Ha7 & Ha8).
    destruct (generatePDF_effect (without_digest P) now st Hd)
      as (b & -> & Hb1 & Hb2 & Hb3 & Hb4 & Hb5 & Hb6 & Hb7 & Hb8).
    f_equal.
    apply State_eq;
      [ rewrite Ha1, Hb1 | rewrite Ha2, Hb2 | rewrite Ha3, Hb3 | rewrite Ha4, Hb4
      | rewrite Ha6, Hb6 | rewrite Ha7, Hb7 | rewrite Ha5, Hb5 | rewrite Ha8, Hb8 ];
      reflexivity.
  - rewrite !generatePDF_throws by exact Hd. reflexivity.
Qed.

(** The history a session starts with has an entry for each record
    [JSON.parse] returned, and is empty when nothing was kept or the text
    does not parse. *)
Lemma session_start_history (f : Form.t) (storage : gmap string string) :
  length (invoiceHistory (session_start P f storage))
  = length (default [] (kept_entries P storage)).
Proof.
  rewrite session_start_eq. cbv zeta.
  destruct (kept_entries P storage) as [records |]; [| reflexivity].
  cbn. unfold adopted. apply length_imap.
Qed.

(** C4, as the script behaves: the history is capped by [saveToHistory]
    and by nothing else.  [saveToHistory] puts the new entry at the head
    and cuts the list to its first 50, whatever its length was; appending
    51 entries one at a time to an empty history leaves exactly the last
    50, the most recent at the head and the first-appended one gone; no
    handler makes the history longer than 50 or than it was, so that a
    history of at most 50 entries stays so.  The listener of
    [DOMContentLoaded] does not cut what it reads: a session starts with
    as many entries as the kept text holds, and stays within 50 when these
    are at most 50. *)
Theorem history_capped_by_saveToHistory :
  (forall r st,
      let st' := exec (saveToHistory P r) st in
      invoiceHistory st' = take 50 (r :: invoiceHistory st) /\
      head (invoiceHistory st') = Some r /\
      length (invoiceHistory st') <= 50) /\
  (forall oldest rest st,
      length rest = 50 -> invoiceHistory st = [] ->
      invoiceHistory (append_all P (oldest :: rest) st) = rev rest) /\
  (forall actions st,
      length (invoiceHistory (run P actions st))
      <= Nat.max 50 (length (invoiceHistory st))) /\
  (forall actions st,
      length (invoiceHistory st) <= 50 ->
      length (invoiceHistory (run P actions st)) <= 50) /\
  (forall f storage,
      typed_history P storage = true ->
      length (invoiceHistory (session_start P f storage)) = length (loaded P storage) /\
      (length (loaded P storage) <= 50 ->
       forall actions,
         length (invoiceHistory (run P actions (session_start P f storage))) <= 50)).
Proof.
  split; [| split; [| split; [| split]]].
  - intros r st. cbv zeta. unfold exec. rewrite saveToHistory_eq. cbn -[take].
    split; [reflexivity |]. split; [reflexivity |]. rewrite length_take. lia.
  - intros oldest rest st Hlen Hst. rewrite append_all_history, Hst, app_nil_r.
    cbn [rev]. apply take_app_length'. rewrite length_rev. lia.
  - apply run_history_bound.
  - apply run_history_capped.
  - intros f storage _. split; [apply session_start_history |].
    intros Hkept actions. apply run_history_capped.
    rewrite session_start_history. exact Hkept.
Qed.

(** C1, as the script behaves: [generatePDF] makes no fingerprint and
    does not depend on whether one can be made; it runs the same with
    [crypto.subtle] undefined.  When the table of items can be drawn it
    completes: the store is left empty, the counter is one more, and the
    history gets one entry at its head (cut to 50) that carries the hash
    the last display stored, if any, and a copy of the items.  When an
    item has a [null] quantity or price it raises a TypeError before
    anything is saved, and the state is as it was. *)
Theorem generatePDF_commits_without_fingerprint (now : float) (st : State) :
  generatePDF P now st = generatePDF (without_digest P) now st /\
  (drawable (current_items st) = true ->
   exists st',
     generatePDF P now st = (Normal tt, st') /\
     current_items st' = [] /\
     invoiceNumber st' = Num (ToNumber (invoiceNumber st) + 1) /\
     invoiceHistory st' = take 50 (entry_of P now st :: invoiceHistory st) /\
     Invoice.hash (entry_of P now st) = currentInvoiceHash st /\
     entry_items st' (entry_of P now st) = map copy_item (current_items st)) /\
  (drawable (current_items st) = false ->
   generatePDF P now st = (Throw TypeError, st)).
Proof.
  split; [apply generatePDF_without_digest |]. split; [| apply generatePDF_throws].
  intros Hd.
  destruct (generatePDF_effect P now st Hd) as (st' & E & Hh & Hi & Hn & Hhist & _).
  exists st'. split; [exact E |].
  split.
  { unfold current_items. rewrite Hh, Hi.
    replace (S (length (heap st)))
      with (length (heap st ++ [map copy_item (current_items st)]))
      by (rewrite length_app; cbn; lia).
    apply deref_alloc. }
  split; [exact Hn |]. split; [exact Hhist |]. split; [reflexivity |].
  unfold entry_items. rewrite Hh. cbn [entry_of Invoice.items].
  rewrite deref_alloc_old by (rewrite length_app; cbn; lia).
  apply deref_alloc.
Qed.

Lemma session_start_counter (f : Form.t) (storage : gmap string string) :
  invoiceNumber (session_start P f storage) = stored_counter P storage.
Proof.
  rewrite session_start_eq. cbv zeta.
  destruct (kept_entries P storage); reflexivity.
Qed.





End Finalize.

(** ** References *)

Section References.
Variable P : Platform.

Lemma Forall_lt_mono (n m : nat) (hist : list (Invoice.t nat)) :
  n <= m ->
  Forall (fun r => Invoice.items r < n) hist ->
  Forall (fun r => Invoice.items r < m) hist.
Proof.
  intros Hnm H. eapply Forall_impl; [exact H |]. intros r Hr. cbn in Hr. lia.
Qed.

(** Every handler leaves the references of the state pointing into the heap. *)
Lemma well_formed_step (a : Action) (st : State) :
  well_formed st = true -> well_formed (step P st a) = true.
Proof.
  rewrite !well_formed_spec. intros [Hi Hh]. unfold step.
  destruct a as [fd text now | now now' | id now | now | index confirmed | index now];
    [| cbn [handler] ..].
  - destruct (input_effect P fd text now st) as (-> & -> & _ & -> & _). auto.
  - destruct (addItem_effect P now now' st) as (h & ts & ->).
    destruct (valid_form P (form st)); [| auto].
    cbn. rewrite length_alter. auto.
  - destruct (removeItem_effect P id now st) as (h & ts & ->).
    cbn. rewrite length_app. cbn. split; [lia |].
    eapply Forall_lt_mono; [| exact Hh]. lia.
  - destruct (drawable (current_items st)) eqn:Hd.
    + destruct (generatePDF_effect P now st Hd) as (st' & E & Hh1 & Hi1 & _ & Hhist & _).
      unfold exec. rewrite E. cbn [snd]. rewrite Hh1, Hi1, Hhist.
      rewrite !length_app. cbn -[take]. split; [lia |].
      apply Forall_take. constructor; [cbn; lia |].
      eapply Forall_lt_mono; [| exact Hh]. lia.
    + unfold exec. rewrite (generatePDF_throws P now st Hd). auto.
  - destruct (deleteInvoice_effect P index confirmed st) as (-> & -> & _ & -> & _).
    split; [exact Hi |]. destruct confirmed; [apply Forall_delete |]; exact Hh.
  - destruct (regenerateInvoice_effect P index now st) as (-> & -> & -> & _).
    split; [| exact Hh].
    destruct (invoiceHistory st !! index) as [entry |] eqn:He; [| exact Hi].
    rewrite Forall_forall in Hh. apply Hh, list_elem_of_lookup. eauto.
Qed.

Lemma well_formed_run (actions : list Action) (st : State) :
  well_formed st = true -> well_formed (run P actions st) = true.
Proof.
  revert st. induction actions as [| a acts IH]; intros st H; [exact H |].
  cbn [run fold_left]. apply IH, well_formed_step, H.
Qed.

Lemma well_formed_start (f : Form.t) (storage : gmap string string) :
  well_formed (session_start P f storage) = true.
Proof.
  rewrite session_start_eq. cbv zeta.
  destruct (kept_entries P storage) as [records |]; [| reflexivity].
  apply well_formed_spec. cbn. split; [lia |].
  rewrite Forall_forall. intros r Hr. unfold adopted in Hr.
  apply list_elem_of_lookup in Hr as [k Hk].
  rewrite list_lookup_imap in Hk.
  destruct (records !! k) as [r0 |] eqn:Hr0; [| discriminate].
  cbn in Hk. injection Hk as <-. cbn. rewrite length_map.
  apply lookup_lt_Some in Hr0. lia.
Qed.

(** [removeItem] binds [items] to a new array and changes no array: the
    items of every entry stay as they are. *)
Lemma removeItem_keeps_entries (id : JS.value) (now : float) (st : State)
    (entry : Invoice.t nat) :
  well_formed st = true -> entry ∈ invoiceHistory st ->
  entry_items (exec (removeItem P id now) st) entry = entry_items st entry.
Proof.
  intros Hwf He. destruct (removeItem_effect P id now st) as (h & ts & ->).
  unfold entry_items. cbn. apply deref_alloc_old.
  apply well_formed_spec in Hwf as [_ Hh]. rewrite Forall_forall in Hh. auto.
Qed.

(** [addItem] changes the array behind [items] only: an entry that holds
    another array keeps its items. *)
Lemma addItem_keeps_other_entries (now now' : float) (st : State) (entry : Invoice.t nat) :
  Invoice.items entry <> items st ->
  entry_items (exec (addItem P now now') st) entry = entry_items st entry.
Proof.
  intros Hne. destruct (addItem_effect P now now' st) as (h & ts & ->).
  destruct (valid_form P (form st)); [| reflexivity].
  unfold entry_items. cbn. apply deref_push_other. congruence.
Qed.

(** After [generatePDF] no entry holds the array behind [items]. *)
Lemma generatePDF_unshares (now : float) (st : State) (entry : Invoice.t nat) :
  well_formed st = true -> drawable (current_items st) = true ->
  entry ∈ invoiceHistory (exec (generatePDF P now) st) ->
  Invoice.items entry <> items (exec (generatePDF P now) st).
Proof.
  intros Hwf Hd. apply well_formed_spec in Hwf as [_ Hh].
  destruct (generatePDF_effect P now st Hd) as (st' & E & _ & Hi & _ & Hhist & _).
  unfold exec. rewrite E. cbn [snd]. rewrite Hi, Hhist. intros He.
  eapply elem_of_sublist in He; [| apply sublist_take].
  apply elem_of_cons in He as [-> | He].
  - cbn. lia.
  - rewrite Forall_forall in Hh. specialize (Hh _ He). lia.
Qed.
End References.

(** ** Further properties of the handlers *)

Section Further.
Variable P : Platform.

(** X1: the tax rate, where the input is not zero: an input that does
    not parse takes the default 13; a negative one is raised to 0, one above
    100 lowered to 100, and any other number is used as it is; the result
    is the percentage divided by 100. *)
Theorem getTaxRate_clamps (st : State) :
  let x := parseFloat P (Form.taxRate (form st)) in
  (is_nan x = true -> getTaxRate P st = (Normal (13 / 100)%float, st)) /\
  ((x <? 0)%float = true -> getTaxRate P st = (Normal (0 / 100)%float, st)) /\
  (gtb x 100 = true -> getTaxRate P st = (Normal (100 / 100)%float, st)) /\
  (ToBoolean x = true -> (x <? 0)%float = false -> gtb x 100 = false ->
   getTaxRate P st = (Normal (x / 100)%float, st)).
Proof.
  cbv zeta. split; [apply getTaxRate_unparsable |].
  split; [apply getTaxRate_negative |].
  split; [apply getTaxRate_above_100 | apply getTaxRate_in_range].
Qed.

(** X2: the items of a history entry, apart from [regenerateInvoice]:
    [removeItem] changes the items of no entry; [addItem] changes only the
    array behind [items], so it leaves an entry that holds another array
    as it is; and after [generatePDF] no entry holds the array behind
    [items], the saved entry being a copy. *)
Theorem entries_kept_without_regenerate :
  (forall id now st entry,
      well_formed st = true -> entry ∈ invoiceHistory st ->
      entry_items (exec (removeItem P id now) st) entry = entry_items st entry) /\
  (forall now now' st entry,
      Invoice.items entry <> items st ->
      entry_items (exec (addItem P now now') st) entry = entry_items st entry) /\
  (forall now st entry,
      well_formed st = true -> drawable (current_items st) = true ->
      entry ∈ invoiceHistory (exec (generatePDF P now) st) ->
      Invoice.items entry <> items (exec (generatePDF P now) st)).
Proof.
  split; [apply removeItem_keeps_entries |].
  split; [apply addItem_keeps_other_entries | apply generatePDF_unshares].
Qed.

(** X3: in every state of a session whose listener read a history of
    entries (or none), [items] and the [items] of every entry of the
    history refer to arrays of the heap. *)
Theorem references_stay_valid (f : Form.t) (storage : gmap string string)
    (actions : list Action) :
  typed_history P storage = true ->
  well_formed (run P actions (session_start P f storage)) = true.
Proof. intros _. apply well_formed_run, well_formed_start. Qed.

Lemma delete_beyond {A} (i : nat) (l : list A) : length l <= i -> delete i l = l.
Proof.
  revert i. induction l as [| x l IH]; intros [| i] H; simpl in *; try reflexivity; try lia.
  f_equal. apply IH. lia.
Qed.

(** X4: a confirmed [deleteInvoice] removes the entry at its index and no
    other, keeping the order of the rest; past the end of the history, or
    not confirmed, it removes nothing. *)
Theorem deleteInvoice_removes_one (index : nat) (st : State) :
  let hist := invoiceHistory st in
  invoiceHistory (exec (deleteInvoice P index true) st) = delete index hist /\
  invoiceHistory (exec (deleteInvoice P index false) st) = hist /\
  sublist (delete index hist) hist /\
  length (delete index hist)
  = (if (index <? length hist)%nat then length hist - 1 else length hist) /\
  (forall i, i < index -> delete index hist !! i = hist !! i) /\
  (forall i, index <= i -> delete index hist !! i = hist !! S i).
Proof.
  cbv zeta.
  split; [apply (deleteInvoice_effect P index true st) |].
  split; [apply (deleteInvoice_effect P index false st) |].
  split; [apply sublist_delete |]. split.
  - destruct (Nat.ltb_spec index (length (invoiceHistory st))) as [H | H].
    + apply length_delete, lookup_lt_is_Some_2, H.
    + rewrite delete_beyond by exact H. reflexivity.
  - split; intros i Hi.
    + apply list_lookup_delete_lt, Hi.
    + apply list_lookup_delete_ge, Hi.
Qed.

(** X5: [addItem] on a form that does not validate changes nothing; the form
    validates when the trimmed name is not empty and quantity and price
    each parse to a truthy number that is not at most 0. *)
Theorem addItem_validates (now now' : float) (st : State) :
  let f := form st in
  let quantity := parseFloat P (Form.itemQuantity f) in
  let price := parseFloat P (Form.itemPrice f) in
  validateItem P st
  = (Normal (negb (String.eqb (String_trim P (Form.itemName f)) "")
             && (ToBoolean quantity && negb (quantity <=? 0)%float)
             && (ToBoolean price && negb (price <=? 0)%float)), st) /\
  (fst (validateItem P st) = Normal false -> addItem P now now' st = (Normal tt, st)).
Proof.
  cbv zeta. split.
  - rewrite validateItem_eq. unfold valid_form.
    destruct (String.eqb _ _), (ToBoolean (parseFloat P (Form.itemQuantity (form st)))),
      (parseFloat P (Form.itemQuantity (form st)) <=? 0)%float,
      (ToBoolean (parseFloat P (Form.itemPrice (form st)))),
      (parseFloat P (Form.itemPrice (form st)) <=? 0)%float; reflexivity.
  - rewrite validateItem_eq. cbn [fst]. intros H. injection H as H.
    unfold addItem, bind. rewrite validateItem_eq, H. reflexivity.
Qed.

End Further.

(** ** Comparisons of doubles *)

Section Comparisons.

Lemma SFcompare_antisym (x y : spec_float) :
  SFcompare y x = option_map CompOpp (SFcompare x y).
Proof.
  destruct x as [[] | [] | | [] mx ex], y as [[] | [] | | [] my ey]; try reflexivity;
    cbn; rewrite (Z.compare_antisym ey ex);
    destruct (ey ?= ex)%Z; cbn; try reflexivity;
    rewrite (Pos.compare_cont_antisym _ _ Eq); cbn;
    try rewrite CompOpp_involutive; reflexivity.
Qed.

(** Of two numbers, when the first is not below the second, the second is
    at most the first. *)
Lemma leb_of_not_ltb (x y : float) :
  is_nan x = false -> is_nan y = false -> (x <? y)%float = false ->
  (y <=? x)%float = true.
Proof.
  rewrite !is_nan_SF, FloatAxioms.ltb_spec, FloatAxioms.leb_spec.
  unfold SFltb, SFleb. rewrite (SFcompare_antisym (Prim2SF x) (Prim2SF y)).
  destruct (Prim2SF x) as [[] | [] | | [] mx ex], (Prim2SF y) as [[] | [] | | [] my ey];
    try discriminate; cbn; try reflexivity; try discriminate;
    intros _ _; destruct (ex ?= ey)%Z; cbn; try reflexivity; try discriminate;
    destruct (Pos.compare_cont Eq mx my); cbn; try reflexivity; discriminate.
Qed.

Lemma truthy_not_nan (x : float) : ToBoolean x = true -> is_nan x = false.
Proof. unfold ToBoolean. destruct (is_nan x); [discriminate | reflexivity]. Qed.

(** [!x || x <= 0] is the negation of [x > 0]. *)
Lemma positive_check (x : float) :
  negb (negb (ToBoolean x) || (x <=? 0)%float) = (0 <? x)%float.
Proof.
  unfold ToBoolean, is_zero. rewrite is_nan_SF.
  rewrite FloatAxioms.ltb_spec, FloatAxioms.leb_spec, FloatAxioms.eqb_spec.
  change (Prim2SF 0) with (S754_zero false).
  change (Prim2SF PrimFloat.zero) with (S754_zero false).
  destruct (Prim2SF x) as [[] | [] | | [] m e]; reflexivity.
Qed.

(** No number compares equal to NaN. *)
Lemma eqb_nan (x y : float) : is_nan y = true -> (x =? y)%float = false.
Proof.
  rewrite is_nan_SF, FloatAxioms.eqb_spec.
  destruct (Prim2SF y); try discriminate. intros _.
  destruct (Prim2SF x) as [[] | [] | | [] m e]; reflexivity.
Qed.



End Comparisons.

(** ** Bounds of the tax rate and of the items *)

Section Bounds.
Variable P : Platform.

Lemma clamped_percent_range (f : Form.t) :
  (0 <=? clamped_percent P f)%float = true /\ (clamped_percent P f <=? 100)%float = true.
Proof.
  unfold clamped_percent, or_number.
  set (x := parseFloat P (Form.taxRate f)).
  destruct (ToBoolean x) eqn:Ht.
  - destruct (x <? 0)%float eqn:Hneg.
    + split; reflexivity.
    + destruct (gtb x 100) eqn:Hgt; [split; reflexivity |].
      pose proof (truthy_not_nan x Ht) as Hn. split.
      * apply leb_of_not_ltb; [exact Hn | reflexivity | exact Hneg].
      * apply leb_of_not_ltb; [reflexivity | exact Hn | exact Hgt].
  - split; reflexivity.
Qed.

(** X6: whatever the tax-rate input holds, [getTaxRate] returns
    [percent / 100] for a percentage that is a number from 0 to 100 (it is
    never NaN, negative, above 100 or infinite), and this is the rate the
    tax of [calculateTotals] is computed with. *)
Theorem getTaxRate_within_bounds (st : State) :
  exists percent,
    getTaxRate P st = (Normal (percent / 100)%float, st) /\
    (0 <=? percent)%float = true /\ (percent <=? 100)%float = true /\
    fst (calculateTotals P st)
    = Normal (totals_of P st) /\
    Totals.tax (totals_of P st) = (subtotal_of (current_items st) * (percent / 100))%float.
Proof.
  exists (clamped_percent P (form st)). split; [apply getTaxRate_eq |].
  destruct (clamped_percent_range (form st)) as [H0 H1].
  split; [exact H0 |]. split; [exact H1 |]. split; reflexivity.
Qed.

(** X7: [validateItem] accepts the form exactly when the trimmed name is
    not empty and quantity and price each parse to a number above 0 (the
    check [!x || x <= 0] fails exactly for [x > 0], which holds of
    [Infinity] and of no NaN); it changes no state. *)
Theorem validateItem_accepts_positive (st : State) :
  let f := form st in
  validateItem P st
  = (Normal (negb (String.eqb (String_trim P (Form.itemName f)) "")
             && (0 <? parseFloat P (Form.itemQuantity f))%float
             && (0 <? parseFloat P (Form.itemPrice f))%float), st).
Proof.
  cbv zeta. rewrite validateItem_eq. unfold valid_form. rewrite !positive_check. reflexivity.
Qed.
End Bounds.

(** ** The fingerprint on the page and in the PDF *)

Section Rendering.
Variable P : Platform.
Local Arguments String.append !_ _ / : simpl nomatch.










Lemma drawable_prices (its : list Item.t) :
  drawable its = true ->
  forallb (fun item => has_methods (Item.price item)) its = true.
Proof.
  unfold drawable. rewrite !forallb_forall. intros H item Hin.
  specialize (H item Hin). apply andb_true_iff in H. apply H.
Qed.

Lemma length_eqb_0 {A} (l : list A) : l <> [] -> (length l =? 0)%nat = false.
Proof. destruct l; [congruence | reflexivity]. Qed.

(** [updateDisplay], case by case. *)
Lemma updateDisplay_eq (now : float) (st : State) :
  updateDisplay P now st
  = if (length (current_items st) =? 0)%nat then (Normal tt, st)
    else if forallb (fun item => has_methods (Item.price item)) (current_items st)
    then match crypto_subtle_digest P with
         | Some digest =>
             (Normal tt,
              with_currentInvoice (Some (Block.hash (block_of P digest now st)))
                (Some (Block.block_timestamp (block_of P digest now st))) st)
         | None => (Throw TypeError, st)
         end
    else (Throw TypeError, st).
Proof.
  unfold updateDisplay. unfold bind at 1. cbn [gets].
  destruct (length (current_items st) =? 0)%nat; [reflexivity |].
  unfold bind at 1.
  destruct (forallb _ _); [| reflexivity]. cbn [ret].
  unfold bind at 1. rewrite calculateTotals_eq.
  unfold bind at 1. cbn [gets].
  unfold bind at 1. cbn [gets].
  unfold bind at 1. cbn [gets].
  unfold bind at 1. rewrite generateBlockchainData_eq.
  destruct (crypto_subtle_digest P); reflexivity.
Qed.

(** The display of a store that is not empty, where the digest is there. *)
Lemma updateDisplay_hashes (digest : list byte -> list byte) (now : float) (st : State) :
  crypto_subtle_digest P = Some digest ->
  current_items st <> [] ->
  forallb (fun item => has_methods (Item.price item)) (current_items st) = true ->
  updateDisplay P now st
  = (Normal tt,
     with_currentInvoice (Some (Block.hash (block_of P digest now st)))
       (Some (Block.block_timestamp (block_of P digest now st))) st).
Proof.
  intros Hd Hne Hp. rewrite updateDisplay_eq, Hd, Hp, (length_eqb_0 _ Hne). reflexivity.
Qed.

Lemma updateDisplay_throws (now : float) (st : State) :
  current_items st <> [] ->
  crypto_subtle_digest P = None ->
  updateDisplay P now st = (Throw TypeError, st).
Proof.
  intros Hne Hd. rewrite updateDisplay_eq, Hd, (length_eqb_0 _ Hne).
  destruct (forallb _ _); reflexivity.
Qed.


Lemma stringify_blockData_clientName (n : JS.value) (c c' : string) (t t' : float)
    (ts ts' : string) (lines lines' : list Block.line) :
  stringify_blockData P (Block.mkData n c t ts lines)
  = stringify_blockData P (Block.mkData n c' t' ts' lines') ->
  c = c'.
Proof.
  unfold stringify_blockData, JSON.object.
  cbn [Block.invoiceNumber Block.clientName Block.total Block.timestamp Block.items String.concat].
  intros H. apply String.app_inj in H.
  rewrite !append_assoc in H.
  do 2 (apply String.app_inj in H).
  unfold JSON.member in H. rewrite !append_assoc in H.
  do 2 (apply String.app_inj in H).
  eapply quote_inj. exact H.
Qed.

(** X9: the hash an entry of the history carries is the one of the last
    display, not one of the entry.  Typing a client name runs no display,
    so after a display, a new client name and [generatePDF], the entry at
    the head of the history has the new name and the hash made with the
    old one: the bytes that were hashed differ from the bytes the same
    display would hash for the entry's own name. *)
Theorem saved_fingerprint_is_of_last_display (digest : list byte -> list byte)
    (now now' now'' : float) (name : string) (st : State) :
  crypto_subtle_digest P = Some digest ->
  current_items st <> [] ->
  drawable (current_items st) = true ->
  let st1 := exec (updateDisplay P now) st in
  let st2 := step P st1 (Input Form.ClientName name now') in
  let st3 := exec (generatePDF P now'') st2 in
  exists entry,
    head (invoiceHistory st3) = Some entry /\
    Invoice.clientName entry = or_string name "General Client" /\
    Invoice.hash entry = Some (hashHex (digest (message_of P now (displayed P st) st))) /\
    (or_string name "General Client"
     <> or_string (Form.clientName (form st)) "General Client" ->
     message_of P now (displayed P st2) st2 <> message_of P now (displayed P st) st).
Proof.
  intros Hd Hne Hdr st1 st2 st3.
  assert (E1 : st1 = with_currentInvoice (Some (Block.hash (block_of P digest now st)))
                       (Some (Block.block_timestamp (block_of P digest now st))) st).
  { unfold st1, exec. rewrite (updateDisplay_hashes digest) by auto using drawable_prices.
    reflexivity. }
  assert (E2 : st2 = with_form (Form.set Form.ClientName name (form st1)) st1) by reflexivity.
  assert (Hdr2 : drawable (current_items st2) = true) by (rewrite E2, E1; exact Hdr).
  destruct (generatePDF_effect P now'' st2 Hdr2) as (st' & E & _ & _ & _ & Hhist & _).
  exists (entry_of P now'' st2).
  split; [unfold st3, exec; rewrite E; cbn [snd]; rewrite Hhist; reflexivity |].
  split; [rewrite E2; reflexivity |].
  split; [rewrite E2, E1; reflexivity |].
  intros Hname Hm. apply Hname.
  apply list_byte_of_string_inj in Hm.
  rewrite E2, E1 in Hm. unfold blockData_of, displayed in Hm.
  cbn [InvoiceData.invoiceNumber InvoiceData.clientName InvoiceData.total InvoiceData.items
       invoiceNumber form with_form with_currentInvoice Form.set Form.clientName] in Hm.
  apply stringify_blockData_clientName in Hm. exact Hm.
Qed.

End Rendering.

(** ** What is kept in the storage *)

Section Storage.
Variable P : Platform.

Lemma input_state (fd : Form.field) (text : string) (now : float) (st : State) :
  exists h ts,
    exec (handler P (Input fd text now)) st
    = with_currentInvoice h ts (with_form (Form.set fd text (form st)) st).
Proof.
  unfold handler. rewrite exec_bind. cbn [modify].
  destruct fd; try apply updateDisplay_frame;
    eexists _, _; symmetry; apply with_currentInvoice_id.
Qed.

Lemma regenerateInvoice_eq (index : nat) (now : float) (st : State) :
  regenerateInvoice P index now st
  = match invoiceHistory st !! index with
    | Some invoice =>
        updateDisplay P now
          (with_form (Form.set Form.FiscalField (or_string (Invoice.fiscalField invoice) "")
                       (Form.set Form.ClientName (Invoice.clientName invoice) (form st)))
             (with_invoiceNumber (Invoice.invoiceNumber invoice)
                (with_items (Invoice.items invoice) st)))
    | None => (Throw TypeError, st)
    end.
Proof.
  unfold regenerateInvoice. unfold bind at 1. cbn [gets].
  destruct (invoiceHistory st !! index); reflexivity.
Qed.

Lemma regenerateInvoice_state (index : nat) (now : float) (st : State) :
  exists h ts,
    exec (regenerateInvoice P index now) st
    = match invoiceHistory st !! index with
      | Some invoice =>
          with_currentInvoice h ts
            (with_form (Form.set Form.FiscalField (or_string (Invoice.fiscalField invoice) "")
                         (Form.set Form.ClientName (Invoice.clientName invoice) (form st)))
               (with_invoiceNumber (Invoice.invoiceNumber invoice)
                  (with_items (Invoice.items invoice) st)))
      | None => st
      end.
Proof.
  unfold exec. rewrite regenerateInvoice_eq.
  destruct (invoiceHistory st !! index) as [invoice |].
  - apply updateDisplay_frame.
  - exists None, None. reflexivity.
Qed.

Lemma deleteInvoice_state (index : nat) (st : State) :
  exec (deleteInvoice P index true) st
  = with_localStorage
      (<["invoiceHistory" := stringify_history P (heap st) (delete index (invoiceHistory st))]>
         (localStorage st))
      (with_invoiceHistory (delete index (invoiceHistory st)) st).
Proof.
  unfold deleteInvoice, exec, showHistory, bind, modify, gets, setItem. cbn.
  destruct (forallb _ _); reflexivity.
Qed.

(** What the storage holds after a handler. *)
Lemma localStorage_step (a : Action) (st : State) :
  localStorage (step P st a)
  = match a with
    | GeneratePDF now =>
        if drawable (current_items st)
        then <["invoiceNumber" := Number_toString P (ToNumber (invoiceNumber st) + 1)]>
               (<["invoiceHistory" :=
                    stringify_history P (heap st ++ [map (copy_item) (current_items st)])
                      (take 50 (entry_of P now st :: invoiceHistory st))]>
                  (localStorage st))
        else localStorage st
    | DeleteInvoice index true =>
        <["invoiceHistory" := stringify_history P (heap st) (delete index (invoiceHistory st))]>
          (localStorage st)
    | _ => localStorage st
    end.
Proof.
  unfold step. destruct a as [fd text now | now now' | id now | now | index [] | index now].
  - destruct (input_state fd text now st) as (h & ts & ->). reflexivity.
  - cbn [handler]. destruct (addItem_effect P now now' st) as (h & ts & ->).
    destruct (valid_form P (form st)); reflexivity.
  - cbn [handler]. destruct (removeItem_effect P id now st) as (h & ts & ->). reflexivity.
  - cbn [handler]. destruct (drawable (current_items st)) eqn:Hd.
    + destruct (generatePDF_effect P now st Hd) as (st' & E & _ & _ & _ & _ & _ & _ & _ & Hls).
      unfold exec. rewrite E. exact Hls.
    + unfold exec. rewrite (generatePDF_throws P now st Hd). reflexivity.
  - cbn [handler]. rewrite deleteInvoice_state. reflexivity.
  - reflexivity.
  - cbn [handler]. destruct (regenerateInvoice_state index now st) as (h & ts & ->).
    destruct (invoiceHistory st !! index); reflexivity.
Qed.

Lemma localStorage_start (f : Form.t) (storage : gmap string string) :
  localStorage (session_start P f storage) = <["theme" := stored_theme storage]> storage.
Proof.
  rewrite session_start_eq. cbv zeta.
  destruct (kept_entries P storage); reflexivity.
Qed.

Lemma foreign_key_step (a : Action) (st : State) (key : string) :
  key <> "invoiceNumber" -> key <> "invoiceHistory" ->
  localStorage (step P st a) !! key = localStorage st !! key.
Proof.
  intros H1 H2. rewrite localStorage_step.
  destruct a as [| | | now | index [] |]; try reflexivity.
  - destruct (drawable _); [| reflexivity].
    rewrite !lookup_insert_ne by congruence. reflexivity.
  - rewrite lookup_insert_ne by congruence. reflexivity.
Qed.

Lemma kept_key_step (a : Action) (st : State) (key : string) :
  is_Some (localStorage st !! key) -> is_Some (localStorage (step P st a) !! key).
Proof.
  intros H. rewrite localStorage_step.
  destruct a as [| | | now | index [] |]; try exact H.
  - destruct (drawable _); [| exact H].
    rewrite !lookup_insert_is_Some. destruct (decide ("invoiceNumber" = key)); [auto |].
    right. split; [assumption |]. destruct (decide ("invoiceHistory" = key)); auto.
  - rewrite lookup_insert_is_Some. destruct (decide ("invoiceHistory" = key)); auto.
Qed.

(** X10: what the script writes to the storage.  Typing, [addItem],
    [removeItem], [regenerateInvoice] (which changes the counter), a
    [generatePDF] that raises and a [deleteInvoice] that is not confirmed
    leave the storage as it is; in a whole session no key other than
    [theme], [invoiceNumber] and [invoiceHistory] changes its value, and
    no key that was there is removed. *)
Theorem storage_written_on_save_only :
  (forall a st,
      match a with
      | GeneratePDF _ =>
          drawable (current_items st) = false -> localStorage (step P st a) = localStorage st
      | DeleteInvoice _ confirmed =>
          confirmed = false -> localStorage (step P st a) = localStorage st
      | Input _ _ _ | AddItem _ _ | RemoveItem _ _ | RegenerateInvoice _ _ =>
          localStorage (step P st a) = localStorage st
      end) /\
  (forall f storage actions key,
      key <> "theme" -> key <> "invoiceNumber" -> key <> "invoiceHistory" ->
      localStorage (run P actions (session_start P f storage)) !! key = storage !! key) /\
  (forall f storage actions key,
      is_Some (storage !! key) ->
      is_Some (localStorage (run P actions (session_start P f storage)) !! key)).
Proof.
  split; [| split].
  - intros a st. pose proof (localStorage_step a st) as H.
    destruct a as [| | | now | index confirmed |]; try exact H.
    + intros Hd. rewrite Hd in H. exact H.
    + intros ->. exact H.
  - intros f storage actions key Ht Hn Hh.
    assert (forall st, localStorage (run P actions st) !! key = localStorage st !! key) as Hrun.
    { induction actions as [| a acts IH]; intros st; [reflexivity |].
      cbn [run fold_left]. unfold run in IH. rewrite IH.
      apply foreign_key_step; assumption. }
    rewrite Hrun, localStorage_start. apply lookup_insert_ne. congruence.
  - intros f storage actions key Hk.
    assert (forall st, is_Some (localStorage st !! key) ->
                       is_Some (localStorage (run P actions st) !! key)) as Hrun.
    { induction actions as [| a acts IH]; intros st H; [exact H |].
      cbn [run fold_left]. apply IH, kept_key_step, H. }
    apply Hrun. rewrite localStorage_start, lookup_insert_is_Some.
    destruct (decide ("theme" = key)); auto.
Qed.

Lemma stringify_history_ext (h h' : list (list Item.t)) (hist : list (Invoice.t nat)) :
  Forall (fun r => deref h (Invoice.items r) = deref h' (Invoice.items r)) hist ->
  stringify_history P h hist = stringify_history P h' hist.
Proof.
  intros H. unfold stringify_history. f_equal.
  induction H as [| r hist Hr _ IH]; [reflexivity |].
  cbn [map]. rewrite Hr, IH. reflexivity.
Qed.

Lemma stringify_history_alloc (h : list (list Item.t)) (v : list Item.t)
    (hist : list (Invoice.t nat)) :
  Forall (fun r => Invoice.items r < length h) hist ->
  stringify_history P (h ++ [v]) hist = stringify_history P h hist.
Proof.
  intros H. apply stringify_history_ext.
  eapply Forall_impl; [exact H |]. intros r Hr. apply deref_alloc_old, Hr.
Qed.

(** After [generatePDF] the storage holds the history and the counter of
    the state. *)
Lemma generatePDF_persists (now : float) (st : State) :
  well_formed st = true ->
  drawable (current_items st) = true ->
  let st' := exec (generatePDF P now) st in
  localStorage st' !! "invoiceHistory"
  = Some (stringify_history P (heap st') (invoiceHistory st')) /\
  localStorage st' !! "invoiceNumber"
  = Some (Number_toString P (ToNumber (invoiceNumber st'))).
Proof.
  intros Hwf Hd. apply well_formed_spec in Hwf as [Hi Hh]. cbv zeta.
  destruct (generatePDF_effect P now st Hd)
    as (st' & E & Hheap & _ & Hn & Hhist & _ & _ & _ & Hls).
  unfold exec. rewrite E. cbn [snd]. rewrite Hls, Hheap, Hhist, Hn. split.
  - rewrite lookup_insert_ne by discriminate. rewrite lookup_insert_eq. f_equal.
    symmetry. apply stringify_history_alloc.
    apply Forall_take. constructor.
    + cbn. rewrite length_app. cbn. lia.
    + eapply Forall_lt_mono; [| exact Hh]. rewrite length_app. lia.
  - rewrite lookup_insert_eq. reflexivity.
Qed.

(** X11: after a [generatePDF] that completes, and after a confirmed
    [deleteInvoice], the text stored under [invoiceHistory] is the JSON
    text of the history the state holds; after [generatePDF] the text
    stored under [invoiceNumber] is that of the counter. *)
Theorem history_persisted (st : State) :
  well_formed st = true ->
  (forall now,
      drawable (current_items st) = true ->
      let st' := exec (generatePDF P now) st in
      localStorage st' !! "invoiceHistory"
      = Some (stringify_history P (heap st') (invoiceHistory st')) /\
      localStorage st' !! "invoiceNumber"
      = Some (Number_toString P (ToNumber (invoiceNumber st')))) /\
  (forall index,
      let st' := exec (deleteInvoice P index true) st in
      localStorage st' !! "invoiceHistory"
      = Some (stringify_history P (heap st') (invoiceHistory st'))).
Proof.
  intros Hwf. split.
  - intros now Hd. apply generatePDF_persists; assumption.
  - intros index. cbv zeta. rewrite deleteInvoice_state. cbn.
    apply lookup_insert_eq.
Qed.

Lemma content_adopted (records : list (Invoice.t (list Item.t))) (h : list (list Item.t)) :
  map (fun r => Invoice.with_items r (deref (h ++ map Invoice.items records) (Invoice.items r)))
      (adopted (length h) records)
  = records.
Proof.
  apply list_eq. intros k. unfold adopted.
  rewrite list_lookup_fmap, list_lookup_imap.
  destruct (records !! k) as [r |] eqn:Hr; [| reflexivity].
  cbn. f_equal. unfold deref. rewrite lookup_app_r by lia.
  replace (length h + k - length h) with k by lia.
  rewrite list_lookup_fmap, Hr. cbn. destruct r; reflexivity.
Qed.


Lemma session_start_content (f : Form.t) (storage : gmap string string) :
  content (session_start P f storage) = loaded P storage.
Proof.
  rewrite session_start_eq. cbv zeta. unfold loaded.
  destruct (kept_entries P storage) as [records |]; [| reflexivity].
  unfold content, entry_items. cbn [heap invoiceHistory with_invoiceHistory with_heap].
  apply (content_adopted records [[]]).
Qed.

Lemma session_start_items (f : Form.t) (storage : gmap string string) :
  current_items (session_start P f storage) = [].
Proof.
  rewrite session_start_eq. cbv zeta.
  destruct (kept_entries P storage); reflexivity.
Qed.


(** The text of a history is never empty: it is read at the next start. *)
Lemma saved_stringify_history (h : list (list Item.t)) (hist : list (Invoice.t nat)) :
  saved (Some (stringify_history P h hist)) = Some (stringify_history P h hist).
Proof. reflexivity. Qed.

(** X13: what [generatePDF] stored is what the next session starts with.
    When [parseInt] reads the counter's text back, the next session has
    the counter [generatePDF] left; when [JSON.parse] reads the stored
    history back, the next session has the same history, entry by entry
    with the same items; the items of an invoice being built are not
    kept. *)
Theorem reload_restores (f : Form.t) (now : float) (st : State) :
  well_formed st = true ->
  drawable (current_items st) = true ->
  let st' := exec (generatePDF P now) st in
  let st2 := session_start P f (localStorage st') in
  let n := ToNumber (invoiceNumber st') in
  (Number_toString P n <> "" -> parseInt P (Number_toString P n) = n ->
   invoiceNumber st2 = invoiceNumber st') /\
  (JSON_parse_history P (stringify_history P (heap st') (invoiceHistory st'))
   = Some (Entries (content st')) ->
   content st2 = content st') /\
  current_items st2 = [].
Proof.
  intros Hwf Hd. cbv zeta.
  destruct (generatePDF_persists now st Hwf Hd) as [Hh Hn].
  destruct (generatePDF_effect P now st Hd) as (st' & E & _ & _ & Hnum & _).
  revert Hh Hn. unfold exec. rewrite E. cbn [snd]. intros Hh Hn.
  split; [| split; [| apply session_start_items]].
  - intros Hne Hparse. rewrite session_start_counter. unfold stored_counter. rewrite Hn.
    destruct (Number_toString P (ToNumber (invoiceNumber st'))) as [| c s] eqn:Ht;
      [contradiction Hne; reflexivity |].
    cbn [saved]. rewrite Hparse, Hnum. reflexivity.
  - intros Hparse. rewrite session_start_content. unfold loaded, kept_entries. rewrite Hh.
    rewrite saved_stringify_history, Hparse. reflexivity.
Qed.
End Storage.

(** ** Copies through JSON text *)

Section Copies.
Variable P : Platform.

Lemma has_methods_roundtrip (v : JS.value) : has_methods (JSON.roundtrip v) = finite_number v.
Proof.
  destruct v as [x |]; [| reflexivity]. cbn. unfold JSON.roundtrip_number.
  destruct (is_finite x); [| reflexivity]. destruct (is_zero x); reflexivity.
Qed.

Lemma drawable_copy (its : list Item.t) : drawable (map (copy_item) its) = printable its.
Proof.
  unfold drawable, printable. induction its as [| item its IH]; [reflexivity |].
  cbn [map forallb]. rewrite IH. cbn [copy_item Item.quantity Item.price].
  rewrite !has_methods_roundtrip. reflexivity.
Qed.

Lemma roundtrip_id (x : float) :
  is_finite x = true -> is_zero x = false -> JSON.roundtrip (Num x) = Num x.
Proof. intros Hf Hz. cbn. unfold JSON.roundtrip_number. rewrite Hf, Hz. reflexivity. Qed.

Lemma generatePDF_entry (now : float) (st : State) :
  drawable (current_items st) = true ->
  let st' := exec (generatePDF P now) st in
  invoiceHistory st' !! 0 = Some (entry_of P now st) /\
  entry_items st' (entry_of P now st) = map (copy_item) (current_items st) /\
  heap st' = (heap st ++ [map (copy_item) (current_items st)]) ++ [[]].
Proof.
  intros Hd. cbv zeta.
  destruct (generatePDF_effect P now st Hd) as (st' & E & Hh & _ & _ & Hhist & _).
  unfold exec. rewrite E. cbn [snd]. rewrite Hhist. split; [reflexivity |].
  split; [| exact Hh].
  unfold entry_items. rewrite Hh. cbn [entry_of Invoice.items].
  rewrite deref_alloc_old by (rewrite length_app; cbn; lia).
  apply deref_alloc.
Qed.

(** X14: the entry [generatePDF] saves holds a copy of the items made
    through JSON text.  An item whose id, quantity and price are finite
    and not zero is copied as it is; an infinite (or NaN) price is copied
    as [null].  So when an item of the invoice had an infinite quantity or
    price, regenerating the saved entry puts items into the store that
    [generatePDF] cannot draw: it raises a TypeError and changes nothing. *)
Theorem copy_loses_infinite_numbers (now : float) (st : State) :
  drawable (current_items st) = true ->
  let st' := exec (generatePDF P now) st in
  let entry := entry_of P now st in
  invoiceHistory st' !! 0 = Some entry /\
  entry_items st' entry = map (copy_item) (current_items st) /\
  (forall id name quantity price,
      is_finite id = true -> is_zero id = false ->
      is_finite quantity = true -> is_zero quantity = false ->
      is_finite price = true -> is_zero price = false ->
      copy_item (Item.mk (Num id) name (Num quantity) (Num price))
      = Item.mk (Num id) name (Num quantity) (Num price)) /\
  (forall id name quantity price,
      is_finite price = false ->
      copy_item (Item.mk id name quantity (Num price))
      = Item.mk (JSON.roundtrip id) name (JSON.roundtrip quantity) Null) /\
  (printable (current_items st) = false ->
   forall now' now'',
     let st'' := exec (regenerateInvoice P 0 now') st' in
     current_items st'' = map (copy_item) (current_items st) /\
     generatePDF P now'' st'' = (Throw TypeError, st'')).
Proof.
  intros Hd. cbv zeta.
  destruct (generatePDF_entry now st Hd) as (H0 & Hitems & Hheap).
  split; [exact H0 |]. split; [exact Hitems |]. split; [| split].
  - intros id name quantity price Hi Hiz Hq Hqz Hp Hpz. unfold copy_item.
    cbn [Item.id Item.name Item.quantity Item.price].
    rewrite !roundtrip_id by assumption. reflexivity.
  - intros id name quantity price Hp. unfold copy_item.
    cbn [Item.id Item.name Item.quantity Item.price JSON.roundtrip].
    unfold JSON.roundtrip_number. rewrite Hp. reflexivity.
  - intros Hprint now' now''.
    destruct (regenerateInvoice_effect P 0 now' (exec (generatePDF P now) st))
      as (Hh & _ & Hi & _).
    rewrite H0 in Hi.
    assert (current_items (exec (regenerateInvoice P 0 now') (exec (generatePDF P now) st))
            = map (copy_item) (current_items st)) as Hcur.
    { unfold current_items at 1. rewrite Hh, Hi. exact Hitems. }
    split; [exact Hcur |].
    apply generatePDF_throws. rewrite Hcur, drawable_copy. exact Hprint.
Qed.
End Copies.

(** ** The details of an entry, and what regenerating restores *)

Section Details.
Variable P : Platform.

Lemma viewInvoiceDetails_eq (index : nat) (st : State) :
  viewInvoiceDetails index st
  = (match invoiceHistory st !! index with
     | None => Throw TypeError
     | Some invoice =>
         if forallb (fun item => has_methods (Item.price item)) (entry_items st invoice)
            && (has_methods (Invoice.total invoice)
                && has_methods (Invoice.convertedTotal invoice))
         then Normal tt else Throw TypeError
     end, st).
Proof.
  unfold viewInvoiceDetails, bind, gets, ret, throw, entry_items.
  destruct (invoiceHistory st !! index) as [invoice |]; [| reflexivity].
  destruct (forallb _ _); [| reflexivity].
  destruct (has_methods _ && has_methods _); reflexivity.
Qed.

Lemma prices_copy (its : list Item.t) :
  forallb (fun item => has_methods (Item.price item)) (map (copy_item) its)
  = forallb (fun item => finite_number (Item.price item)) its.
Proof.
  induction its as [| item its IH]; [reflexivity |].
  cbn [map forallb]. rewrite IH. cbn [copy_item Item.price].
  rewrite has_methods_roundtrip. reflexivity.
Qed.

(** X21: [viewInvoiceDetails] changes no state; with an index past the
    end of the history it raises a TypeError; and on the entry
    [generatePDF] has just saved it completes exactly when every price of
    the invoice was a finite number (an infinite price is [null] in the
    saved copy). *)
Theorem viewInvoiceDetails_of_saved_entry :
  (forall index st, snd (viewInvoiceDetails index st) = st) /\
  (forall index st,
      invoiceHistory st !! index = None ->
      fst (viewInvoiceDetails index st) = Throw TypeError) /\
  (forall now st,
      drawable (current_items st) = true ->
      fst (viewInvoiceDetails 0 (exec (generatePDF P now) st))
      = if forallb (fun item => finite_number (Item.price item)) (current_items st)
        then Normal tt else Throw TypeError).
Proof.
  split; [| split].
  - intros index st. rewrite viewInvoiceDetails_eq. reflexivity.
  - intros index st H. rewrite viewInvoiceDetails_eq, H. reflexivity.
  - intros now st Hd. rewrite viewInvoiceDetails_eq.
    destruct (generatePDF_entry P now st Hd) as (H0 & Hitems & _).
    cbn [fst]. rewrite H0, Hitems, prices_copy.
    cbn [entry_of Invoice.total Invoice.convertedTotal has_methods].
    rewrite andb_true_r. reflexivity.
Qed.

(** X22: what [regenerateInvoice] restores of an entry: its items, its
    number, its client name and its fiscal field.  The tax rate and the
    currency are not part of an entry and stay as the inputs have them, so
    the totals of the regenerated invoice are computed from the entry's
    items with the tax rate and currency of the moment, whatever total the
    entry holds. *)
Theorem regenerateInvoice_keeps_rate_and_currency (index : nat) (now : float) (st : State)
    (entry : Invoice.t nat) :
  invoiceHistory st !! index = Some entry ->
  let st' := exec (regenerateInvoice P index now) st in
  current_items st' = entry_items st entry /\
  invoiceNumber st' = Invoice.invoiceNumber entry /\
  Form.clientName (form st') = Invoice.clientName entry /\
  Form.fiscalField (form st') = or_string (Invoice.fiscalField entry) "" /\
  Form.taxRate (form st') = Form.taxRate (form st) /\
  Form.currency (form st') = Form.currency (form st) /\
  calculateTotals P st' = (Normal (totals_of P (with_items (Invoice.items entry) st)), st').
Proof.
  intros He. cbv zeta.
  destruct (regenerateInvoice_state P index now st) as (h & ts & ->). rewrite He.
  repeat split.
Qed.

End Details.

(** ** Handlers that complete *)

Section Completion.
Variable P : Platform.

Lemma drawable_app (a b : list Item.t) : drawable (a ++ b) = drawable a && drawable b.
Proof. apply forallb_app. Qed.

Lemma drawable_filter (f : Item.t -> bool) (its : list Item.t) :
  drawable its = true -> drawable (List.filter f its) = true.
Proof.
  unfold drawable. rewrite !forallb_forall. intros H item Hin.
  apply filter_In in Hin as [Hin _]. auto.
Qed.

(** The handlers other than [regenerateInvoice] put no [null] into the
    array behind [items]. *)
Lemma drawable_step (a : Action) (st : State) :
  is_regenerate a = false ->
  well_formed st = true ->
  drawable (current_items st) = true ->
  drawable (current_items (step P st a)) = true.
Proof.
  intros Ha Hwf Hd. unfold step.
  destruct a as [fd text now | now now' | id now | now | index confirmed | index now];
    [| cbn [handler] ..]; try discriminate.
  - destruct (input_state P fd text now st) as (h & ts & ->). exact Hd.
  - destruct (valid_form P (form st)) eqn:Hv.
    + rewrite addItem_items by assumption. rewrite drawable_app, Hd. reflexivity.
    + destruct (addItem_effect P now now' st) as (h & ts & ->). rewrite Hv. exact Hd.
  - rewrite removeItem_items. apply drawable_filter, Hd.
  - destruct (generatePDF_effect P now st Hd) as (st' & E & Hh & Hi & _).
    unfold exec. rewrite E. cbn [snd]. unfold current_items. rewrite Hh, Hi.
    replace (S (length (heap st)))
      with (length (heap st ++ [map (copy_item) (current_items st)]))
      by (rewrite length_app; cbn; lia).
    rewrite deref_alloc. reflexivity.
  - destruct (deleteInvoice_effect P index confirmed st) as (Hh & Hi & _).
    unfold current_items. rewrite Hh, Hi. exact Hd.
Qed.

Lemma drawable_run (actions : list Action) (st : State) :
  forallb (fun a => negb (is_regenerate a)) actions = true ->
  well_formed st = true ->
  drawable (current_items st) = true ->
  drawable (current_items (run P actions st)) = true.
Proof.
  revert st. induction actions as [| a acts IH]; intros st Ha Hwf Hd; [exact Hd |].
  cbn [forallb] in Ha. apply andb_true_iff in Ha as [Ha Hacts].
  cbn [run fold_left]. apply IH; [exact Hacts | apply well_formed_step, Hwf |].
  apply drawable_step; [destruct (is_regenerate a); [discriminate | reflexivity] | exact Hwf | exact Hd].
Qed.

Lemma drawable_session (f : Form.t) (storage : gmap string string) (actions : list Action) :
  forallb (fun a => negb (is_regenerate a)) actions = true ->
  drawable (current_items (run P actions (session_start P f storage))) = true.
Proof.
  intros Ha. apply drawable_run; [exact Ha | apply well_formed_start |].
  rewrite session_start_items. reflexivity.
Qed.

(** X15: in a session without [regenerateInvoice] whose listener read a
    history of entries (or none), whatever these entries are and whatever
    else was done, every item of the store has a numeric quantity and
    price, so [generatePDF] completes, and so does [updateDisplay] where
    the digest is available: their TypeError can only come from items
    brought back from the history. *)
Theorem generatePDF_completes_without_regenerate (f : Form.t) (storage : gmap string string)
    (actions : list Action) (now : float) :
  typed_history P storage = true ->
  forallb (fun a => negb (is_regenerate a)) actions = true ->
  let st := run P actions (session_start P f storage) in
  drawable (current_items st) = true /\
  fst (generatePDF P now st) = Normal tt /\
  (is_Some (crypto_subtle_digest P) -> fst (updateDisplay P now st) = Normal tt).
Proof.
  intros _ Ha. cbv zeta.
  pose proof (drawable_session f storage actions Ha) as Hd.
  split; [exact Hd |]. split.
  - destruct (generatePDF_effect P now _ Hd) as (st' & -> & _). reflexivity.
  - intros [digest Hdig]. rewrite updateDisplay_eq, Hdig, (drawable_prices _ Hd).
    destruct (length _ =? 0)%nat; reflexivity.
Qed.

Lemma showHistory_eq (st : State) :
  showHistory st
  = (if listable (invoiceHistory st) then Normal tt else Throw TypeError, st).
Proof.
  unfold showHistory, listable, bind, gets. cbn.
  destruct (forallb _ _); reflexivity.
Qed.

Lemma listable_Forall {A} (hist : list (Invoice.t A)) :
  listable hist = true
  <-> Forall (fun r => has_methods (Invoice.total r) && has_methods (Invoice.convertedTotal r) = true) hist.
Proof.
  unfold listable. rewrite forallb_forall, Forall_forall.
  split; intros H r Hr; apply H; apply list_elem_of_In; exact Hr.
Qed.

Lemma listable_step (a : Action) (st : State) :
  listable (invoiceHistory st) = true -> listable (invoiceHistory (step P st a)) = true.
Proof.
  intros H. rewrite invoiceHistory_step.
  destruct a as [| | | now | index [] |]; try exact H.
  - destruct (drawable _); [| exact H].
    apply listable_Forall, Forall_take. constructor; [reflexivity |].
    apply listable_Forall, H.
  - apply listable_Forall, Forall_delete, listable_Forall, H.
Qed.

Lemma listable_run (actions : list Action) (st : State) :
  listable (invoiceHistory st) = true -> listable (invoiceHistory (run P actions st)) = true.
Proof.
  revert st. induction actions as [| a acts IH]; intros st H; [exact H |].
  cbn [run fold_left]. apply IH, listable_step, H.
Qed.

Lemma listable_adopted (base : nat) (records : list (Invoice.t (list Item.t))) :
  listable (adopted base records) = listable records.
Proof.
  unfold adopted, listable. revert base.
  induction records as [| r rs IH]; intros base; [reflexivity |].
  cbn [imap forallb]. f_equal.
  rewrite <- (IH (S base)). f_equal. apply imap_ext. intros k x _. cbn. f_equal. lia.
Qed.

Lemma listable_start (f : Form.t) (storage : gmap string string) :
  listable (invoiceHistory (session_start P f storage)) = listable (loaded P storage).
Proof.
  rewrite session_start_eq. cbv zeta. unfold loaded.
  destruct (kept_entries P storage) as [records |]; [| reflexivity].
  apply listable_adopted.
Qed.

Lemma deleteInvoice_completion (index : nat) (st : State) :
  fst (deleteInvoice P index true st)
  = if listable (delete index (invoiceHistory st)) then Normal tt else Throw TypeError.
Proof.
  unfold deleteInvoice, showHistory, listable, bind, modify, gets, setItem. cbn.
  destruct (forallb _ _); reflexivity.
Qed.

(** X16: the list of the history can be drawn throughout a session that
    loaded no [null] total.  When the listener read a history of entries
    (or none) and every entry read has a numeric total and converted
    total, [showHistory] completes in every state of the session and
    changes nothing, and so does a confirmed [deleteInvoice] (the entries
    [generatePDF] adds hold numbers).  When an entry read from the storage
    has a [null] total, [showHistory] raises a TypeError at the start of
    the session. *)
Theorem showHistory_completes (f : Form.t) (storage : gmap string string) :
  typed_history P storage = true ->
  (listable (loaded P storage) = true ->
   forall actions index,
     let st := run P actions (session_start P f storage) in
     showHistory st = (Normal tt, st) /\
     fst (deleteInvoice P index true st) = Normal tt) /\
  (listable (loaded P storage) = false ->
   let st := session_start P f storage in
   showHistory st = (Throw TypeError, st)).
Proof.
  intros _. split.
  - intros H actions index. cbv zeta.
    set (st := run P actions (session_start P f storage)).
    assert (listable (invoiceHistory st) = true) as Hst
      by (apply listable_run; rewrite listable_start; exact H).
    split; [rewrite showHistory_eq, Hst; reflexivity |].
    rewrite deleteInvoice_completion.
    replace (listable (delete index (invoiceHistory st))) with true; [reflexivity |].
    symmetry. apply listable_Forall, Forall_delete, listable_Forall, Hst.
  - intros H. cbv zeta. rewrite showHistory_eq, listable_start, H. reflexivity.
Qed.
End Completion.

(** ** The theme *)

Section Themes.

Lemma setTheme_stores (theme : string) (st : State) :
  setTheme theme st
  = (Normal tt,
     with_localStorage
       (<["theme" := if String.eqb theme "dark" then "dark" else "light"]> (localStorage st)) st).
Proof. unfold setTheme. destruct (String.eqb theme "dark"); reflexivity. Qed.

(** Membership in a class list after [add] and [remove]. *)
Local Ltac classes :=
  rewrite ?elem_of_union, ?elem_of_difference, ?elem_of_singleton; intuition congruence.

Lemma setTheme_classList_last (theme other : string) (c : Theme.t) :
  setTheme_classList theme (setTheme_classList other c) = setTheme_classList theme c.
Proof.
  unfold setTheme_classList.
  destruct (String.eqb theme "dark"), (String.eqb other "dark"); cbn; f_equal;
    apply set_eq; intros x;
    rewrite ?elem_of_union, ?elem_of_difference, ?elem_of_union, ?elem_of_singleton;
    match goal with |- context [x = ?class] => destruct (decide (x = class)) end; tauto.
Qed.

(** X17: [setTheme] shows one theme.  After it the body has the class
    [dark-mode] exactly when the theme asked for is ['dark'] (any other
    text gives the light theme), exactly the button of that theme is
    [active], and no other class of the three elements changes; the last
    call decides, whatever was set before; the storage holds ['dark'] or
    ['light'], and setting the stored theme again, as the next page load
    does, gives the same class lists. *)
Theorem setTheme_shows_one_theme (theme : string) (c : Theme.t) (st : State) :
  let c' := setTheme_classList theme c in
  let st' := exec (setTheme theme) st in
  ("dark-mode" ∈ Theme.body c' <-> theme = "dark") /\
  ("active" ∈ Theme.btnDark c' <-> theme = "dark") /\
  ("active" ∈ Theme.btnLight c' <-> theme <> "dark") /\
  (forall class, class <> "dark-mode" -> class ∈ Theme.body c' <-> class ∈ Theme.body c) /\
  (forall class, class <> "active" ->
     (class ∈ Theme.btnLight c' <-> class ∈ Theme.btnLight c) /\
     (class ∈ Theme.btnDark c' <-> class ∈ Theme.btnDark c)) /\
  (forall other, setTheme_classList theme (setTheme_classList other c) = c') /\
  localStorage st' !! "theme" = Some (if String.eqb theme "dark" then "dark" else "light") /\
  setTheme_classList (default "light" (saved (localStorage st' !! "theme"))) c = c'.
Proof.
  cbv zeta. unfold exec. rewrite setTheme_stores. cbn [snd localStorage with_localStorage].
  rewrite lookup_insert_eq.
  split; [| split; [| split; [| split; [| split; [| split; [| split]]]]]].
  - unfold setTheme_classList. destruct (String.eqb_spec theme "dark") as [-> | H]; cbn; classes.
  - unfold setTheme_classList. destruct (String.eqb_spec theme "dark") as [-> | H]; cbn; classes.
  - unfold setTheme_classList. destruct (String.eqb_spec theme "dark") as [-> | H]; cbn; classes.
  - intros class Hc. unfold setTheme_classList. destruct (String.eqb theme "dark"); cbn; classes.
  - intros class Hc. unfold setTheme_classList. destruct (String.eqb theme "dark"); cbn; classes.
  - intros other. apply setTheme_classList_last.
  - reflexivity.
  - unfold setTheme_classList. destruct (String.eqb_spec theme "dark") as [-> | H]; reflexivity.
Qed.
End Themes.

(** ** Removing an item that is not there *)

Section Removal.
Variable P : Platform.

Lemma filter_all {A} (f : A -> bool) (l : list A) :
  (forall x, In x l -> f x = true) -> List.filter f l = l.
Proof.
  induction l as [| x l IH]; intros H; [reflexivity |]. cbn.
  rewrite (H x) by (left; reflexivity). f_equal. apply IH. intros y Hy. apply H. right. exact Hy.
Qed.

Lemma filter_twice {A} (f : A -> bool) (l : list A) :
  List.filter f (List.filter f l) = List.filter f l.
Proof. apply filter_all. intros x Hx. apply filter_In in Hx. apply Hx. Qed.

Lemma filter_length_le {A} (f : A -> bool) (l : list A) : length (List.filter f l) <= length l.
Proof. induction l as [| x l IH]; cbn; [lia |]. destruct (f x); cbn; lia. Qed.

(** X18: [removeItem] with an id that no item has leaves the items as
    they are (in a new array); removing the same id a second time changes
    nothing more; NaN as id removes nothing, NaN being different from every
    id, itself included; the store never grows, and an empty store stays
    empty. *)
Theorem removeItem_absent_id :
  (forall id now st,
      (forall item, In item (current_items st) -> strict_neq (Item.id item) id = true) ->
      current_items (exec (removeItem P id now) st) = current_items st) /\
  (forall id now now' st,
      current_items (exec (removeItem P id now') (exec (removeItem P id now) st))
      = current_items (exec (removeItem P id now) st)) /\
  (forall x now st,
      is_nan x = true ->
      current_items (exec (removeItem P (Num x) now) st) = current_items st) /\
  (forall id now st,
      length (current_items (exec (removeItem P id now) st)) <= length (current_items st)) /\
  (forall id now st,
      current_items st = [] -> current_items (exec (removeItem P id now) st) = []).
Proof.
  split; [| split; [| split; [| split]]].
  - intros id now st H. rewrite removeItem_items. apply filter_all, H.
  - intros id now now' st. rewrite !removeItem_items. apply filter_twice.
  - intros x now st Hx. rewrite removeItem_items. apply filter_all.
    intros item _. destruct (Item.id item) as [y |]; [| reflexivity].
    cbn. rewrite eqb_nan by exact Hx. reflexivity.
  - intros id now st. rewrite removeItem_items. apply filter_length_le.
  - intros id now st H. rewrite removeItem_items, H. reflexivity.
Qed.
End Removal.

(** ** Errors of the display *)

Section Failures.
Variable P : Platform.

Lemma addItem_eq (now now' : float) (st : State) :
  valid_form P (form st) = true ->
  addItem P now now' st
  = updateDisplay P now'
      (with_form (Form.set Form.ItemPrice ""
                   (Form.set Form.ItemQuantity ""
                     (Form.set Form.ItemName "" (form st))))
         (with_heap (alter (fun v => v ++ [new_item P now (form st)]) (items st) (heap st)) st)).
Proof.
  intros Hv. unfold addItem. unfold bind at 1. rewrite validateItem_eq, Hv. reflexivity.
Qed.

(** X19: what is done before an error stays done.  [updateDisplay] on an
    empty store returns at once and keeps the hash it had stored; on a
    store with a [null] price, or where the digest is unavailable, it
    raises a TypeError and changes nothing.  [regenerateInvoice] with an
    index past the end raises a TypeError and changes nothing; with an
    entry, the store, the counter and the client name are replaced before
    the display runs, and stay replaced when the display raises.  In the
    same way [addItem] has pushed its item and cleared the inputs when the
    display raises. *)
Theorem display_errors_keep_changes :
  (forall now st,
      current_items st = [] -> updateDisplay P now st = (Normal tt, st)) /\
  (forall now st,
      current_items st <> [] ->
      (forallb (fun item => has_methods (Item.price item)) (current_items st) = false
       \/ crypto_subtle_digest P = None) ->
      updateDisplay P now st = (Throw TypeError, st)) /\
  (forall index now st,
      invoiceHistory st !! index = None ->
      regenerateInvoice P index now st = (Throw TypeError, st)) /\
  (forall index now st entry,
      invoiceHistory st !! index = Some entry ->
      entry_items st entry <> [] ->
      crypto_subtle_digest P = None ->
      let st' := exec (regenerateInvoice P index now) st in
      fst (regenerateInvoice P index now st) = Throw TypeError /\
      current_items st' = entry_items st entry /\
      invoiceNumber st' = Invoice.invoiceNumber entry /\
      Form.clientName (form st') = Invoice.clientName entry) /\
  (forall now now' st,
      well_formed st = true ->
      valid_form P (form st) = true ->
      crypto_subtle_digest P = None ->
      let st' := exec (addItem P now now') st in
      fst (addItem P now now' st) = Throw TypeError /\
      current_items st' = current_items st ++ [new_item P now (form st)] /\
      Form.itemName (form st') = "").
Proof.
  split; [| split; [| split; [| split]]].
  - intros now st H. apply updateDisplay_empty, H.
  - intros now st Hne [Hp | Hd].
    + rewrite updateDisplay_eq, Hp, (length_eqb_0 _ Hne). reflexivity.
    + apply updateDisplay_throws; assumption.
  - intros index now st H. rewrite regenerateInvoice_eq, H. reflexivity.
  - intros index now st entry He Hne Hd. cbv zeta. unfold exec.
    rewrite regenerateInvoice_eq, He.
    rewrite updateDisplay_throws; [| exact Hne | exact Hd].
    repeat split.
  - intros now now' st Hwf Hv Hd. cbv zeta.
    assert (Hl : items st < length (heap st)) by (apply well_formed_spec in Hwf; apply Hwf).
    unfold exec. rewrite addItem_eq by exact Hv.
    rewrite updateDisplay_throws; [| | exact Hd].
    + cbn [fst snd]. split; [reflexivity |]. split; [| reflexivity].
      unfold current_items. cbn. apply deref_push, Hl.
    + unfold current_items. cbn. rewrite deref_push by exact Hl.
      intros H. apply app_eq_nil in H as [_ H]. discriminate.
Qed.
End Failures.

(** ** A counter that is not a number *)

Section Counter.
Variable P : Platform.


End Counter.

(** * Examples *)

(** The worked example of the specification: two Widgets at 10.00, tax
    rate 13, currency USD, then EUR. *)
Example widget_totals :
  let st := Scenario.one_item Browser.secure in
  fst (calculateTotals Browser.secure st)
  = Normal (Totals.mk 20 2.6 22.6 22.6 "USD" 13) /\
  fst (calculateTotals Browser.secure
         (step Browser.secure st (Input Form.Currency "EUR" Scenario.t3)))
  = Normal (Totals.mk 20 2.6 22.6 20.792 "EUR" 13).
Proof. vm_compute. split; reflexivity. Qed.

(** C1 fails on the script.  On a page without [crypto.subtle] the
    fingerprint cannot be made (the display of the added Widget ended in a
    TypeError and stored no hash), and [generatePDF] goes through all the
    same: the item is gone from the store, the counter went from 1001 to
    1002, and the history holds one entry, with no hash. *)
Lemma generatePDF_without_digest_commits :
  let P := Browser.insecure in
  let st := Scenario.one_item P in
  let st' := exec (generatePDF P Scenario.t3) st in
  crypto_subtle_digest P = None /\
  fst (updateDisplay P Scenario.t2 st) = Throw TypeError /\
  currentInvoiceHash st = None /\
  fst (generatePDF P Scenario.t3 st) = Normal tt /\
  current_items st = [Scenario.widget] /\ current_items st' = [] /\
  invoiceNumber st = Num 1001 /\ invoiceNumber st' = Num 1002 /\
  length (invoiceHistory st) = 0 /\ length (invoiceHistory st') = 1 /\
  map Invoice.hash (invoiceHistory st') = [None].
Proof. vm_compute. repeat split. Qed.

(** C1, witness: the same page and the same state. *)
Lemma generatePDF_commits_without_fingerprint_witness :
  let P := Browser.insecure in
  let st := Scenario.one_item P in
  drawable (current_items st) = true /\
  exists st',
    generatePDF P Scenario.t3 st = (Normal tt, st') /\
    current_items st' = [] /\
    invoiceNumber st' = Num 1002 /\
    length (invoiceHistory st') = 1.
Proof.
  cbv zeta. split; [vm_compute; reflexivity |].
  destruct (proj1 (proj2 (generatePDF_commits_without_fingerprint
                            Browser.insecure Scenario.t3
                            (Scenario.one_item Browser.insecure))))
    as (st' & E & Hitems & Hn & Hhist & _); [vm_compute; reflexivity |].
  exists st'. split; [exact E |]. split; [exact Hitems |].
  split; [rewrite Hn; vm_compute; reflexivity |].
  rewrite Hhist. vm_compute. reflexivity.
Defined.

(** C3, witness: [0] typed into the tax rate. *)
Lemma getTaxRate_zero_takes_default_witness :
  let st := script_loaded (Form.set Form.TaxRate "0" Browser.blank_form) ∅ in
  is_zero (parseFloat Browser.secure (Form.taxRate (form st))) = true /\
  getTaxRate Browser.secure st = (Normal (13 / 100)%float, st).
Proof.
  cbv zeta. split; [reflexivity |].
  apply getTaxRate_zero_takes_default. reflexivity.
Defined.

(** The other inputs of the claim: [-5] gives 0, [150] gives 100 percent,
    a text that is no number gives 13, and [7.5] is used as it is. *)
Example getTaxRate_inputs :
  let rate text :=
    fst (getTaxRate Browser.secure
           (script_loaded (Form.set Form.TaxRate text Browser.blank_form) ∅)) in
  rate "-5" = Normal 0%float /\ rate "150" = Normal 1%float /\
  rate "abc" = Normal 0.13%float /\ rate "" = Normal 0.13%float /\
  rate "7.5" = Normal 0.075%float /\ rate "0" = Normal 0.13%float.
Proof. vm_compute. repeat split. Qed.

(** C4 fails on the script.  The text of 51 entries, numbered 1001 to
    1051, is kept under [invoiceHistory]: the listener reads all of them,
    and the history holds 51 entries, also after an item was added and
    after an entry out of range was deleted. *)
Lemma loaded_history_is_not_capped :
  let P := Browser.secure in
  let kept := stringify_history P [[]] (map Scenario.entry (seq 1001 51)) in
  let storage : gmap string string := {[ "invoiceHistory" := kept ]} in
  let st := session_start P Browser.blank_form storage in
  let st' :=
    run P (Scenario.type_item "Widget" "2" "10.00"
           ++ [AddItem Scenario.t1 Scenario.t2; DeleteInvoice 60 true]) st in
  fst (onDOMContentLoaded P (script_loaded Browser.blank_form storage)) = Normal Entries_held /\
  length (invoiceHistory st) = 51 /\
  length (invoiceHistory st') = 51 /\
  ~ length (invoiceHistory st') <= 50.
Proof.
  cbv zeta. split; [vm_compute; reflexivity |].
  split; [vm_compute; reflexivity |].
  assert (length (invoiceHistory
            (run Browser.secure
               (Scenario.type_item "Widget" "2" "10.00"
                ++ [AddItem Scenario.t1 Scenario.t2; DeleteInvoice 60 true])
               (session_start Browser.secure Browser.blank_form
                  {[ "invoiceHistory" :=
                       stringify_history Browser.secure [[]]
                         (map Scenario.entry (seq 1001 51)) ]}))) = 51) as H
    by (vm_compute; reflexivity).
  split; [exact H |]. rewrite H. lia.
Qed.

(** C4, witness: 51 entries numbered 1001 to 1051 appended to the empty
    history of a page just opened. *)
Lemma history_capped_by_saveToHistory_witness :
  let rest := map Scenario.entry (seq 1002 50) in
  let st := Scenario.opened Browser.secure in
  length rest = 50 /\ invoiceHistory st = [] /\
  invoiceHistory (append_all Browser.secure (Scenario.entry 1001 :: rest) st) = rev rest.
Proof.
  cbv zeta. split; [reflexivity |]. split; [vm_compute; reflexivity |].
  apply (proj1 (proj2 (history_capped_by_saveToHistory Browser.secure)));
    [reflexivity | vm_compute; reflexivity].
Defined.



(** X24, witness: the Widget typed again at a later clock reading is
    another item with another id, and hashes as the first. *)
Lemma fingerprint_ignores_ids_witness :
  let P := Browser.secure in
  let st := Scenario.one_item P in
  let st' :=
    run P (Scenario.type_item "Widget" "2" "10.00" ++ [AddItem Scenario.t3 Scenario.t3])
      (Scenario.opened P) in
  let d := InvoiceData.mk (Num 1001) "General Client" 22.6 (items st) in
  let d' := InvoiceData.mk (Num 1001) "General Client" 22.6 (items st') in
  Forall2 same_but_id (current_items st) (current_items st') /\
  map Item.id (current_items st) <> map Item.id (current_items st') /\
  message_of P Scenario.t4 d st = message_of P Scenario.t4 d' st'.
Proof.
  cbv zeta.
  set (st := Scenario.one_item Browser.secure).
  set (st' := run Browser.secure
                (Scenario.type_item "Widget" "2" "10.00" ++ [AddItem Scenario.t3 Scenario.t3])
                (Scenario.opened Browser.secure)).
  assert (Forall2 same_but_id (current_items st) (current_items st')) as Hl.
  { assert (current_items st = [Scenario.widget]) as -> by (vm_compute; reflexivity).
    assert (current_items st'
            = [Item.mk (Num Scenario.t3) "Widget" (Num 2) (Num 10)]) as ->
      by (vm_compute; reflexivity).
    repeat constructor. }
  split; [exact Hl |]. split; [vm_compute; discriminate |].
  exact (proj1 (fingerprint_ignores_ids Browser.secure Scenario.t4
                  (InvoiceData.mk (Num 1001) "General Client" 22.6 (items st))
                  (InvoiceData.mk (Num 1001) "General Client" 22.6 (items st'))
                  st st' eq_refl eq_refl eq_refl Hl)).
Defined.

(** X25, witness: the Widget invoice at two clock readings a minute
    apart: the two serializations differ. *)
Lemma fingerprint_of_another_timestamp_witness :
  let P := Browser.secure in
  let st := Scenario.one_item P in
  let d := InvoiceData.mk (Num 1001) "General Client" 22.6 (items st) in
  crypto_subtle_digest P = Some Browser.digest /\
  Date_toISOString P Scenario.t3 <> Date_toISOString P Scenario.t4 /\
  exists b b',
    generateBlockchainData P Scenario.t3 d st = (Normal b, st) /\
    generateBlockchainData P Scenario.t4 d st = (Normal b', st) /\
    message_of P Scenario.t3 d st <> message_of P Scenario.t4 d st.
Proof.
  cbv zeta.
  assert (Date_toISOString Browser.secure Scenario.t3
          <> Date_toISOString Browser.secure Scenario.t4) as Hts
    by (vm_compute; discriminate).
  split; [reflexivity |]. split; [exact Hts |].
  destruct (fingerprint_of_another_timestamp Browser.secure
              Browser.digest Scenario.t3 Scenario.t4
              (InvoiceData.mk (Num 1001) "General Client" 22.6
                 (items (Scenario.one_item Browser.secure)))
              (Scenario.one_item Browser.secure) eq_refl Hts)
    as (b & b' & E & E' & Hm & _).
  exists b, b'. split; [exact E |]. split; [exact E' |]. exact Hm.
Defined.

(** C7, witness: after one invoice the entry held the Widget; once it is regenerated, adding the Gadget puts the Gadget into
    the entry of the history as well. *)
Lemma regenerateInvoice_shares_items_witness :
  let P := Browser.secure in
  let st := Scenario.one_invoice P in
  let st' := exec (addItem P Scenario.t4 Scenario.t4)
               (exec (regenerateInvoice P 0 Scenario.t4) st) in
  well_formed st = true /\ valid_form P (form st) = true /\
  exists entry,
    invoiceHistory st !! 0 = Some entry /\
    invoiceHistory st' !! 0 = Some entry /\
    entry_items st entry = [Scenario.widget] /\
    entry_items st' entry = [Scenario.widget; Scenario.gadget Scenario.t4].
Proof.
  cbv zeta. split; [vm_compute; reflexivity |]. split; [vm_compute; reflexivity |].
  eexists. split; [vm_compute; reflexivity |].
  match goal with |- ?G /\ _ /\ entry_items _ ?e = _ =>
    destruct (regenerateInvoice_shares_items Browser.secure 0 Scenario.t4 Scenario.t4
                Scenario.t4 (Scenario.one_invoice Browser.secure) e)
      as (_ & _ & Hentry & Hitems);
      [vm_compute; reflexivity | vm_compute; reflexivity | vm_compute; reflexivity |]
  end.
  split; [exact Hentry |]. split; [vm_compute; reflexivity |].
  rewrite Hitems. vm_compute. reflexivity.
Defined.

(** C8 fails on the script.  With GBP chosen, a code the table of rates
    does not have, [calculateTotals] completes normally and its converted
    total is NaN. *)
Lemma unknown_currency_is_no_error :
  let P := Browser.secure in
  let st := step P (Scenario.one_item P) (Input Form.Currency "GBP" Scenario.t3) in
  Form.currency (form st) = "GBP" /\
  exchangeRates !! "GBP" = None /\
  calculateTotals P st = (Normal (Totals.mk 20 2.6 22.6 nan "GBP" 13), st).
Proof. vm_compute. repeat split. Qed.

(** C8, witness: GBP chosen. *)
Lemma calculateTotals_unknown_currency_NaN_witness :
  let P := Browser.secure in
  let st := step P (Scenario.one_item P) (Input Form.Currency "GBP" Scenario.t3) in
  Form.currency (form st) = "GBP" /\
  exists T, calculateTotals P st = (Normal T, st) /\ Totals.convertedTotal T = nan.
Proof.
  cbv zeta. split; [vm_compute; reflexivity |].
  set (st := step Browser.secure (Scenario.one_item Browser.secure)
               (Input Form.Currency "GBP" Scenario.t3)).
  assert (Form.currency (form st) <> "USD") as H1 by (vm_compute; discriminate).
  assert (Form.currency (form st) <> "EUR") as H2 by (vm_compute; discriminate).
  assert (Form.currency (form st) <> "BOB") as H3 by (vm_compute; discriminate).
  destruct (proj1 (calculateTotals_unknown_currency_NaN Browser.secure st) H1 H2 H3)
    as (T & E & _ & _ & Hnan).
  exists T. split; [exact E | exact Hnan].
Defined.




(** X1, witness: with 150 typed the tax rate is lowered to 100 percent. *)
Lemma getTaxRate_clamps_witness :
  let st := script_loaded (Form.set Form.TaxRate "150" Browser.blank_form) ∅ in
  gtb (parseFloat Browser.secure (Form.taxRate (form st))) 100 = true /\
  getTaxRate Browser.secure st = (Normal 1%float, st).
Proof.
  cbv zeta. split; [reflexivity |].
  apply (proj1 (proj2 (proj2 (getTaxRate_clamps Browser.secure
           (script_loaded (Form.set Form.TaxRate "150" Browser.blank_form) ∅))))).
  reflexivity.
Defined.

(** X2, witness: after one invoice the entry of the history holds another
    array than [items], and adding the Gadget leaves the entry with the
    Widget. *)
Lemma entries_kept_without_regenerate_witness :
  let P := Browser.secure in
  let st := Scenario.one_invoice P in
  exists entry,
    invoiceHistory st !! 0 = Some entry /\
    Invoice.items entry <> items st /\
    entry_items st entry = [Scenario.widget] /\
    entry_items (exec (addItem P Scenario.t4 Scenario.t4) st) entry = [Scenario.widget].
Proof.
  cbv zeta. eexists. split; [vm_compute; reflexivity |].
  match goal with |- Invoice.items ?e <> _ /\ _ =>
    assert (Invoice.items e <> items (Scenario.one_invoice Browser.secure)) as Hne
      by (vm_compute; discriminate)
  end.
  split; [exact Hne |]. split; [vm_compute; reflexivity |].
  rewrite (proj1 (proj2 (entries_kept_without_regenerate Browser.secure))
             Scenario.t4 Scenario.t4 _ _ Hne).
  vm_compute. reflexivity.
Defined.

(** X5, witness: nothing typed, [addItem] leaves the page just opened as
    it is. *)
Lemma addItem_validates_witness :
  let st := Scenario.opened Browser.secure in
  fst (validateItem Browser.secure st) = Normal false /\
  addItem Browser.secure Scenario.t1 Scenario.t2 st = (Normal tt, st).
Proof.
  cbv zeta. split; [vm_compute; reflexivity |].
  apply (proj2 (addItem_validates Browser.secure Scenario.t1 Scenario.t2
                  (Scenario.opened Browser.secure))).
  vm_compute. reflexivity.
Defined.


(** X9, witness: the Widget is displayed for the client [General Client],
    then [ACME] is typed as client name and the invoice finalized: the
    entry is ACME's and carries the hash made for [General Client]. *)
Lemma saved_fingerprint_is_of_last_display_witness :
  let P := Browser.secure in
  let st := Scenario.one_item P in
  let st1 := exec (updateDisplay P Scenario.t2) st in
  let st2 := step P st1 (Input Form.ClientName "ACME" Scenario.t3) in
  let st3 := exec (generatePDF P Scenario.t4) st2 in
  or_string "ACME" "General Client"
  <> or_string (Form.clientName (form st)) "General Client" /\
  exists entry,
    head (invoiceHistory st3) = Some entry /\
    Invoice.clientName entry = "ACME" /\
    Invoice.hash entry = currentInvoiceHash st /\
    message_of P Scenario.t2 (displayed P st2) st2
    <> message_of P Scenario.t2 (displayed P st) st.
Proof.
  cbv zeta.
  assert (or_string "ACME" "General Client"
          <> or_string (Form.clientName (form (Scenario.one_item Browser.secure)))
               "General Client") as Hname by (vm_compute; discriminate).
  split; [exact Hname |].
  assert (current_items (Scenario.one_item Browser.secure) <> []) as Hne
    by (vm_compute; discriminate).
  destruct (saved_fingerprint_is_of_last_display Browser.secure Browser.digest
              Scenario.t2 Scenario.t3 Scenario.t4 "ACME"
              (Scenario.one_item Browser.secure) eq_refl Hne)
    as (entry & Hhead & Hc & Hh & Hm); [vm_compute; reflexivity |].
  exists entry. split; [exact Hhead |]. split; [exact Hc |].
  split; [rewrite Hh; vm_compute; reflexivity | exact (Hm Hname)].
Defined.

(** X10, witness: a key of another script is still there, with its
    value, after an invoice was made and deleted. *)
Lemma storage_written_on_save_only_witness :
  let P := Browser.secure in
  let storage : gmap string string := {[ "draft" := "kept by another script" ]} in
  let actions :=
    Scenario.type_item "Widget" "2" "10.00"
    ++ [AddItem Scenario.t1 Scenario.t2; GeneratePDF Scenario.t3;
        DeleteInvoice 0 true] in
  localStorage (run P actions (session_start P Browser.blank_form storage)) !! "draft"
  = Some "kept by another script".
Proof.
  cbv zeta.
  rewrite (proj1 (proj2 (storage_written_on_save_only Browser.secure)))
    by discriminate.
  reflexivity.
Defined.

(** X11, witness: after the Widget invoice the storage holds the counter
    1002 and the text of the history. *)
Lemma history_persisted_witness :
  let P := Browser.secure in
  let st := Scenario.one_item P in
  let st' := exec (generatePDF P Scenario.t3) st in
  well_formed st = true /\ drawable (current_items st) = true /\
  localStorage st' !! "invoiceNumber" = Some "1002" /\
  localStorage st' !! "invoiceHistory"
  = Some (stringify_history P (heap st') (invoiceHistory st')).
Proof.
  cbv zeta.
  assert (well_formed (Scenario.one_item Browser.secure) = true) as Hwf
    by (vm_compute; reflexivity).
  assert (drawable (current_items (Scenario.one_item Browser.secure)) = true) as Hd
    by (vm_compute; reflexivity).
  split; [exact Hwf |]. split; [exact Hd |].
  destruct (proj1 (history_persisted Browser.secure _ Hwf) Scenario.t3 Hd) as [Hh Hn].
  split; [rewrite Hn; vm_compute; reflexivity | exact Hh].
Defined.

(** X3, witness: a session that read the Widget invoice from the
    storage, regenerated it and added a Gadget. *)
Lemma references_stay_valid_witness :
  let P := Browser.secure in
  let storage := localStorage (exec (generatePDF P Scenario.t3) (Scenario.one_item P)) in
  let actions :=
    [RegenerateInvoice 0 Scenario.t4]
    ++ Scenario.type_item "Gadget" "1" "5" ++ [AddItem Scenario.t4 Scenario.t4] in
  let st := run P actions (session_start P Browser.blank_form storage) in
  typed_history P storage = true /\
  length (invoiceHistory st) = 1 /\
  well_formed st = true.
Proof.
  cbv zeta.
  set (storage := localStorage (exec (generatePDF Browser.secure Scenario.t3)
                                  (Scenario.one_item Browser.secure))).
  set (actions :=
         [RegenerateInvoice 0 Scenario.t4]
         ++ Scenario.type_item "Gadget" "1" "5" ++ [AddItem Scenario.t4 Scenario.t4]).
  assert (typed_history Browser.secure storage = true) as Ht by (vm_compute; reflexivity).
  split; [exact Ht |]. split; [vm_compute; reflexivity |].
  exact (references_stay_valid Browser.secure Browser.blank_form storage actions Ht).
Defined.

(** X13, witness: the Widget invoice is finalized and the page loaded
    again: the counter is 1002 and the history holds the Widget. *)
Lemma reload_restores_witness :
  let P := Browser.secure in
  let st := Scenario.one_item P in
  let st' := exec (generatePDF P Scenario.t3) st in
  let st2 := session_start P Browser.blank_form (localStorage st') in
  well_formed st = true /\ drawable (current_items st) = true /\
  parseInt P (Number_toString P (ToNumber (invoiceNumber st'))) = ToNumber (invoiceNumber st') /\
  JSON_parse_history P (stringify_history P (heap st') (invoiceHistory st'))
  = Some (Entries (content st')) /\
  invoiceNumber st2 = Num 1002 /\
  map Invoice.items (content st2) = [[Scenario.widget]].
Proof.
  cbv zeta.
  assert (well_formed (Scenario.one_item Browser.secure) = true) as Hwf
    by (vm_compute; reflexivity).
  assert (drawable (current_items (Scenario.one_item Browser.secure)) = true) as Hd
    by (vm_compute; reflexivity).
  split; [exact Hwf |]. split; [exact Hd |].
  destruct (reload_restores Browser.secure Browser.blank_form Scenario.t3
              (Scenario.one_item Browser.secure) Hwf Hd) as (Hn & Hc & _).
  assert (parseInt Browser.secure
            (Number_toString Browser.secure
               (ToNumber (invoiceNumber
                  (exec (generatePDF Browser.secure Scenario.t3)
                     (Scenario.one_item Browser.secure)))))
          = ToNumber (invoiceNumber
               (exec (generatePDF Browser.secure Scenario.t3)
                  (Scenario.one_item Browser.secure)))) as Hparse
    by (vm_compute; reflexivity).
  assert (JSON_parse_history Browser.secure
            (stringify_history Browser.secure
               (heap (exec (generatePDF Browser.secure Scenario.t3)
                        (Scenario.one_item Browser.secure)))
               (invoiceHistory (exec (generatePDF Browser.secure Scenario.t3)
                                  (Scenario.one_item Browser.secure))))
          = Some (Entries (content (exec (generatePDF Browser.secure Scenario.t3)
                                      (Scenario.one_item Browser.secure))))) as Hjson
    by (vm_compute; reflexivity).
  split; [exact Hparse |]. split; [exact Hjson |].
  split.
  - rewrite Hn; [vm_compute; reflexivity | vm_compute; discriminate | exact Hparse].
  - rewrite (Hc Hjson). vm_compute. reflexivity.
Defined.

(** X14, witness: an item priced [Infinity] is finalized; its copy in the
    history has the price [null], and once that entry is regenerated
    [generatePDF] raises a TypeError. *)
Lemma copy_loses_infinite_numbers_witness :
  let P := Browser.secure in
  let gold := Item.mk (Num Scenario.t1) "Gold" (Num 1) (Num infinity) in
  let st := with_heap [[gold]] (Scenario.opened P) in
  let st' := exec (generatePDF P Scenario.t3) st in
  let st'' := exec (regenerateInvoice P 0 Scenario.t4) st' in
  drawable (current_items st) = true /\ printable (current_items st) = false /\
  current_items st'' = [Item.mk (Num Scenario.t1) "Gold" (Num 1) Null] /\
  generatePDF P Scenario.t4 st'' = (Throw TypeError, st'').
Proof.
  cbv zeta.
  set (st := with_heap [[Item.mk (Num Scenario.t1) "Gold" (Num 1) (Num infinity)]]
               (Scenario.opened Browser.secure)).
  assert (drawable (current_items st) = true) as Hd by (vm_compute; reflexivity).
  assert (printable (current_items st) = false) as Hp by (vm_compute; reflexivity).
  split; [exact Hd |]. split; [exact Hp |].
  destruct (copy_loses_infinite_numbers Browser.secure Scenario.t3 st Hd)
    as (_ & _ & _ & _ & H).
  destruct (H Hp Scenario.t4 Scenario.t4) as [Hcur Hthrow].
  split; [rewrite Hcur; vm_compute; reflexivity | exact Hthrow].
Defined.

(** X15, witness: an invoice, then a Gadget added and the Widget's id
    removed: [generatePDF] completes on the store that is left. *)
Lemma generatePDF_completes_without_regenerate_witness :
  let P := Browser.secure in
  let actions :=
    Scenario.type_item "Widget" "2" "10.00"
    ++ [AddItem Scenario.t1 Scenario.t2; GeneratePDF Scenario.t3]
    ++ Scenario.type_item "Gadget" "1" "5"
    ++ [AddItem Scenario.t3 Scenario.t3; RemoveItem (Num Scenario.t1) Scenario.t3] in
  let st := run P actions (session_start P Browser.blank_form ∅) in
  typed_history P ∅ = true /\
  forallb (fun a => negb (is_regenerate a)) actions = true /\
  current_items st = [Scenario.gadget Scenario.t3] /\
  fst (generatePDF P Scenario.t4 st) = Normal tt.
Proof.
  cbv zeta.
  set (actions :=
         Scenario.type_item "Widget" "2" "10.00"
         ++ [AddItem Scenario.t1 Scenario.t2; GeneratePDF Scenario.t3]
         ++ Scenario.type_item "Gadget" "1" "5"
         ++ [AddItem Scenario.t3 Scenario.t3; RemoveItem (Num Scenario.t1) Scenario.t3]).
  assert (forallb (fun a => negb (is_regenerate a)) actions = true) as Ha by reflexivity.
  assert (typed_history Browser.secure ∅ = true) as Ht by (vm_compute; reflexivity).
  split; [exact Ht |]. split; [exact Ha |]. split; [vm_compute; reflexivity |].
  exact (proj1 (proj2 (generatePDF_completes_without_regenerate Browser.secure
                         Browser.blank_form ∅ actions Scenario.t4 Ht Ha))).
Defined.

(** X16, witness: a session that read an empty history and made one
    invoice shows its history. *)
Lemma showHistory_completes_witness :
  let P := Browser.secure in
  let storage : gmap string string := {[ "invoiceHistory" := "[]" ]} in
  let actions :=
    Scenario.type_item "Widget" "2" "10.00"
    ++ [AddItem Scenario.t1 Scenario.t2; GeneratePDF Scenario.t3] in
  let st := run P actions (session_start P Browser.blank_form storage) in
  typed_history P storage = true /\
  listable (loaded P storage) = true /\
  length (invoiceHistory st) = 1 /\
  showHistory st = (Normal tt, st).
Proof.
  cbv zeta.
  set (actions :=
         Scenario.type_item "Widget" "2" "10.00"
         ++ [AddItem Scenario.t1 Scenario.t2; GeneratePDF Scenario.t3]).
  assert (listable (loaded Browser.secure {[ "invoiceHistory" := "[]" ]}) = true) as Hl
    by (vm_compute; reflexivity).
  assert (typed_history Browser.secure {[ "invoiceHistory" := "[]" ]} = true) as Ht
    by (vm_compute; reflexivity).
  split; [exact Ht |]. split; [exact Hl |]. split; [vm_compute; reflexivity |].
  exact (proj1 (proj1 (showHistory_completes Browser.secure Browser.blank_form
                         {[ "invoiceHistory" := "[]" ]} Ht) Hl actions 0)).
Defined.

(** X17, witness: the dark theme on a page whose light button was
    active. *)
Lemma setTheme_shows_one_theme_witness :
  let c := Theme.mk {[ "page" ]} {[ "theme-btn"; "active" ]} {[ "theme-btn" ]} in
  let c' := setTheme_classList "dark" c in
  "page" <> "dark-mode" /\
  "dark-mode" ∈ Theme.body c' /\ "page" ∈ Theme.body c' /\
  "active" ∈ Theme.btnDark c' /\ "active" ∉ Theme.btnLight c'.
Proof.
  cbv zeta.
  set (c := Theme.mk {[ "page" ]} {[ "theme-btn"; "active" ]} {[ "theme-btn" ]}).
  destruct (setTheme_shows_one_theme "dark" c (script_loaded Browser.blank_form ∅))
    as (Hbody & Hdark & Hlight & Hother & _).
  assert ("page" <> "dark-mode") as Hne by discriminate.
  split; [exact Hne |].
  split; [apply Hbody; reflexivity |].
  split.
  { apply (Hother "page" Hne). change ("page" ∈ ({[ "page" ]} : gset string)).
    apply elem_of_singleton_2. reflexivity. }
  split; [apply Hdark; reflexivity |].
  intros H. apply Hlight in H. apply H. reflexivity.
Defined.

(** X18, witness: removing an id that the Widget does not have leaves the
    Widget. *)
Lemma removeItem_absent_id_witness :
  let P := Browser.secure in
  let st := Scenario.one_item P in
  (forall item, In item (current_items st) ->
                strict_neq (Item.id item) (Num Scenario.t4) = true) /\
  current_items (exec (removeItem P (Num Scenario.t4) Scenario.t4) st) = [Scenario.widget].
Proof.
  cbv zeta.
  assert (current_items (Scenario.one_item Browser.secure) = [Scenario.widget]) as E
    by (vm_compute; reflexivity).
  assert (forall item, In item (current_items (Scenario.one_item Browser.secure)) ->
                       strict_neq (Item.id item) (Num Scenario.t4) = true) as H.
  { intros item Hin. rewrite E in Hin. destruct Hin as [<- | []]. vm_compute. reflexivity. }
  split; [exact H |].
  rewrite (proj1 (removeItem_absent_id Browser.secure) (Num Scenario.t4) Scenario.t4 _ H).
  exact E.
Defined.

(** X19, witness: on a page without [crypto.subtle] the Widget is added
    and the display then raises its TypeError: the Widget is in the
    store. *)
Lemma display_errors_keep_changes_witness :
  let P := Browser.insecure in
  let st := run P (Scenario.type_item "Widget" "2" "10.00") (Scenario.opened P) in
  let st' := exec (addItem P Scenario.t1 Scenario.t2) st in
  well_formed st = true /\ valid_form P (form st) = true /\
  crypto_subtle_digest P = None /\
  fst (addItem P Scenario.t1 Scenario.t2 st) = Throw TypeError /\
  current_items st' = [Scenario.widget].
Proof.
  cbv zeta.
  set (st := run Browser.insecure (Scenario.type_item "Widget" "2" "10.00")
               (Scenario.opened Browser.insecure)).
  assert (well_formed st = true) as Hwf by (vm_compute; reflexivity).
  assert (valid_form Browser.insecure (form st) = true) as Hv by (vm_compute; reflexivity).
  split; [exact Hwf |]. split; [exact Hv |]. split; [reflexivity |].
  destruct (proj2 (proj2 (proj2 (proj2 (display_errors_keep_changes Browser.insecure))))
              Scenario.t1 Scenario.t2 st Hwf Hv eq_refl) as (Ht & Hitems & _).
  split; [exact Ht |]. rewrite Hitems. vm_compute. reflexivity.
Defined.


(** X21, witness: the Widget invoice, once saved, can be viewed; there is
    no second entry to view. *)
Lemma viewInvoiceDetails_of_saved_entry_witness :
  let P := Browser.secure in
  let st := Scenario.one_item P in
  drawable (current_items st) = true /\
  fst (viewInvoiceDetails 0 (exec (generatePDF P Scenario.t3) st)) = Normal tt /\
  fst (viewInvoiceDetails 1 (exec (generatePDF P Scenario.t3) st)) = Throw TypeError.
Proof.
  cbv zeta.
  assert (drawable (current_items (Scenario.one_item Browser.secure)) = true) as Hd
    by (vm_compute; reflexivity).
  split; [exact Hd |]. split.
  - rewrite (proj2 (proj2 (viewInvoiceDetails_of_saved_entry Browser.secure))
               Scenario.t3 _ Hd).
    vm_compute. reflexivity.
  - vm_compute. reflexivity.
Defined.

(** X22, witness: the Widget invoice was saved with 13 percent tax and
    the total 22.6; with 5 typed as tax rate, the regenerated invoice has
    the total 21. *)
Lemma regenerateInvoice_keeps_rate_and_currency_witness :
  let P := Browser.secure in
  let st := step P (Scenario.one_invoice P) (Input Form.TaxRate "5" Scenario.t4) in
  let st' := exec (regenerateInvoice P 0 Scenario.t4) st in
  map Invoice.total (invoiceHistory st) = [Num 22.6%float] /\
  exists T,
    calculateTotals P st' = (Normal T, st') /\
    Totals.total T = 21%float /\ Totals.taxRate T = 5%float.
Proof.
  cbv zeta.
  set (st := step Browser.secure (Scenario.one_invoice Browser.secure)
               (Input Form.TaxRate "5" Scenario.t4)).
  split; [vm_compute; reflexivity |].
  destruct (invoiceHistory st !! 0) as [entry |] eqn:He; [| vm_compute in He; discriminate].
  destruct (regenerateInvoice_keeps_rate_and_currency Browser.secure 0 Scenario.t4 st
              entry He) as (_ & _ & _ & _ & _ & _ & HT).
  eexists. split; [exact HT |].
  vm_compute in He. injection He as <-. vm_compute. split; reflexivity.
Defined.

